(** * guh: a USB 2.0 host stack in gateware -- shallow embedding and properties

    The repository describes synchronous hardware (Amaranth HDL).  Each
    component is embedded as a cycle function: registers form a record,
    the signals coming from other components are the per-cycle input, and
    [step] computes the registers of the next clock edge.  Amaranth lets
    a later assignment override an earlier one ([m.d.usb +=], [m.next]);
    the step functions below write that priority out explicitly. *)

From Stdlib Require Import ZArith List Bool Lia.
Import ListNotations.
Local Open Scope Z_scope.

(** ** Bit vectors *)

(** [Signal(w)] holds an unsigned value modulo [2^w]. *)
Definition trunc (w : Z) (x : Z) : Z := x mod 2 ^ w.

(** [Cat] of fields, first field in the least significant bits. *)
Fixpoint Cat (fields : list (Z * Z)) : Z :=
  match fields with
  | [] => 0
  | (w, v) :: rest => Z.lor (trunc w v) (Z.shiftl (Cat rest) w)
  end.

(** [(v >> (n*8)) & 0xFF] *)
Definition byte_of (v : Z) (n : nat) : Z :=
  Z.land (Z.shiftr v (Z.of_nat n * 8)) 255.

(** ** guh/protocol/setup.py *)

Module Setup.

  (** Modelled from the spec: the request codes come from the
      [usb_protocol.types] package, which is not part of the sources; the
      values are those of the setup-packet table (bmRequestType 0x80 / 0x00,
      bRequest 0x05 / 0x06 / 0x09). *)
Definition Recipient_DEVICE : Z := 0.
Definition Type_STANDARD : Z := 0.
Definition Direction_HOST_TO_DEVICE : Z := 0.
Definition Direction_DEVICE_TO_HOST : Z := 1.
Definition Request_SET_ADDRESS : Z := 5.
Definition Request_GET_DESCRIPTOR : Z := 6.
Definition Request_SET_CONFIGURATION : Z := 9.
Definition DescriptorTypes_DEVICE : Z := 1.
Definition DescriptorTypes_CONFIGURATION : Z := 2.

Record SetupPayload := {
  bmRecipient : Z;   (* 5 bits *)
  bmType      : Z;   (* 2 bits *)
  bmDirection : Z;   (* 1 bit  *)
  bRequest    : Z;   (* 8 bits *)
  wValue      : Z;   (* 16 bits *)
  wIndex      : Z;   (* 16 bits *)
  wLength     : Z    (* 16 bits *)
}.

(** [Signal(SetupPayload, init=...).as_value().init] *)
Definition as_value (p : SetupPayload) : Z :=
  Cat [ (5, bmRecipient p); (2, bmType p); (1, bmDirection p);
        (8, bRequest p); (16, wValue p); (16, wIndex p); (16, wLength p) ].

Definition _dict_to_bytes (p : SetupPayload) : list Z :=
  let v := as_value p in
  map (fun n => byte_of v n) (seq 0 8).

Definition get_descriptor (descriptor_type descriptor_index language_id length : Z)
  : list Z :=
  _dict_to_bytes {|
    bmRecipient := Recipient_DEVICE;
    bmType      := Type_STANDARD;
    bmDirection := Direction_DEVICE_TO_HOST;
    bRequest    := Request_GET_DESCRIPTOR;
    wValue      := Z.lor (Z.shiftl descriptor_type 8) descriptor_index;
    wIndex      := language_id;
    wLength     := length |}.

Definition set_address (address : Z) : list Z :=
  _dict_to_bytes {|
    bmRecipient := Recipient_DEVICE;
    bmType      := Type_STANDARD;
    bmDirection := Direction_HOST_TO_DEVICE;
    bRequest    := Request_SET_ADDRESS;
    wValue      := address;
    wIndex      := 0;
    wLength     := 0 |}.

Definition set_configuration (configuration : Z) : list Z :=
  _dict_to_bytes {|
    bmRecipient := Recipient_DEVICE;
    bmType      := Type_STANDARD;
    bmDirection := Direction_HOST_TO_DEVICE;
    bRequest    := Request_SET_CONFIGURATION;
    wValue      := configuration;
    wIndex      := 0;
    wLength     := 0 |}.

(** The setup-packet ROM of the enumerator (40 bytes). *)
Definition setup_rom (device_address config_number : Z) : list Z :=
  get_descriptor DescriptorTypes_DEVICE 0 0 8 ++
  get_descriptor DescriptorTypes_DEVICE 0 0 18 ++
  set_address device_address ++
  get_descriptor DescriptorTypes_CONFIGURATION 0 0 512 ++
  set_configuration config_number.

End Setup.

(** ** guh/usbh/types.py *)

Inductive USBHostSpeed := HIGH | FULL | LOW | UNKNOWN.

Definition is_high (sp : USBHostSpeed) : bool :=
  match sp with HIGH => true | _ => false end.

(** ** guh/usbh/sie.py : USBSOFController *)

Module Sof.

Definition _SOF_CYCLES_FS : Z := 60000.
Definition _SOF_TX_TO_TX_MIN_FS : Z := 2 * 6000.
Definition _SOF_TX_TO_TX_MAX_FS : Z := 7 * 6000.
Definition _SOF_TX_TO_RX_MAX_FS : Z := 9 * 6000.
Definition _SOF_CYCLES_HS : Z := 7500.
Definition _SOF_TX_TO_TX_MIN_HS : Z := 2 * 750.
Definition _SOF_TX_TO_TX_MAX_HS : Z := 7 * 750.
Definition _SOF_TX_TO_RX_MAX_HS : Z := 9 * 750.

Definition sof_cycles (sp : USBHostSpeed) : Z :=
  if is_high sp then _SOF_CYCLES_HS else _SOF_CYCLES_FS.
Definition tx_to_tx_min (sp : USBHostSpeed) : Z :=
  if is_high sp then _SOF_TX_TO_TX_MIN_HS else _SOF_TX_TO_TX_MIN_FS.
Definition tx_to_tx_max (sp : USBHostSpeed) : Z :=
  if is_high sp then _SOF_TX_TO_TX_MAX_HS else _SOF_TX_TO_TX_MAX_FS.
Definition tx_to_rx_max (sp : USBHostSpeed) : Z :=
  if is_high sp then _SOF_TX_TO_RX_MAX_HS else _SOF_TX_TO_RX_MAX_FS.

Inductive fsm := IDLE | SEND.

Record state := {
  st                : fsm;
  sof_timer         : Z;   (* Signal(16) *)
  frame_number      : Z;   (* Signal(11) *)
  microframe_number : Z    (* Signal(3)  *)
}.

Definition init : state :=
  {| st := IDLE; sof_timer := 0; frame_number := 0; microframe_number := 0 |}.

(** Combinational outputs. *)
Definition txa (sp : USBHostSpeed) (s : state) : bool :=
  (tx_to_tx_min sp <=? sof_timer s) && (sof_timer s <? tx_to_tx_max sp).
Definition rxa (sp : USBHostSpeed) (s : state) : bool :=
  (tx_to_tx_min sp <=? sof_timer s) && (sof_timer s <? tx_to_rx_max sp).
Definition o_valid (s : state) : bool :=
  match st s with SEND => true | IDLE => false end.
(** payload of the offered token: pid SOF, data = frame number *)
Definition o_payload_data (s : state) : Z := frame_number s.

(** The cycle in which a new SOF is scheduled. *)
Definition fires (sp : USBHostSpeed) (s : state) : bool :=
  match st s with
  | IDLE => sof_timer s =? sof_cycles sp - 1
  | SEND => false
  end.

Definition step (sp : USBHostSpeed) (o_ready : bool) (s : state) : state :=
  match st s with
  | IDLE =>
      if sof_timer s =? sof_cycles sp - 1 then
        {| st := SEND;
           sof_timer := 0;
           frame_number :=
             if is_high sp then
               (if microframe_number s =? 7
                then trunc 11 (frame_number s + 1) else frame_number s)
             else trunc 11 (frame_number s + 1);
           microframe_number :=
             if is_high sp then
               (if microframe_number s =? 7
                then 0 else trunc 3 (microframe_number s + 1))
             else microframe_number s |}
      else
        {| st := IDLE;
           sof_timer := trunc 16 (sof_timer s + 1);
           frame_number := frame_number s;
           microframe_number := microframe_number s |}
  | SEND =>
      {| st := if o_ready then IDLE else SEND;
         sof_timer := trunc 16 (sof_timer s + 1);
         frame_number := frame_number s;
         microframe_number := microframe_number s |}
  end.

(** Run over the [o.ready] values of successive cycles. *)
Fixpoint run (sp : USBHostSpeed) (readys : list bool) (s : state) : state :=
  match readys with
  | [] => s
  | r :: rest => run sp rest (step sp r s)
  end.

End Sof.

(** ** amaranth.lib.fifo.SyncFIFO, as the SIE uses it

    A first-word-fall-through queue of bytes of depth [fifo_depth]:
    [w_rdy] while not full, [r_rdy] while not empty, a write and a read
    may happen in the same cycle. *)

Module Fifo.

Definition fifo_depth : nat := 64.

Definition w_rdy (f : list Z) : bool := (length f <? fifo_depth)%nat.
Definition r_rdy (f : list Z) : bool :=
  match f with [] => false | _ => true end.
Definition w_level (f : list Z) : Z := Z.of_nat (length f).

Definition step (w_en : bool) (w_data : Z) (r_en : bool) (f : list Z) : list Z :=
  let f1 := if r_en && r_rdy f then tl f else f in
  if w_en && w_rdy f then f1 ++ [w_data] else f1.

End Fifo.

(** ** guh/usbh/sie.py : USBSIE *)

Module Sie.

Inductive TransferType := SETUP | IN | OUT.
Inductive DataPID := DATA0 | DATA1.
Inductive TransferResponse :=
  NONE | ACK | NAK | STALL | TIMEOUT | CRC_ERROR | RX_OVERFLOW.
Inductive TokenPID := TOK_OUT | TOK_IN | TOK_SOF | TOK_SETUP.

Definition response_eqb (a b : TransferResponse) : bool :=
  match a, b with
  | NONE, NONE | ACK, ACK | NAK, NAK | STALL, STALL | TIMEOUT, TIMEOUT
  | CRC_ERROR, CRC_ERROR | RX_OVERFLOW, RX_OVERFLOW => true
  | _, _ => false
  end.

Definition _XFER_IPD_FS : Z := 1000.
Definition _XFER_IPD_HS : Z := 100.

Inductive fsm :=
| RESET | IDLE | DRAIN_RX | WAIT_TXA | SEND_TOKEN | WAIT_TOKEN_COMPLETE
| SEND_OUT_DATA | SEND_OUT_ZLP | WAIT_IN_DATA | WAIT_HANDSHAKE
| SEND_ACK | IPD_DRAIN_TX.

(** Registers of the engine, with its two FIFOs. *)
Record state := {
  st            : fsm;
  xfer_type     : TransferType;  (* xfer, latched at start *)
  xfer_dev_addr : Z;
  xfer_ep_addr  : Z;
  xfer_data_pid : DataPID;
  rx_len        : Z;             (* Signal(8)  *)
  response      : TransferResponse;
  tx_len        : Z;             (* Signal(8)  *)
  tx_byte_count : Z;             (* Signal(16) *)
  ipd           : Z;             (* Signal(range(1000)), 10 bits *)
  tx_fifo       : list Z;
  rx_fifo       : list Z
}.

(** Signals sampled in one cycle: the control surface and the outputs of
    the sub-components (reset controller, SOF controller, token
    generator, LUNA's transmitter, receiver and handshake detector). *)
Record input := {
  reset_active   : bool;
  detected_speed : USBHostSpeed;
  xfer_start     : bool;           (* ctrl.xfer *)
  in_type        : TransferType;
  in_dev_addr    : Z;
  in_ep_addr     : Z;
  in_data_pid    : DataPID;
  txs_valid      : bool;           (* ctrl.txs *)
  txs_payload    : Z;
  rxs_ready      : bool;           (* ctrl.rxs *)
  sof_txa        : bool;           (* sof_controller.txa / rxa *)
  sof_rxa        : bool;
  tok_ready      : bool;           (* token_generator.i.ready *)
  tok_txa        : bool;           (* token_generator.txa *)
  tx_stream_ready : bool;          (* transmitter.stream.ready *)
  rx_next        : bool;           (* receiver.stream.next *)
  rx_payload     : Z;              (* receiver.stream.payload *)
  rx_ready_for_response : bool;    (* receiver.ready_for_response *)
  rx_crc_mismatch : bool;          (* receiver.crc_mismatch *)
  hs_ack         : bool;           (* handshake_detector.detected.* *)
  hs_nak         : bool;
  hs_stall       : bool
}.

Definition init : state :=
  {| st := RESET; xfer_type := SETUP; xfer_dev_addr := 0; xfer_ep_addr := 0;
     xfer_data_pid := DATA0; rx_len := 0; response := NONE; tx_len := 0;
     tx_byte_count := 0; ipd := 0; tx_fifo := []; rx_fifo := [] |}.

(** *** Combinational outputs *)

Definition status_idle (s : state) : bool :=
  match st s with IDLE => true | _ => false end.

Definition send_sofs (s : state) : bool :=
  match st s with IDLE | DRAIN_RX | WAIT_TXA => true | _ => false end.

Definition sie_token_valid (s : state) : bool :=
  match st s with SEND_TOKEN => true | _ => false end.

Definition token_pid (s : state) : TokenPID :=
  match xfer_type s with
  | SETUP => TOK_SETUP | IN => TOK_IN | OUT => TOK_OUT
  end.

Definition sie_token_ready (i : input) (s : state) : bool :=
  negb (send_sofs s) && tok_ready i.

Definition sof_o_ready (i : input) (s : state) : bool :=
  send_sofs s && tok_ready i.


Definition rx_w_en (i : input) (s : state) : bool :=
  match st s with
  | WAIT_IN_DATA => rx_next i && Fifo.w_rdy (rx_fifo s)
  | _ => false
  end.

(** a received byte that finds the Rx FIFO full *)
Definition rx_dropped (i : input) (s : state) : bool :=
  match st s with
  | WAIT_IN_DATA => rx_next i && negb (Fifo.w_rdy (rx_fifo s))
  | _ => false
  end.

(** a byte handed over by the receiver during WAIT_IN_DATA *)
Definition rx_received (i : input) (s : state) : bool :=
  match st s with
  | WAIT_IN_DATA => rx_next i
  | _ => false
  end.

Definition rx_r_en (i : input) (s : state) : bool :=
  match st s with
  | DRAIN_RX => Fifo.r_rdy (rx_fifo s)
  | _ => rxs_ready i
  end.

Definition tx_r_en (i : input) (s : state) : bool :=
  match st s with
  | SEND_OUT_DATA => tx_stream_ready i && Fifo.r_rdy (tx_fifo s)
  | IPD_DRAIN_TX => Fifo.r_rdy (tx_fifo s)
  | _ => false
  end.

Definition ipd_max (i : input) : Z :=
  if is_high (detected_speed i) then _XFER_IPD_HS else _XFER_IPD_FS.

(** *** Next state *)

(** WAIT_IN_DATA: the [m.If] blocks in source order; a later block
    overrides [response] and [m.next] of an earlier one. *)
Definition wait_in_data_response (i : input) (s : state) : TransferResponse :=
  if negb (sof_rxa i) then TIMEOUT
  else if hs_stall i then STALL
  else if hs_nak i then NAK
  else if rx_crc_mismatch i then CRC_ERROR
  else if rx_next i && negb (Fifo.w_rdy (rx_fifo s)) then RX_OVERFLOW
  else response s.

Definition wait_in_data_next (i : input) (s : state) : fsm :=
  if negb (sof_rxa i) then IPD_DRAIN_TX
  else if hs_stall i then IPD_DRAIN_TX
  else if hs_nak i then IPD_DRAIN_TX
  else if rx_crc_mismatch i then IPD_DRAIN_TX
  else if rx_ready_for_response i then
    (if response_eqb (response s) RX_OVERFLOW then IPD_DRAIN_TX else SEND_ACK)
  else WAIT_IN_DATA.

Definition wait_handshake_response (i : input) (s : state) : TransferResponse :=
  if negb (sof_rxa i) then TIMEOUT
  else if hs_stall i then STALL
  else if hs_nak i then NAK
  else if hs_ack i then ACK
  else response s.

Definition wait_handshake_next (i : input) : fsm :=
  if negb (sof_rxa i) || hs_stall i || hs_nak i || hs_ack i
  then IPD_DRAIN_TX else WAIT_HANDSHAKE.

Definition next_st (i : input) (s : state) : fsm :=
  match st s with
  | RESET => if negb (reset_active i) then IDLE else RESET
  | IDLE => if xfer_start i then DRAIN_RX else IDLE
  | DRAIN_RX => if negb (Fifo.r_rdy (rx_fifo s)) then WAIT_TXA else DRAIN_RX
  | WAIT_TXA => if sof_txa i then SEND_TOKEN else WAIT_TXA
  | SEND_TOKEN => if sie_token_ready i s then WAIT_TOKEN_COMPLETE else SEND_TOKEN
  | WAIT_TOKEN_COMPLETE =>
      if tok_txa i then
        match xfer_type s with
        | IN => WAIT_IN_DATA
        | _ => if tx_len s =? 0 then SEND_OUT_ZLP else SEND_OUT_DATA
        end
      else WAIT_TOKEN_COMPLETE
  | SEND_OUT_DATA =>
      if tx_stream_ready i && Fifo.r_rdy (tx_fifo s)
         && (tx_byte_count s =? tx_len s - 1)
      then WAIT_HANDSHAKE else SEND_OUT_DATA
  | SEND_OUT_ZLP => WAIT_HANDSHAKE
  | WAIT_IN_DATA => wait_in_data_next i s
  | WAIT_HANDSHAKE => wait_handshake_next i
  | SEND_ACK => IPD_DRAIN_TX
  | IPD_DRAIN_TX =>
      if (ipd s =? ipd_max i - 1) && negb (Fifo.r_rdy (tx_fifo s))
      then IDLE else IPD_DRAIN_TX
  end.

Definition next_response (i : input) (s : state) : TransferResponse :=
  match st s with
  | IDLE => if xfer_start i then NONE else response s
  | WAIT_IN_DATA => wait_in_data_response i s
  | WAIT_HANDSHAKE => wait_handshake_response i s
  | SEND_ACK => ACK
  | _ => response s
  end.

Definition next_rx_len (i : input) (s : state) : Z :=
  match st s with
  | IDLE => if xfer_start i then 0 else rx_len s
  | WAIT_IN_DATA => if rx_next i then trunc 8 (rx_len s + 1) else rx_len s
  | _ => rx_len s
  end.

Definition next_tx_byte_count (i : input) (s : state) : Z :=
  match st s with
  | IDLE => if xfer_start i then 0 else tx_byte_count s
  | SEND_OUT_DATA =>
      if tx_stream_ready i && Fifo.r_rdy (tx_fifo s) then
        (if tx_byte_count s =? tx_len s - 1 then 0
         else trunc 16 (tx_byte_count s + 1))
      else tx_byte_count s
  | _ => tx_byte_count s
  end.

Definition next_ipd (i : input) (s : state) : Z :=
  match st s with
  | IPD_DRAIN_TX =>
      if (ipd s =? ipd_max i - 1) && negb (Fifo.r_rdy (tx_fifo s))
      then 0 else trunc 10 (ipd s + 1)
  | _ => ipd s
  end.

Definition latch (i : input) (s : state) : bool :=
  match st s with IDLE => xfer_start i | _ => false end.

Definition step (i : input) (s : state) : state :=
  {| st            := next_st i s;
     xfer_type     := if latch i s then in_type i else xfer_type s;
     xfer_dev_addr := if latch i s then in_dev_addr i else xfer_dev_addr s;
     xfer_ep_addr  := if latch i s then in_ep_addr i else xfer_ep_addr s;
     xfer_data_pid := if latch i s then in_data_pid i else xfer_data_pid s;
     rx_len        := next_rx_len i s;
     response      := next_response i s;
     tx_len        := if latch i s then trunc 8 (Fifo.w_level (tx_fifo s))
                      else tx_len s;
     tx_byte_count := next_tx_byte_count i s;
     ipd           := next_ipd i s;
     tx_fifo       := Fifo.step (txs_valid i) (txs_payload i) (tx_r_en i s)
                                (tx_fifo s);
     rx_fifo       := Fifo.step (rx_w_en i s) (rx_payload i) (rx_r_en i s)
                                (rx_fifo s) |}.

Fixpoint run (ins : list input) (s : state) : state :=
  match ins with
  | [] => s
  | i :: rest => run rest (step i s)
  end.

(** How often a per-cycle event [ev] occurs along a run. *)
Fixpoint count (ev : input -> state -> bool) (ins : list input) (s : state) : Z :=
  match ins with
  | [] => 0
  | i :: rest => (if ev i s then 1 else 0) + count ev rest (step i s)
  end.


(** no transfer is started by any of these inputs *)
Definition no_start (ins : list input) : bool :=
  forallb (fun i => negb (xfer_start i)) ins.



(** One cycle of stimulus; everything not listed is inactive. *)
Definition cycle (start txa tokrdy toktxa nxt rfr rxa rxsrdy : bool) (b : Z)
  : input :=
  {| reset_active := false; detected_speed := FULL;
     xfer_start := start; in_type := IN; in_dev_addr := 0x12; in_ep_addr := 1;
     in_data_pid := DATA0;
     txs_valid := false; txs_payload := 0; rxs_ready := rxsrdy;
     sof_txa := txa; sof_rxa := rxa;
     tok_ready := tokrdy; tok_txa := toktxa; tx_stream_ready := false;
     rx_next := nxt; rx_payload := b;
     rx_ready_for_response := rfr; rx_crc_mismatch := false;
     hs_ack := false; hs_nak := false; hs_stall := false |}.

Definition quiet : input := cycle false false false false false false true false 0.
Definition start_in : input := cycle true false false false false false true false 0.
Definition txa_open : input := cycle false true false false false false true false 0.
Definition token_taken : input := cycle false false true false false false true false 0.
Definition token_done : input := cycle false false false true false false true false 0.
Definition rx_byte (b : Z) : input := cycle false false false false true false true false b.
Definition packet_end : input := cycle false false false false false true true false 0.

(** the engine after reset, idle *)
Definition idle0 : state := step quiet init.

(** An IN transfer up to the data phase, then [n] received bytes that the
    consumer does not read. *)
Definition in_transfer_bytes (n : nat) : list input :=
  [start_in; quiet; txa_open; token_taken; token_done]
  ++ map (fun k => rx_byte (Z.of_nat k)) (seq 0 n).

(** the inter-packet delay that ends a transaction at full speed *)
Definition ipd_cycles : list input := repeat quiet (Z.to_nat _XFER_IPD_FS).

End Sie.

(** ** guh/usbh/enumerator.py : USBHostEnumerator *)

Module Enumerator.

Import Sie.

Definition _SOF_DELAY_RDY : Z := 63.   (* 0x3f *)

Inductive fsm :=
| INIT_RESET
| WAIT_SIE_READY
(* stage 1 *)
| ENUM_GET_DESC_DEVICE_LOAD
| ENUM_GET_DESC_DEVICE_XFER
| ENUM_GET_DESC_DEVICE_WAIT_SETUP
| ENUM_GET_DESC_DEVICE_IN
| ENUM_GET_DESC_DEVICE_WAIT_IN
| ENUM_GET_DESC_DEVICE_STATUS
| ENUM_GET_DESC_DEVICE_WAIT_STATUS
| ENUM_GET_DESC_DEVICE_SET_MPS
| ENUM_GET_DESC_DEVICE_COMPLETE
(* stage 2 *)
| ENUM_SET_ADDRESS_LOAD
| ENUM_SET_ADDRESS_XFER
| ENUM_SET_ADDRESS_WAIT_SETUP
| ENUM_SET_ADDRESS_STATUS
| ENUM_SET_ADDRESS_WAIT_STATUS
| ENUM_SET_ADDRESS_UPDATE_ADDR
(* stage 3 *)
| ENUM_GET_DESC_DEVICE_FULL_LOAD
| ENUM_GET_DESC_DEVICE_FULL_XFER
| ENUM_GET_DESC_DEVICE_FULL_WAIT_SETUP
| ENUM_GET_DESC_DEVICE_FULL_IN
| ENUM_GET_DESC_DEVICE_FULL_WAIT_IN
| ENUM_GET_DESC_DEVICE_FULL_STATUS
| ENUM_GET_DESC_DEVICE_FULL_WAIT_STATUS
| ENUM_GET_DESC_DEVICE_FULL_COMPLETE
(* stage 4 *)
| ENUM_GET_DESC_CONFIG_LOAD
| ENUM_GET_DESC_CONFIG_XFER
| ENUM_GET_DESC_CONFIG_WAIT_SETUP
| ENUM_GET_DESC_CONFIG_IN
| ENUM_GET_DESC_CONFIG_WAIT_IN
| ENUM_GET_DESC_CONFIG_STATUS
| ENUM_GET_DESC_CONFIG_WAIT_STATUS
| ENUM_GET_DESC_CONFIG_COMPLETE
(* stage 5 *)
| ENUM_SET_CONFIG_LOAD
| ENUM_SET_CONFIG_XFER
| ENUM_SET_CONFIG_WAIT_SETUP
| ENUM_SET_CONFIG_STATUS
| ENUM_SET_CONFIG_WAIT_STATUS
| ENUMERATION_COMPLETE
| IDLE.

Record state := {
  st               : fsm;
  current_dev_addr : Z;     (* Signal(7) *)
  enum_retry       : Z;     (* Signal(range(4)), 2 bits *)
  reset_triggered  : bool;
  setup_byte_ix    : Z;     (* Signal(range(8)), 3 bits *)
  max_packet_size  : Z;     (* Signal(8), init 64 *)
  last_packet_byte : Z;     (* Signal(8) *)
  enumerated       : bool
}.

Definition init : state :=
  {| st := INIT_RESET; current_dev_addr := 0; enum_retry := 0;
     reset_triggered := false; setup_byte_ix := 0; max_packet_size := 64;
     last_packet_byte := 0; enumerated := false |}.

(** What the enumerator samples from its SIE in one cycle. *)
Record input := {
  status_idle     : bool;
  status_response : TransferResponse;
  status_rx_len   : Z;
  status_sof_frame : Z;
  detected_speed  : USBHostSpeed;
  txs_ready       : bool;
  rxs_valid       : bool;
  rxs_payload     : Z
}.

(** The transfer request driven onto [sie.ctrl.xfer] ([start] = 1). *)
Record Transfer := {
  type     : TransferType;
  dev_addr : Z;
  ep_addr  : Z;
  data_pid : DataPID
}.

(** Registers that a helper may change; the rest is kept. *)
Definition goto (nxt : fsm) (s : state) : state :=
  {| st := nxt; current_dev_addr := current_dev_addr s;
     enum_retry := enum_retry s; reset_triggered := reset_triggered s;
     setup_byte_ix := setup_byte_ix s; max_packet_size := max_packet_size s;
     last_packet_byte := last_packet_byte s; enumerated := enumerated s |}.

Definition set_enum_retry (v : Z) (s : state) : state :=
  {| st := st s; current_dev_addr := current_dev_addr s;
     enum_retry := v; reset_triggered := reset_triggered s;
     setup_byte_ix := setup_byte_ix s; max_packet_size := max_packet_size s;
     last_packet_byte := last_packet_byte s; enumerated := enumerated s |}.

Definition set_setup_byte_ix (v : Z) (s : state) : state :=
  {| st := st s; current_dev_addr := current_dev_addr s;
     enum_retry := enum_retry s; reset_triggered := reset_triggered s;
     setup_byte_ix := v; max_packet_size := max_packet_size s;
     last_packet_byte := last_packet_byte s; enumerated := enumerated s |}.

Definition set_last_packet_byte (v : Z) (s : state) : state :=
  {| st := st s; current_dev_addr := current_dev_addr s;
     enum_retry := enum_retry s; reset_triggered := reset_triggered s;
     setup_byte_ix := setup_byte_ix s; max_packet_size := max_packet_size s;
     last_packet_byte := v; enumerated := enumerated s |}.

(** *** The state generators *)

Definition make_load_setup_state (next_state : fsm) (i : input) (s : state)
  : state :=
  if txs_ready i then
    if setup_byte_ix s =? 7
    then goto next_state (set_setup_byte_ix 0 s)
    else set_setup_byte_ix (trunc 3 (setup_byte_ix s + 1)) s
  else s.

Definition make_setup_xfer_state (next_state : fsm) (i : input) (s : state)
  : state :=
  if status_idle i then goto next_state s else s.

(** [retry = Some retry_from] when [retry_sig] is given ([enum_retry]). *)
Definition make_wait_ack_state (on_ack on_error : fsm) (retry : option fsm)
           (i : input) (s : state) : state :=
  if status_idle i then
    match status_response i with
    | ACK =>
        match retry with
        | Some _ => goto on_ack (set_enum_retry 0 s)
        | None => goto on_ack s
        end
    | NAK | TIMEOUT =>
        match retry with
        | Some retry_from =>
            if 3 <=? enum_retry s
            then goto on_error (set_enum_retry 0 s)
            else goto retry_from (set_enum_retry (trunc 2 (enum_retry s + 1)) s)
        | None => goto on_error s
        end
    | _ => s
    end
  else s.

Definition in_load (wait_state : fsm) (i : input) (s : state) : state :=
  if status_idle i then goto wait_state s else s.

Definition make_in_data_wait (load_state next_state : fsm)
           (i : input) (s : state) : state :=
  let s1 := if rxs_valid i then set_last_packet_byte (rxs_payload i) s else s in
  if status_idle i then
    match status_response i with
    | ACK => goto next_state s1
    | NAK => goto load_state s1
    | _ => goto next_state s1
    end
  else s1.

Definition make_multi_packet_in_wait (in_state next_state : fsm)
           (i : input) (s : state) : state :=
  if status_idle i then
    match status_response i with
    | ACK =>
        if status_rx_len i =? max_packet_size s
        then goto in_state s
        else goto next_state s
    | NAK => goto in_state s
    | _ => goto next_state s
    end
  else s.

Definition make_status_phase_wait (status_state wait_state next_state on_timeout : fsm)
           (i : input) (s : state) : state :=
  if status_idle i then
    match status_response i with
    | ACK => goto next_state s
    | NAK => goto status_state s
    | TIMEOUT => goto on_timeout s
    | _ => goto wait_state s
    end
  else s.

Section Configured.

Variable device_address : Z.

Definition step (i : input) (s : state) : state :=
  match st s with
  | INIT_RESET =>
      match detected_speed i with
      | UNKNOWN =>
          {| st := INIT_RESET; current_dev_addr := current_dev_addr s;
             enum_retry := enum_retry s;
             reset_triggered := true;
             setup_byte_ix := setup_byte_ix s;
             max_packet_size := max_packet_size s;
             last_packet_byte := last_packet_byte s;
             enumerated := enumerated s |}
      | _ =>
          {| st := WAIT_SIE_READY; current_dev_addr := current_dev_addr s;
             enum_retry := 0;
             reset_triggered := false;
             setup_byte_ix := setup_byte_ix s;
             max_packet_size := max_packet_size s;
             last_packet_byte := last_packet_byte s;
             enumerated := enumerated s |}
      end
  | WAIT_SIE_READY =>
      if status_idle i &&
         (Z.land (status_sof_frame i) _SOF_DELAY_RDY =? _SOF_DELAY_RDY)
      then goto ENUM_GET_DESC_DEVICE_LOAD s else s
  (* stage 1 *)
  | ENUM_GET_DESC_DEVICE_LOAD =>
      make_load_setup_state ENUM_GET_DESC_DEVICE_XFER i s
  | ENUM_GET_DESC_DEVICE_XFER =>
      make_setup_xfer_state ENUM_GET_DESC_DEVICE_WAIT_SETUP i s
  | ENUM_GET_DESC_DEVICE_WAIT_SETUP =>
      make_wait_ack_state ENUM_GET_DESC_DEVICE_IN INIT_RESET
                          (Some ENUM_GET_DESC_DEVICE_LOAD) i s
  | ENUM_GET_DESC_DEVICE_IN =>
      in_load ENUM_GET_DESC_DEVICE_WAIT_IN i s
  | ENUM_GET_DESC_DEVICE_WAIT_IN =>
      make_in_data_wait ENUM_GET_DESC_DEVICE_IN ENUM_GET_DESC_DEVICE_STATUS i s
  | ENUM_GET_DESC_DEVICE_STATUS =>
      in_load ENUM_GET_DESC_DEVICE_WAIT_STATUS i s
  | ENUM_GET_DESC_DEVICE_WAIT_STATUS =>
      make_status_phase_wait ENUM_GET_DESC_DEVICE_STATUS
        ENUM_GET_DESC_DEVICE_WAIT_STATUS ENUM_GET_DESC_DEVICE_SET_MPS
        INIT_RESET i s
  | ENUM_GET_DESC_DEVICE_SET_MPS =>
      {| st := ENUM_GET_DESC_DEVICE_COMPLETE;
         current_dev_addr := current_dev_addr s;
         enum_retry := enum_retry s; reset_triggered := reset_triggered s;
         setup_byte_ix := setup_byte_ix s;
         max_packet_size := last_packet_byte s;
         last_packet_byte := last_packet_byte s;
         enumerated := enumerated s |}
  | ENUM_GET_DESC_DEVICE_COMPLETE =>
      goto ENUM_SET_ADDRESS_LOAD (set_enum_retry 0 s)
  (* stage 2 *)
  | ENUM_SET_ADDRESS_LOAD =>
      make_load_setup_state ENUM_SET_ADDRESS_XFER i s
  | ENUM_SET_ADDRESS_XFER =>
      make_setup_xfer_state ENUM_SET_ADDRESS_WAIT_SETUP i s
  | ENUM_SET_ADDRESS_WAIT_SETUP =>
      make_wait_ack_state ENUM_SET_ADDRESS_STATUS INIT_RESET None i s
  | ENUM_SET_ADDRESS_STATUS =>
      in_load ENUM_SET_ADDRESS_WAIT_STATUS i s
  | ENUM_SET_ADDRESS_WAIT_STATUS =>
      make_status_phase_wait ENUM_SET_ADDRESS_STATUS
        ENUM_SET_ADDRESS_WAIT_STATUS ENUM_SET_ADDRESS_UPDATE_ADDR
        INIT_RESET i s
  | ENUM_SET_ADDRESS_UPDATE_ADDR =>
      {| st := ENUM_GET_DESC_DEVICE_FULL_LOAD;
         current_dev_addr := trunc 7 device_address;
         enum_retry := 0; reset_triggered := reset_triggered s;
         setup_byte_ix := setup_byte_ix s;
         max_packet_size := max_packet_size s;
         last_packet_byte := last_packet_byte s;
         enumerated := enumerated s |}
  (* stage 3 *)
  | ENUM_GET_DESC_DEVICE_FULL_LOAD =>
      make_load_setup_state ENUM_GET_DESC_DEVICE_FULL_XFER i s
  | ENUM_GET_DESC_DEVICE_FULL_XFER =>
      make_setup_xfer_state ENUM_GET_DESC_DEVICE_FULL_WAIT_SETUP i s
  | ENUM_GET_DESC_DEVICE_FULL_WAIT_SETUP =>
      make_wait_ack_state ENUM_GET_DESC_DEVICE_FULL_IN INIT_RESET
                          (Some ENUM_GET_DESC_DEVICE_FULL_LOAD) i s
  | ENUM_GET_DESC_DEVICE_FULL_IN =>
      in_load ENUM_GET_DESC_DEVICE_FULL_WAIT_IN i s
  | ENUM_GET_DESC_DEVICE_FULL_WAIT_IN =>
      make_multi_packet_in_wait ENUM_GET_DESC_DEVICE_FULL_IN
                                ENUM_GET_DESC_DEVICE_FULL_STATUS i s
  | ENUM_GET_DESC_DEVICE_FULL_STATUS =>
      in_load ENUM_GET_DESC_DEVICE_FULL_WAIT_STATUS i s
  | ENUM_GET_DESC_DEVICE_FULL_WAIT_STATUS =>
      make_status_phase_wait ENUM_GET_DESC_DEVICE_FULL_STATUS
        ENUM_GET_DESC_DEVICE_FULL_WAIT_STATUS
        ENUM_GET_DESC_DEVICE_FULL_COMPLETE INIT_RESET i s
  | ENUM_GET_DESC_DEVICE_FULL_COMPLETE =>
      goto ENUM_GET_DESC_CONFIG_LOAD (set_enum_retry 0 s)
  (* stage 4 *)
  | ENUM_GET_DESC_CONFIG_LOAD =>
      make_load_setup_state ENUM_GET_DESC_CONFIG_XFER i s
  | ENUM_GET_DESC_CONFIG_XFER =>
      make_setup_xfer_state ENUM_GET_DESC_CONFIG_WAIT_SETUP i s
  | ENUM_GET_DESC_CONFIG_WAIT_SETUP =>
      make_wait_ack_state ENUM_GET_DESC_CONFIG_IN INIT_RESET
                          (Some ENUM_GET_DESC_CONFIG_LOAD) i s
  | ENUM_GET_DESC_CONFIG_IN =>
      in_load ENUM_GET_DESC_CONFIG_WAIT_IN i s
  | ENUM_GET_DESC_CONFIG_WAIT_IN =>
      make_multi_packet_in_wait ENUM_GET_DESC_CONFIG_IN
                                ENUM_GET_DESC_CONFIG_STATUS i s
  | ENUM_GET_DESC_CONFIG_STATUS =>
      in_load ENUM_GET_DESC_CONFIG_WAIT_STATUS i s
  | ENUM_GET_DESC_CONFIG_WAIT_STATUS =>
      make_status_phase_wait ENUM_GET_DESC_CONFIG_STATUS
        ENUM_GET_DESC_CONFIG_WAIT_STATUS ENUM_GET_DESC_CONFIG_COMPLETE
        INIT_RESET i s
  | ENUM_GET_DESC_CONFIG_COMPLETE =>
      goto ENUM_SET_CONFIG_LOAD (set_enum_retry 0 s)
  (* stage 5 *)
  | ENUM_SET_CONFIG_LOAD =>
      make_load_setup_state ENUM_SET_CONFIG_XFER i s
  | ENUM_SET_CONFIG_XFER =>
      make_setup_xfer_state ENUM_SET_CONFIG_WAIT_SETUP i s
  | ENUM_SET_CONFIG_WAIT_SETUP =>
      make_wait_ack_state ENUM_SET_CONFIG_STATUS INIT_RESET None i s
  | ENUM_SET_CONFIG_STATUS =>
      in_load ENUM_SET_CONFIG_WAIT_STATUS i s
  | ENUM_SET_CONFIG_WAIT_STATUS =>
      make_status_phase_wait ENUM_SET_CONFIG_STATUS
        ENUM_SET_CONFIG_WAIT_STATUS ENUMERATION_COMPLETE INIT_RESET i s
  | ENUMERATION_COMPLETE =>
      {| st := IDLE; current_dev_addr := current_dev_addr s;
         enum_retry := enum_retry s; reset_triggered := reset_triggered s;
         setup_byte_ix := setup_byte_ix s;
         max_packet_size := max_packet_size s;
         last_packet_byte := last_packet_byte s;
         enumerated := true |}
  | IDLE => s
  end.

Fixpoint run (ins : list input) (s : state) : state :=
  match ins with
  | [] => s
  | i :: rest => run rest (step i s)
  end.

End Configured.

(** *** Combinational outputs *)

Definition xfer_of (t : TransferType) (p : DataPID) (a : Z) : Transfer :=
  {| type := t; dev_addr := a; ep_addr := 0; data_pid := p |}.

(** [sie.ctrl.xfer] with [start] asserted, if any, while the enumerator
    owns the control surface. *)
Definition xfer_out (i : input) (s : state) : option Transfer :=
  if status_idle i then
    match st s with
    | ENUM_GET_DESC_DEVICE_XFER | ENUM_SET_ADDRESS_XFER =>
        Some (xfer_of SETUP DATA0 0)
    | ENUM_GET_DESC_DEVICE_FULL_XFER | ENUM_GET_DESC_CONFIG_XFER
    | ENUM_SET_CONFIG_XFER =>
        Some (xfer_of SETUP DATA0 (current_dev_addr s))
    | ENUM_GET_DESC_DEVICE_IN => Some (xfer_of IN DATA1 0)
    | ENUM_GET_DESC_DEVICE_FULL_IN | ENUM_GET_DESC_CONFIG_IN =>
        Some (xfer_of IN DATA1 (current_dev_addr s))
    | ENUM_GET_DESC_DEVICE_STATUS => Some (xfer_of OUT DATA1 0)
    | ENUM_SET_ADDRESS_STATUS => Some (xfer_of IN DATA1 0)
    | ENUM_GET_DESC_DEVICE_FULL_STATUS | ENUM_GET_DESC_CONFIG_STATUS =>
        Some (xfer_of OUT DATA1 (current_dev_addr s))
    | ENUM_SET_CONFIG_STATUS => Some (xfer_of IN DATA1 (current_dev_addr s))
    | _ => None
    end
  else None.

Definition bus_reset (s : state) : bool :=
  match st s with
  | INIT_RESET => negb (reset_triggered s)
  | _ => false
  end.

Definition desc_stream_active (s : state) : bool :=
  match st s with
  | ENUM_GET_DESC_CONFIG_IN | ENUM_GET_DESC_CONFIG_WAIT_IN => true
  | _ => false
  end.

(** offset into the setup ROM while a LOAD state drives [txs] *)
Definition setup_offset (s : state) : option Z :=
  match st s with
  | ENUM_GET_DESC_DEVICE_LOAD => Some 0
  | ENUM_SET_ADDRESS_LOAD => Some 16
  | ENUM_GET_DESC_DEVICE_FULL_LOAD => Some 8
  | ENUM_GET_DESC_CONFIG_LOAD => Some 24
  | ENUM_SET_CONFIG_LOAD => Some 32
  | _ => None
  end.

(** byte driven on [sie.ctrl.txs] by a LOAD state: the setup ROM read at
    [setup_offset + setup_byte_ix] *)
Definition txs_out (device_address config_number : Z) (s : state) : option Z :=
  match setup_offset s with
  | Some o =>
      Some (nth (Z.to_nat (o + setup_byte_ix s))
                (Setup.setup_rom device_address config_number) 0)
  | None => None
  end.

(** *** The five stages and their sub-phase states *)

Inductive stage := Stage1 | Stage2 | Stage3 | Stage4 | Stage5.

Definition load_state (g : stage) : fsm :=
  match g with
  | Stage1 => ENUM_GET_DESC_DEVICE_LOAD
  | Stage2 => ENUM_SET_ADDRESS_LOAD
  | Stage3 => ENUM_GET_DESC_DEVICE_FULL_LOAD
  | Stage4 => ENUM_GET_DESC_CONFIG_LOAD
  | Stage5 => ENUM_SET_CONFIG_LOAD
  end.

Definition wait_setup_state (g : stage) : fsm :=
  match g with
  | Stage1 => ENUM_GET_DESC_DEVICE_WAIT_SETUP
  | Stage2 => ENUM_SET_ADDRESS_WAIT_SETUP
  | Stage3 => ENUM_GET_DESC_DEVICE_FULL_WAIT_SETUP
  | Stage4 => ENUM_GET_DESC_CONFIG_WAIT_SETUP
  | Stage5 => ENUM_SET_CONFIG_WAIT_SETUP
  end.

Definition status_state (g : stage) : fsm :=
  match g with
  | Stage1 => ENUM_GET_DESC_DEVICE_STATUS
  | Stage2 => ENUM_SET_ADDRESS_STATUS
  | Stage3 => ENUM_GET_DESC_DEVICE_FULL_STATUS
  | Stage4 => ENUM_GET_DESC_CONFIG_STATUS
  | Stage5 => ENUM_SET_CONFIG_STATUS
  end.

Definition wait_status_state (g : stage) : fsm :=
  match g with
  | Stage1 => ENUM_GET_DESC_DEVICE_WAIT_STATUS
  | Stage2 => ENUM_SET_ADDRESS_WAIT_STATUS
  | Stage3 => ENUM_GET_DESC_DEVICE_FULL_WAIT_STATUS
  | Stage4 => ENUM_GET_DESC_CONFIG_WAIT_STATUS
  | Stage5 => ENUM_SET_CONFIG_WAIT_STATUS
  end.

(** stages whose SETUP wait was generated with [retry_sig=enum_retry] *)
Definition has_setup_retry (g : stage) : bool :=
  match g with
  | Stage1 | Stage3 | Stage4 => true
  | Stage2 | Stage5 => false
  end.

(** the multi-packet IN data phases (stages 3 and 4) *)
Inductive multi_stage := MultiStage3 | MultiStage4.

Definition multi_in_state (g : multi_stage) : fsm :=
  match g with
  | MultiStage3 => ENUM_GET_DESC_DEVICE_FULL_IN
  | MultiStage4 => ENUM_GET_DESC_CONFIG_IN
  end.

Definition multi_wait_state (g : multi_stage) : fsm :=
  match g with
  | MultiStage3 => ENUM_GET_DESC_DEVICE_FULL_WAIT_IN
  | MultiStage4 => ENUM_GET_DESC_CONFIG_WAIT_IN
  end.

Definition multi_next_state (g : multi_stage) : fsm :=
  match g with
  | MultiStage3 => ENUM_GET_DESC_DEVICE_FULL_STATUS
  | MultiStage4 => ENUM_GET_DESC_CONFIG_STATUS
  end.

(** *** Stimulus and observation *)

(** the transfers requested along a run, in order *)
Fixpoint issued (device_address : Z) (ins : list input) (s : state)
  : list Transfer :=
  match ins with
  | [] => []
  | i :: rest =>
      match xfer_out i s with
      | Some t => t :: issued device_address rest (step device_address i s)
      | None => issued device_address rest (step device_address i s)
      end
  end.

(** the SIE is idle and shows response [r]; the Tx stream accepts a byte *)
Definition idle_cycle (r : TransferResponse) (len : Z) : input :=
  {| status_idle := true; status_response := r; status_rx_len := len;
     status_sof_frame := 0; detected_speed := FULL; txs_ready := true;
     rxs_valid := false; rxs_payload := 0 |}.

(** the SIE is busy with a transaction *)
Definition busy_cycle : input :=
  {| status_idle := false; status_response := NONE; status_rx_len := 0;
     status_sof_frame := 0; detected_speed := FULL; txs_ready := true;
     rxs_valid := false; rxs_payload := 0 |}.

(** One SETUP attempt: eight bytes loaded, the transfer started, [busy]
    cycles of waiting, then the SIE idle again with response [r]. *)
Definition setup_attempt (busy : nat) (r : TransferResponse) : list input :=
  repeat (idle_cycle NONE 0) 8 ++ [idle_cycle NONE 0] ++ repeat busy_cycle busy
  ++ [idle_cycle r 0].

Definition is_failure (r : TransferResponse) : bool :=
  match r with NAK | TIMEOUT => true | _ => false end.

(** a state of the given FSM state with fresh registers *)
Definition at_state (f : fsm) (addr mps : Z) : state :=
  {| st := f; current_dev_addr := addr; enum_retry := 0;
     reset_triggered := false; setup_byte_ix := 0; max_packet_size := mps;
     last_packet_byte := 0; enumerated := false |}.

(** [reset_triggered] is only ever set while the FSM sits in INIT-RESET. *)
Definition reset_flag_ok (s : state) : Prop :=
  st s <> INIT_RESET -> reset_triggered s = false.

End Enumerator.

(** ** guh/usbh/descriptor.py : USBDescriptorParser *)

Module Parser.

Inductive EndpointFilter := IN | OUT | IN_AND_OUT.

(* guh/protocol/descriptors.py *)
Definition DescriptorType_INTERFACE : Z := 4.
Definition DescriptorType_ENDPOINT : Z := 5.
Definition EndpointTransferType_BULK : Z := 2.
Definition InterfaceClass_AUDIO : Z := 1.
Definition InterfaceClass_MASS_STORAGE : Z := 8.

(** Constructor arguments. *)
Record config := {
  endpoint_filter    : EndpointFilter;
  transfer_type      : Z;
  interface_class    : Z;
  interface_subclass : option Z;
  interface_protocol : option Z
}.

Definition want_in (c : config) : bool :=
  match endpoint_filter c with IN | IN_AND_OUT => true | OUT => false end.
Definition want_out (c : config) : bool :=
  match endpoint_filter c with OUT | IN_AND_OUT => true | IN => false end.

Inductive fsm := INIT | GET_LEN | IN_DESCRIPTOR | DONE.

Record state := {
  st             : fsm;
  bLength        : Z;     (* Signal(8) *)
  offset         : Z;     (* Signal(8) *)
  desc_type      : Z;
  iface_class    : Z;
  iface_subclass : Z;
  iface_protocol : Z;
  in_matching_interface : bool;
  endp_addr      : Z;     (* EndpointAddress, 8 bits *)
  endp_attr      : Z;     (* EndpointAttributes, 8 bits *)
  found_in       : bool;
  found_out      : bool;
  o_i_endp       : Z;
  o_o_endp       : Z;
  o_valid        : bool
}.

Definition init : state :=
  {| st := INIT; bLength := 0; offset := 0; desc_type := 0; iface_class := 0;
     iface_subclass := 0; iface_protocol := 0; in_matching_interface := false;
     endp_addr := 0; endp_attr := 0; found_in := false; found_out := false;
     o_i_endp := 0; o_o_endp := 0; o_valid := false |}.

Record input := {
  enable    : bool;
  i_valid   : bool;
  i_payload : Z
}.

(** [i.ready]: 1 by default, 0 only in INIT. *)
Definition i_ready (s : state) : bool :=
  match st s with INIT => false | _ => true end.


Definition EndpointAddress_direction_in (a : Z) : bool := Z.testbit a 7.
Definition EndpointAttributes_transfer_type (a : Z) : Z := Z.land a 3.

Section Configured.

Variable c : config.

Definition interface_match (s : state) : bool :=
  (iface_class s =? interface_class c)
  && match interface_subclass c with
     | Some sc => iface_subclass s =? sc
     | None => true
     end
  && match interface_protocol c with
     | Some p => iface_protocol s =? p
     | None => true
     end.

Definition at_end (s : state) : bool := offset s =? bLength s - 2.

Definition is_endpoint_end (s : state) : bool :=
  at_end s && negb (desc_type s =? DescriptorType_INTERFACE)
  && (desc_type s =? DescriptorType_ENDPOINT) && in_matching_interface s.

Definition type_match (s : state) : bool :=
  EndpointAttributes_transfer_type (endp_attr s) =? transfer_type c.

Definition capturing_in (s : state) : bool :=
  is_endpoint_end s && want_in c && type_match s
  && EndpointAddress_direction_in (endp_addr s) && negb (found_in s).

Definition capturing_out (s : state) : bool :=
  is_endpoint_end s && want_out c && type_match s
  && negb (EndpointAddress_direction_in (endp_addr s)) && negb (found_out s).

Definition all_found (s : state) : bool :=
  (if want_in c then found_in s || capturing_in s else true)
  && (if want_out c then found_out s || capturing_out s else true).

(** IN-DESCRIPTOR with a valid byte [b]. *)
Definition in_descriptor_byte (b : Z) (s : state) : state :=
  let is_iface := desc_type s =? DescriptorType_INTERFACE in
  let is_endp := desc_type s =? DescriptorType_ENDPOINT in
  {| st := if at_end s then (if all_found s then DONE else GET_LEN)
           else IN_DESCRIPTOR;
     bLength := bLength s;
     offset := trunc 8 (offset s + 1);
     desc_type := if offset s =? 0 then b else desc_type s;
     iface_class :=
       if (offset s =? 4) && is_iface then b else iface_class s;
     iface_subclass :=
       match interface_subclass c with
       | Some _ => if (offset s =? 5) && is_iface then b else iface_subclass s
       | None => iface_subclass s
       end;
     iface_protocol :=
       match interface_protocol c with
       | Some _ => if (offset s =? 6) && is_iface then b else iface_protocol s
       | None => iface_protocol s
       end;
     in_matching_interface :=
       if at_end s && is_iface then interface_match s
       else in_matching_interface s;
     endp_addr := if (offset s =? 1) && is_endp then b else endp_addr s;
     endp_attr := if (offset s =? 2) && is_endp then b else endp_attr s;
     found_in := found_in s || capturing_in s;
     found_out := found_out s || capturing_out s;
     o_i_endp := if capturing_in s then endp_addr s else o_i_endp s;
     o_o_endp := if capturing_out s then endp_addr s else o_o_endp s;
     o_valid := if at_end s && all_found s then true else o_valid s |}.

Definition step (i : input) (s : state) : state :=
  match st s with
  | INIT =>
      if enable i then
        {| st := GET_LEN; bLength := bLength s; offset := offset s;
           desc_type := desc_type s; iface_class := iface_class s;
           iface_subclass := iface_subclass s;
           iface_protocol := iface_protocol s;
           in_matching_interface := in_matching_interface s;
           endp_addr := endp_addr s; endp_attr := endp_attr s;
           found_in := found_in s; found_out := found_out s;
           o_i_endp := o_i_endp s; o_o_endp := o_o_endp s;
           o_valid := o_valid s |}
      else s
  | GET_LEN =>
      if i_valid i then
        {| st := IN_DESCRIPTOR; bLength := i_payload i; offset := 0;
           desc_type := desc_type s; iface_class := iface_class s;
           iface_subclass := iface_subclass s;
           iface_protocol := iface_protocol s;
           in_matching_interface := in_matching_interface s;
           endp_addr := endp_addr s; endp_attr := endp_attr s;
           found_in := found_in s; found_out := found_out s;
           o_i_endp := o_i_endp s; o_o_endp := o_o_endp s;
           o_valid := o_valid s |}
      else s
  | IN_DESCRIPTOR =>
      if i_valid i then in_descriptor_byte (i_payload i) s else s
  | DONE => s
  end.

Fixpoint run (ins : list input) (s : state) : state :=
  match ins with
  | [] => s
  | i :: rest => run rest (step i s)
  end.

(** Feed a list of bytes, one valid byte per cycle, [enable] held. *)
Definition byte_in (b : Z) : input :=
  {| enable := true; i_valid := true; i_payload := b |}.

Definition feed (bytes : list Z) (s : state) : state :=
  run (map byte_in bytes) s.




End Configured.


Definition MSCDescriptorParser : config :=
  {| endpoint_filter := IN_AND_OUT; transfer_type := EndpointTransferType_BULK;
     interface_class := InterfaceClass_MASS_STORAGE;
     interface_subclass := Some 6; interface_protocol := Some 80 |}.



End Parser.

(** ** guh/engines/keyboard.py : USBKeyboardHost *)

Module Keyboard.

Import Sie.

Definition KEYBOARD_REPORT_SIZE : Z := 8.
Definition _WATCHDOG_CYCLES : Z := 3 * 60000000.

Inductive fsm := WAIT_ENUMERATION | KBD_POLL | EMIT_REPORT.

Record KeyboardReport := {
  modifiers : Z;
  reserved  : Z;
  key0 : Z; key1 : Z; key2 : Z; key3 : Z; key4 : Z; key5 : Z
}.

Record state := {
  st            : fsm;
  watchdog      : Z;        (* Signal(32) *)
  pid           : DataPID;
  l_sof_frame   : Z;        (* Signal(11) *)
  rx_byte_count : Z;        (* Signal(4) *)
  report_bytes  : list Z    (* Array of 8 Signal(8) *)
}.

Definition init : state :=
  {| st := WAIT_ENUMERATION; watchdog := 0; pid := DATA0; l_sof_frame := 0;
     rx_byte_count := 0; report_bytes := repeat 0 8 |}.

Record input := {
  enumerated     : bool;              (* enum.status.enumerated *)
  parser_o_valid : bool;              (* enum.parser.o.valid *)
  status_idle    : bool;              (* enum.ctrl.status *)
  status_response : TransferResponse;
  status_sof_frame : Z;
  rxs_valid      : bool;              (* enum.ctrl.rxs *)
  rxs_payload    : Z;
  o_report_ready : bool
}.

(** [report_bytes[k].eq(v)] *)
Fixpoint array_set (l : list Z) (k : nat) (v : Z) : list Z :=
  match l, k with
  | [], _ => []
  | _ :: t, O => v :: t
  | h :: t, S k' => h :: array_set t k' v
  end.

Definition toggle (p : DataPID) : DataPID :=
  match p with DATA0 => DATA1 | DATA1 => DATA0 end.

(** *** Combinational outputs *)

Definition rxs_ready (s : state) : bool :=
  match st s with KBD_POLL => true | _ => false end.

Definition poll_now (i : input) (s : state) : bool :=
  status_idle i && negb (status_sof_frame i =? l_sof_frame s).

(** [enum.ctrl.xfer.start] *)
Definition xfer_start (i : input) (s : state) : bool :=
  match st s with KBD_POLL => poll_now i s | _ => false end.

Definition report_of (s : state) : KeyboardReport :=
  let b k := nth k (report_bytes s) 0 in
  {| modifiers := b 0%nat; reserved := b 1%nat;
     key0 := b 2%nat; key1 := b 3%nat; key2 := b 4%nat;
     key3 := b 5%nat; key4 := b 6%nat; key5 := b 7%nat |}.

(** the [o_report] stream: the payload while [valid] is asserted *)
Definition o_report (s : state) : option KeyboardReport :=
  match st s with
  | EMIT_REPORT => Some (report_of s)
  | _ => None
  end.

Definition watchdog_expired (s : state) : bool :=
  watchdog s =? _WATCHDOG_CYCLES - 1.

(** *** Next state *)

Definition rx_fire (i : input) (s : state) : bool := rxs_valid i && rxs_ready s.

Definition next_report_bytes (i : input) (s : state) : list Z :=
  if rx_fire i s && (rx_byte_count s <? KEYBOARD_REPORT_SIZE)
  then array_set (report_bytes s) (Z.to_nat (rx_byte_count s)) (rxs_payload i)
  else report_bytes s.

Definition rx_count_after_rx (i : input) (s : state) : Z :=
  if rx_fire i s then trunc 4 (rx_byte_count s + 1) else rx_byte_count s.

Definition is_ack (r : TransferResponse) : bool :=
  match r with ACK => true | _ => false end.
Definition is_nak (r : TransferResponse) : bool :=
  match r with NAK => true | _ => false end.

Definition step_no_reset (i : input) (s : state) : state :=
  match st s with
  | WAIT_ENUMERATION =>
      let go := enumerated i && parser_o_valid i in
      {| st := if go then KBD_POLL else WAIT_ENUMERATION;
         watchdog := if go then 0 else trunc 32 (watchdog s + 1);
         pid := pid s; l_sof_frame := l_sof_frame s;
         rx_byte_count := rx_count_after_rx i s;
         report_bytes := next_report_bytes i s |}
  | KBD_POLL =>
      if poll_now i s then
        {| st := KBD_POLL;
           watchdog := trunc 32 (watchdog s + 1);
           pid := pid s;
           l_sof_frame := status_sof_frame i;
           rx_byte_count := 0;
           report_bytes := next_report_bytes i s |}
      else
        let r := status_response i in
        {| st := if is_ack r && (KEYBOARD_REPORT_SIZE <=? rx_byte_count s)
                 then EMIT_REPORT else KBD_POLL;
           watchdog := if is_ack r || is_nak r then 0
                       else trunc 32 (watchdog s + 1);
           pid := if is_ack r then toggle (pid s) else pid s;
           l_sof_frame := l_sof_frame s;
           rx_byte_count := rx_count_after_rx i s;
           report_bytes := next_report_bytes i s |}
  | EMIT_REPORT =>
      {| st := if o_report_ready i then KBD_POLL else EMIT_REPORT;
         watchdog := trunc 32 (watchdog s + 1);
         pid := pid s; l_sof_frame := l_sof_frame s;
         rx_byte_count := rx_count_after_rx i s;
         report_bytes := next_report_bytes i s |}
  end.

(** [ResetInserter({"usb": watchdog_expired})] *)
Definition step (i : input) (s : state) : state :=
  if watchdog_expired s then init else step_no_reset i s.

(** The reports handed to the consumer along a run: one entry for every
    cycle in which [o_report.valid] meets [o_report.ready]. *)
Fixpoint emitted (ins : list input) (s : state) : list KeyboardReport :=
  match ins with
  | [] => []
  | i :: rest =>
      match o_report s with
      | Some r => if o_report_ready i then r :: emitted rest (step i s)
                  else emitted rest (step i s)
      | None => emitted rest (step i s)
      end
  end.

Fixpoint run (ins : list input) (s : state) : state :=
  match ins with
  | [] => s
  | i :: rest => run rest (step i s)
  end.

(** *** Stimulus *)

(** one cycle after enumeration: SIE status, an optional received byte,
    and whether the consumer accepts a report *)
Definition kcycle (idle : bool) (r : TransferResponse) (frame : Z)
           (rx : option Z) (ready : bool) : input :=
  {| enumerated := true; parser_o_valid := true;
     status_idle := idle; status_response := r; status_sof_frame := frame;
     rxs_valid := match rx with Some _ => true | None => false end;
     rxs_payload := match rx with Some b => b | None => 0 end;
     o_report_ready := ready |}.


(** the engine polling, right after enumeration *)
Definition polling : state := step (kcycle true NONE 0 None false) init.

End Keyboard.

(** ** examples/keyboard_host.py : USBKeyboardHostExample (the consumer) *)

Module KeyboardExample.

Import Keyboard.

Inductive fsm := IDLE | CHECK | SEND.

Record state := {
  st             : fsm;
  prev_key0      : Z;
  current_report : KeyboardReport
}.

Record input := {
  o_report    : option KeyboardReport;  (* kbd_host.o_report valid/payload *)
  ascii_char  : Z;                      (* output of the lookup ROMs *)
  uart_ready  : bool
}.

Definition o_report_ready (s : state) : bool :=
  match st s with IDLE => true | _ => false end.


Definition step (i : input) (s : state) : state :=
  match st s with
  | IDLE =>
      match o_report i with
      | Some r => {| st := CHECK; prev_key0 := prev_key0 s; current_report := r |}
      | None => s
      end
  | CHECK =>
      let k := key0 (current_report s) in
      {| st := if negb (k =? prev_key0 s) && negb (k =? 0) then SEND else IDLE;
         prev_key0 := k;
         current_report := current_report s |}
  | SEND =>
      {| st := if ascii_char i =? 0 then IDLE
               else if uart_ready i then IDLE else SEND;
         prev_key0 := prev_key0 s;
         current_report := current_report s |}
  end.

End KeyboardExample.

(** ** guh/engines/msc.py : SCSIBulkHost *)

Module Msc.

Definition CBW_SIGNATURE : Z := 0x43425355.
Definition SCSIOpCode_TEST_UNIT_READY : Z := 0x00.
Definition SCSIOpCode_REQUEST_SENSE : Z := 0x03.
Definition SCSIOpCode_READ_CAPACITY_10 : Z := 0x25.
Definition SCSIOpCode_READ_10 : Z := 0x28.
Definition CBWFlags_DATA_OUT : Z := 0x00.
Definition CBWFlags_DATA_IN : Z := 0x80.
Definition CBW_SIZE_BYTES : Z := 31.

(** [SCSIBulkHost.Command]; [cdb] is the 128-bit union value. *)
Record Command := {
  start       : bool;
  data_len    : Z;     (* unsigned(32) *)
  stream_data : bool;
  cdb         : Z      (* 128 bits *)
}.

(** [CDB6(self.cmd.cdb.cdb6).opcode]: the low byte of the union *)
Definition cdb_opcode (c : Command) : Z := trunc 8 (cdb c).

Definition cdb_len (c : Command) : Z :=
  if (cdb_opcode c =? SCSIOpCode_TEST_UNIT_READY)
     || (cdb_opcode c =? SCSIOpCode_REQUEST_SENSE)
  then 6 else 10.

Definition bmCBWFlags (c : Command) : Z :=
  if 0 <? trunc 32 (data_len c) then CBWFlags_DATA_IN else CBWFlags_DATA_OUT.

(** [cbw_sig.as_value()] *)
Definition cbw_flat (c : Command) (cbw_tag : Z) : Z :=
  Cat [ (32, CBW_SIGNATURE);      (* dCBWSignature *)
        (32, cbw_tag);            (* dCBWTag *)
        (32, data_len c);         (* dCBWDataTransferLength *)
        (8, bmCBWFlags c);        (* bmCBWFlags *)
        (4, 0);                   (* bCBWLUN, never driven *)
        (4, 0);                   (* _reserved1 *)
        (5, cdb_len c);           (* bCBWCBLength *)
        (3, 0);                   (* _reserved2 *)
        (128, cdb c) ].           (* CBWCB *)

Definition cbw_byte_out (c : Command) (cbw_tag : Z) (tx_byte_idx : Z) : Z :=
  Z.land (Z.shiftr (cbw_flat c cbw_tag) (tx_byte_idx * 8)) 255.

Definition CSWStatus_PASSED : Z := 0.
Definition CSW_SIZE_BYTES : Z := 13.
Definition READ_CAPACITY_SIZE_BYTES : Z := 8.

Inductive fsm :=
| WAIT_ENUMERATION | IDLE | CBW_LOAD | CBW_XFER | CBW_WAIT
| DATA | DATA_RX | CSW | CSW_RX.

Record state := {
  st            : fsm;
  cbw_tag       : Z;            (* Signal(32), init 1 *)
  tx_byte_idx   : Z;            (* Signal(6) *)
  rx_byte_idx   : Z;            (* Signal(10) *)
  rx_data_count : Z;            (* Signal(16) *)
  data_len_r    : Z;            (* data_len, Signal(32) *)
  csw_sig       : Z;            (* CSW, 104 bits *)
  captured_sig  : Z;            (* ReadCapacity10Response, 64 bits *)
  pid_in        : Sie.DataPID;
  pid_out       : Sie.DataPID;
  stream_mode   : bool
}.

Definition init : state :=
  {| st := WAIT_ENUMERATION; cbw_tag := 1; tx_byte_idx := 0; rx_byte_idx := 0;
     rx_data_count := 0; data_len_r := 0; csw_sig := 0; captured_sig := 0;
     pid_in := Sie.DATA0; pid_out := Sie.DATA0; stream_mode := false |}.

Record input := {
  enumerated      : bool;                  (* enum.status.enumerated *)
  parser_o_valid  : bool;                  (* enum.parser.o.valid *)
  cmd             : Command;
  txs_ready       : bool;                  (* enum.ctrl.txs.ready *)
  status_idle     : bool;                  (* enum.ctrl.status *)
  status_response : Sie.TransferResponse;
  rxs_valid       : bool;                  (* enum.ctrl.rxs *)
  rxs_payload     : Z;
  rx_fifo_w_ready : bool                   (* rx_fifo.w_stream.ready *)
}.

(** [v.word_select(idx, 8).eq(b)] on a value of [n] bytes; an index past
    the end selects nothing. *)
Definition set_word (n : Z) (v : Z) (idx : Z) (b : Z) : Z :=
  if idx <? n then
    Z.lor (Z.land v (Z.lnot (Z.shiftl 255 (idx * 8)))) (Z.shiftl (trunc 8 b) (idx * 8))
  else v.

Definition CSW_bCSWStatus (v : Z) : Z := trunc 8 (Z.shiftr v 96).

Definition toggle (p : Sie.DataPID) : Sie.DataPID :=
  match p with Sie.DATA0 => Sie.DATA1 | Sie.DATA1 => Sie.DATA0 end.

Definition is_ack (r : Sie.TransferResponse) : bool :=
  match r with Sie.ACK => true | _ => false end.
Definition is_nak (r : Sie.TransferResponse) : bool :=
  match r with Sie.NAK => true | _ => false end.

(** *** Combinational outputs *)

(** byte driven on [enum.ctrl.txs] while [valid] is asserted *)
Definition txs_out (i : input) (s : state) : option Z :=
  match st s with
  | CBW_LOAD => Some (cbw_byte_out (cmd i) (cbw_tag s) (tx_byte_idx s))
  | _ => None
  end.

Definition rxs_ready (i : input) (s : state) : bool :=
  match st s with
  | DATA_RX => if stream_mode s then rx_fifo_w_ready i else true
  | CSW_RX => true
  | _ => false
  end.

(** [start_bulk_out] / [start_bulk_in]: the transfer requested from the
    SIE, with its data PID *)
Definition xfer_out (i : input) (s : state)
  : option (Sie.TransferType * Sie.DataPID) :=
  if status_idle i then
    match st s with
    | CBW_XFER => Some (Sie.OUT, pid_out s)
    | DATA | CSW => Some (Sie.IN, pid_in s)
    | _ => None
    end
  else None.

Definition status_idle_out (s : state) : bool :=
  match st s with IDLE => true | _ => false end.

Definition status_done (i : input) (s : state) : bool :=
  match st s with
  | CBW_WAIT => status_idle i && negb (is_ack (status_response i))
  | CSW_RX => status_idle i && is_ack (status_response i)
  | _ => false
  end.

Definition status_rejected (i : input) (s : state) : bool :=
  match st s with
  | CBW_WAIT => status_idle i && negb (is_ack (status_response i))
  | _ => false
  end.

Definition status_error (i : input) (s : state) : bool :=
  match st s with
  | CSW_RX => status_idle i && is_ack (status_response i)
              && negb (CSW_bCSWStatus (csw_sig s) =? CSWStatus_PASSED)
  | _ => false
  end.

(** *** Next state *)

Definition next_st (i : input) (s : state) : fsm :=
  match st s with
  | WAIT_ENUMERATION =>
      if enumerated i && parser_o_valid i then IDLE else WAIT_ENUMERATION
  | IDLE => if start (cmd i) then CBW_LOAD else IDLE
  | CBW_LOAD =>
      if txs_ready i && (tx_byte_idx s =? CBW_SIZE_BYTES - 1)
      then CBW_XFER else CBW_LOAD
  | CBW_XFER => if status_idle i then CBW_WAIT else CBW_XFER
  | CBW_WAIT =>
      if status_idle i then
        if is_ack (status_response i)
        then (if 0 <? data_len_r s then DATA else CSW)
        else IDLE
      else CBW_WAIT
  | DATA => if status_idle i then DATA_RX else DATA
  | DATA_RX =>
      if status_idle i then
        if is_ack (status_response i)
        then (if data_len_r s <=? rx_data_count s then CSW else DATA)
        else if is_nak (status_response i) then DATA else DATA_RX
      else DATA_RX
  | CSW => if status_idle i then CSW_RX else CSW
  | CSW_RX =>
      if status_idle i then
        if is_ack (status_response i) then IDLE
        else if is_nak (status_response i) then CSW else CSW_RX
      else CSW_RX
  end.

Definition acked (i : input) : bool := status_idle i && is_ack (status_response i).

Definition step (i : input) (s : state) : state :=
  let rx_fire := rxs_valid i && rxs_ready i s in
  {| st := next_st i s;
     cbw_tag :=
       match st s with
       | CSW_RX => if acked i then trunc 32 (cbw_tag s + 1) else cbw_tag s
       | _ => cbw_tag s
       end;
     tx_byte_idx :=
       match st s with
       | IDLE => if start (cmd i) then 0 else tx_byte_idx s
       | CBW_LOAD =>
           if txs_ready i then
             (if tx_byte_idx s =? CBW_SIZE_BYTES - 1 then 0
              else trunc 6 (tx_byte_idx s + 1))
           else tx_byte_idx s
       | _ => tx_byte_idx s
       end;
     rx_byte_idx :=
       match st s with
       | CBW_WAIT => if acked i then 0 else rx_byte_idx s
       | DATA_RX =>
           if acked i && (data_len_r s <=? rx_data_count s) then 0
           else if rx_fire then trunc 10 (rx_byte_idx s + 1) else rx_byte_idx s
       | CSW => if status_idle i then 0 else rx_byte_idx s
       | CSW_RX =>
           if rxs_valid i then trunc 10 (rx_byte_idx s + 1) else rx_byte_idx s
       | _ => rx_byte_idx s
       end;
     rx_data_count :=
       match st s with
       | CBW_WAIT => if acked i then 0 else rx_data_count s
       | DATA_RX =>
           if rx_fire then trunc 16 (rx_data_count s + 1) else rx_data_count s
       | _ => rx_data_count s
       end;
     data_len_r :=
       match st s with
       | IDLE => if start (cmd i) then trunc 32 (data_len (cmd i))
                 else data_len_r s
       | _ => data_len_r s
       end;
     csw_sig :=
       match st s with
       | CSW_RX =>
           if rxs_valid i
           then set_word CSW_SIZE_BYTES (csw_sig s) (rx_byte_idx s) (rxs_payload i)
           else csw_sig s
       | _ => csw_sig s
       end;
     captured_sig :=
       match st s with
       | DATA_RX =>
           if negb (stream_mode s) && rxs_valid i
           then set_word READ_CAPACITY_SIZE_BYTES (captured_sig s)
                         (rx_byte_idx s) (rxs_payload i)
           else captured_sig s
       | _ => captured_sig s
       end;
     pid_in :=
       match st s with
       | DATA_RX | CSW_RX => if acked i then toggle (pid_in s) else pid_in s
       | _ => pid_in s
       end;
     pid_out :=
       match st s with
       | CBW_WAIT => if acked i then toggle (pid_out s) else pid_out s
       | _ => pid_out s
       end;
     stream_mode :=
       match st s with
       | IDLE => if start (cmd i) then stream_data (cmd i) else stream_mode s
       | _ => stream_mode s
       end |}.

(** The bytes pushed into the Tx FIFO along a run (valid meets ready). *)
Fixpoint loaded (ins : list input) (s : state) : list Z :=
  match ins with
  | [] => []
  | i :: rest =>
      match txs_out i s with
      | Some b => if txs_ready i then b :: loaded rest (step i s)
                  else loaded rest (step i s)
      | None => loaded rest (step i s)
      end
  end.

(** Field views of a packed [CBW] value. *)
Definition CBW_dCBWSignature (v : Z) : Z := trunc 32 v.
Definition CBW_dCBWTag (v : Z) : Z := trunc 32 (Z.shiftr v 32).
Definition CBW_dCBWDataTransferLength (v : Z) : Z := trunc 32 (Z.shiftr v 64).
Definition CBW_bmCBWFlags (v : Z) : Z := trunc 8 (Z.shiftr v 96).
Definition CBW_bCBWLUN (v : Z) : Z := trunc 4 (Z.shiftr v 104).
Definition CBW_bCBWCBLength (v : Z) : Z := trunc 5 (Z.shiftr v 112).

(** the 31 bytes of the CBW in the order CBW-LOAD pushes them *)
Definition cbw_bytes (c : Command) (tag : Z) : list Z :=
  map (fun k => cbw_byte_out c tag (Z.of_nat k)) (seq 0 31).

(** the command held on [cmd] while the Tx stream accepts a byte per cycle *)
Definition hold (c : Command) : input :=
  {| enumerated := true; parser_o_valid := true; cmd := c; txs_ready := true;
     status_idle := true; status_response := Sie.NONE;
     rxs_valid := false; rxs_payload := 0; rx_fifo_w_ready := true |}.

Definition test_unit_ready : Command :=
  {| start := true; data_len := 0; stream_data := false;
     cdb := SCSIOpCode_TEST_UNIT_READY |}.

Definition read_capacity_10 : Command :=
  {| start := true; data_len := 8; stream_data := false;
     cdb := SCSIOpCode_READ_CAPACITY_10 |}.

Definition idle_tag (tag : Z) : state :=
  {| st := IDLE; cbw_tag := tag; tx_byte_idx := 0; rx_byte_idx := 0;
     rx_data_count := 0; data_len_r := 0; csw_sig := 0; captured_sig := 0;
     pid_in := Sie.DATA0; pid_out := Sie.DATA0; stream_mode := false |}.

Fixpoint run (ins : list input) (s : state) : state :=
  match ins with
  | [] => s
  | i :: rest => run rest (step i s)
  end.

End Msc.

(** ** guh/usbh/sie.py : the SOF controller wired into the SIE

    [sof_controller.txa] and [.rxa] feed the transfer FSM, the SOF stream
    is taken by the token generator while [send_sofs] is set, and the
    controller is held in reset while [reset_active]. *)

Module System.

Record state := {
  sof : Sof.state;
  sie : Sie.state
}.

Definition init : state := {| sof := Sof.init; sie := Sie.init |}.

(** the SIE input with the two window signals driven by the controller *)
Definition wire (f : Sof.state) (i : Sie.input) : Sie.input :=
  {| Sie.reset_active := Sie.reset_active i;
     Sie.detected_speed := Sie.detected_speed i;
     Sie.xfer_start := Sie.xfer_start i;
     Sie.in_type := Sie.in_type i;
     Sie.in_dev_addr := Sie.in_dev_addr i;
     Sie.in_ep_addr := Sie.in_ep_addr i;
     Sie.in_data_pid := Sie.in_data_pid i;
     Sie.txs_valid := Sie.txs_valid i;
     Sie.txs_payload := Sie.txs_payload i;
     Sie.rxs_ready := Sie.rxs_ready i;
     Sie.sof_txa := Sof.txa (Sie.detected_speed i) f;
     Sie.sof_rxa := Sof.rxa (Sie.detected_speed i) f;
     Sie.tok_ready := Sie.tok_ready i;
     Sie.tok_txa := Sie.tok_txa i;
     Sie.tx_stream_ready := Sie.tx_stream_ready i;
     Sie.rx_next := Sie.rx_next i;
     Sie.rx_payload := Sie.rx_payload i;
     Sie.rx_ready_for_response := Sie.rx_ready_for_response i;
     Sie.rx_crc_mismatch := Sie.rx_crc_mismatch i;
     Sie.hs_ack := Sie.hs_ack i;
     Sie.hs_nak := Sie.hs_nak i;
     Sie.hs_stall := Sie.hs_stall i |}.

Definition step (i : Sie.input) (s : state) : state :=
  {| sof := if Sie.reset_active i then Sof.init
            else Sof.step (Sie.detected_speed i)
                          (Sie.sof_o_ready i (sie s)) (sof s);
     sie := Sie.step (wire (sof s) i) (sie s) |}.

Fixpoint run (ins : list Sie.input) (s : state) : state :=
  match ins with
  | [] => s
  | i :: rest => run rest (step i s)
  end.

End System.

(** ** guh/usbh/reset.py : USBResetController *)

Module Reset.

Inductive UTMILineState := SE0 | J | K | SE1.
Inductive UTMIOperatingModeEnum :=
  NORMAL | NON_DRIVING | RAW_DRIVE | DISABLE_BITSTUFF_AND_NRZI | CHIRP
| NO_SYNC_OR_EOP.
Inductive UTMITerminationSelectEnum := HS_NORMAL | HS_CHIRP | LS_FS_NORMAL.

Definition _SETTLE_TIME : Z := 6000.
Definition _MAX_RESET_TIME : Z := 3000000.
Definition _MIN_RESET_BEFORE_CHIRP : Z := 3000.
Definition _CHIRP_FILTER_CYCLES : Z := 30000.
Definition _CHIRP_DURATION : Z := 3000.

Inductive fsm :=
| DISCONNECTED | WAIT_CONNECT | BUS_RESET
| WAIT_DEVICE_CHIRP_END | WAIT_DEVICE_CHIRP_END_SE0
| SEND_HOST_CHIRP_K | SEND_HOST_CHIRP_J
| IDLE_FS | IDLE_HS.

Record state := {
  st            : fsm;
  reset_counter : Z;    (* Signal(range(4000000)), 22 bits *)
  chirp_timer   : Z     (* Signal(16) *)
}.

Definition init : state :=
  {| st := DISCONNECTED; reset_counter := 0; chirp_timer := 0 |}.

Record input := {
  bus_reset  : bool;
  line_state : UTMILineState
}.

Definition is_J (l : UTMILineState) : bool :=
  match l with J => true | _ => false end.
Definition is_K (l : UTMILineState) : bool :=
  match l with K => true | _ => false end.

(** *** Combinational outputs *)

Definition in_idle_state (s : state) : bool :=
  match st s with DISCONNECTED | IDLE_FS | IDLE_HS => true | _ => false end.

Definition reset_active (s : state) : bool :=
  match st s with IDLE_FS | IDLE_HS => false | _ => true end.

Definition detected_speed (s : state) : USBHostSpeed :=
  match st s with IDLE_FS => FULL | IDLE_HS => HIGH | _ => UNKNOWN end.

Definition op_mode (s : state) : UTMIOperatingModeEnum :=
  match st s with
  | BUS_RESET | WAIT_DEVICE_CHIRP_END | WAIT_DEVICE_CHIRP_END_SE0 => RAW_DRIVE
  | SEND_HOST_CHIRP_K | SEND_HOST_CHIRP_J => CHIRP
  | _ => NORMAL
  end.

Definition xcvr_select (s : state) : USBHostSpeed :=
  match st s with
  | DISCONNECTED | WAIT_CONNECT | IDLE_FS => FULL
  | _ => HIGH
  end.

Definition term_select (s : state) : UTMITerminationSelectEnum :=
  match st s with
  | DISCONNECTED | WAIT_CONNECT | IDLE_FS => LS_FS_NORMAL
  | _ => HS_NORMAL
  end.

(** the chirp driven on [tx]: the data byte while [tx.valid] is set *)
Definition tx_out (s : state) : option Z :=
  match st s with
  | SEND_HOST_CHIRP_K => Some 0x00
  | SEND_HOST_CHIRP_J => Some 0xff
  | _ => None
  end.

Section Configured.

(** constructor argument; with it the high-speed states are not generated *)
Variable fullspeed_only : bool.

Definition next_counter (s : state) : Z :=
  if in_idle_state s then 0 else trunc 22 (reset_counter s + 1).

Definition step (i : input) (s : state) : state :=
  let c := reset_counter s in
  let t := chirp_timer s in
  let mk f t' := {| st := f; reset_counter := next_counter s; chirp_timer := t' |} in
  match st s with
  | DISCONNECTED =>
      if is_J (line_state i) then mk WAIT_CONNECT t else mk DISCONNECTED t
  | WAIT_CONNECT =>
      if is_J (line_state i) then
        (if _SETTLE_TIME <=? c then mk BUS_RESET t else mk WAIT_CONNECT t)
      else mk DISCONNECTED t
  | BUS_RESET =>
      if _MAX_RESET_TIME <=? c then mk IDLE_FS 0
      else if negb fullspeed_only && (_MIN_RESET_BEFORE_CHIRP <=? c) then
        if is_K (line_state i) then
          (if _CHIRP_FILTER_CYCLES <=? t then mk WAIT_DEVICE_CHIRP_END 0
           else mk BUS_RESET (trunc 16 (t + 1)))
        else mk BUS_RESET 0
      else mk BUS_RESET t
  | WAIT_DEVICE_CHIRP_END =>
      if fullspeed_only then s
      else if negb (is_K (line_state i)) then mk WAIT_DEVICE_CHIRP_END_SE0 0
      else mk WAIT_DEVICE_CHIRP_END t
  | WAIT_DEVICE_CHIRP_END_SE0 =>
      if fullspeed_only then s
      else if t =? _CHIRP_DURATION then mk SEND_HOST_CHIRP_K 0
      else mk WAIT_DEVICE_CHIRP_END_SE0 (trunc 16 (t + 1))
  | SEND_HOST_CHIRP_K =>
      if fullspeed_only then s
      else if _CHIRP_DURATION <=? t then mk SEND_HOST_CHIRP_J 0
      else mk SEND_HOST_CHIRP_K (trunc 16 (t + 1))
  | SEND_HOST_CHIRP_J =>
      if fullspeed_only then s
      else if _CHIRP_DURATION <=? t then
        (if _MAX_RESET_TIME <=? c then mk IDLE_HS 0 else mk SEND_HOST_CHIRP_K 0)
      else mk SEND_HOST_CHIRP_J (trunc 16 (t + 1))
  | IDLE_FS =>
      if bus_reset i then mk DISCONNECTED 0 else mk IDLE_FS t
  | IDLE_HS =>
      if fullspeed_only then s
      else if bus_reset i then mk DISCONNECTED 0 else mk IDLE_HS t
  end.

Fixpoint run (ins : list input) (s : state) : state :=
  match ins with
  | [] => s
  | i :: rest => run rest (step i s)
  end.

End Configured.

(** the line held at J (a full-speed device attached, no chirp) *)
Definition holds_J (ins : list input) : bool :=
  forallb (fun i => is_J (line_state i)) ins.
Definition holds_K (ins : list input) : bool :=
  forallb (fun i => is_K (line_state i)) ins.

(** where the controller is [k] cycles after power-up with J on the line *)
Definition full_speed_timeline (k : Z) : state :=
  if k =? 0 then init
  else if k <=? _SETTLE_TIME + 1 then
    {| st := WAIT_CONNECT; reset_counter := k - 1; chirp_timer := 0 |}
  else if k <=? _MAX_RESET_TIME + 1 then
    {| st := BUS_RESET; reset_counter := k - 1; chirp_timer := 0 |}
  else
    {| st := IDLE_FS; reset_counter := _MAX_RESET_TIME + 1; chirp_timer := 0 |}.

(** states that exist when the controller is built full-speed only *)
Definition fs_state (s : state) : bool :=
  match st s with
  | DISCONNECTED | WAIT_CONNECT | BUS_RESET | IDLE_FS => true
  | _ => false
  end.

(** the two states in which the host drives a chirp *)
Definition chirping (f : fsm) : Prop := f = SEND_HOST_CHIRP_K \/ f = SEND_HOST_CHIRP_J.

End Reset.

(** ** guh/usbh/sie.py : USBTokenPacketGenerator *)

Module TokenGen.

Definition _LONG_TXA_POST_TRANSMIT_FS : Z := 200.
Definition _LONG_TXA_POST_TRANSMIT_HS : Z := 20.

(** [TokenPayload]: the PID and the 11 data bits (address in bits 0..6,
    endpoint in bits 7..10; the frame number for a SOF). *)
Record TokenPayload := {
  pid  : Sie.TokenPID;
  data : Z
}.

Definition token_data (addr endp : Z) : Z := Cat [(7, addr); (4, endp)].

Inductive fsm :=
| IDLE | SEND_PID | SEND_PAYLOAD0 | SEND_PAYLOAD1 | WAIT_SHORT_TXA | WAIT_LONG_TXA.

Record state := {
  st  : fsm;
  pkt : TokenPayload;
  long_txa_post_transmit_cnt : Z;   (* Signal(range(201)), 8 bits *)
  cnt : Z                           (* Signal.like, 8 bits *)
}.

Definition init : state :=
  {| st := IDLE; pkt := {| pid := Sie.TOK_OUT; data := 0 |};
     long_txa_post_transmit_cnt := 0; cnt := 0 |}.

Record input := {
  i_valid   : bool;
  i_payload : TokenPayload;
  speed     : USBHostSpeed;
  tx_ready  : bool;
  timer_tx_allowed : bool
}.

Definition is_in (p : Sie.TokenPID) : bool :=
  match p with Sie.TOK_IN => true | _ => false end.

Section Luna.

(** Supplied by LUNA, outside these sources: the PID byte of a packet id
    ([USBPacketID.byte()]) and the CRC5 of the 11 token bits
    ([USBTokenDetector._generate_crc_for_token]). *)
Variable pid_byte : Sie.TokenPID -> Z.
Variable crc5 : Z -> Z.

(** *** Combinational outputs *)

Definition i_ready (s : state) : bool :=
  match st s with IDLE => true | _ => false end.

(** the byte on [tx.data] while [tx.valid] is asserted *)
Definition tx_out (s : state) : option Z :=
  match st s with
  | SEND_PID => Some (pid_byte (pid (pkt s)))
  | SEND_PAYLOAD0 => Some (trunc 8 (data (pkt s)))
  | SEND_PAYLOAD1 =>
      Some (Cat [(3, Z.shiftr (data (pkt s)) 8); (5, crc5 (trunc 11 (data (pkt s))))])
  | _ => None
  end.

Definition timer_start (i : input) (s : state) : bool :=
  match st s with SEND_PAYLOAD1 => tx_ready i | _ => false end.

Definition txa (i : input) (s : state) : bool :=
  match st s with
  | SEND_PAYLOAD1 => tx_ready i && is_in (pid (pkt s))
  | WAIT_LONG_TXA => cnt s =? long_txa_post_transmit_cnt s
  | _ => false
  end.

(** *** Next state *)

Definition long_txa (sp : USBHostSpeed) : Z :=
  if is_high sp then _LONG_TXA_POST_TRANSMIT_HS else _LONG_TXA_POST_TRANSMIT_FS.

Definition step (i : input) (s : state) : state :=
  match st s with
  | IDLE =>
      {| st := if i_valid i then SEND_PID else IDLE;
         pkt := if i_valid i
                then {| pid := pid (i_payload i);
                        data := trunc 11 (data (i_payload i)) |}
                else pkt s;
         long_txa_post_transmit_cnt := trunc 8 (long_txa (speed i) - 1);
         cnt := cnt s |}
  | SEND_PID =>
      {| st := if tx_ready i then SEND_PAYLOAD0 else SEND_PID;
         pkt := pkt s;
         long_txa_post_transmit_cnt := long_txa_post_transmit_cnt s;
         cnt := cnt s |}
  | SEND_PAYLOAD0 =>
      {| st := if tx_ready i then SEND_PAYLOAD1 else SEND_PAYLOAD0;
         pkt := pkt s;
         long_txa_post_transmit_cnt := long_txa_post_transmit_cnt s;
         cnt := cnt s |}
  | SEND_PAYLOAD1 =>
      {| st := if tx_ready i
               then (if is_in (pid (pkt s)) then WAIT_SHORT_TXA else WAIT_LONG_TXA)
               else SEND_PAYLOAD1;
         pkt := pkt s;
         long_txa_post_transmit_cnt := long_txa_post_transmit_cnt s;
         cnt := cnt s |}
  | WAIT_SHORT_TXA =>
      {| st := if timer_tx_allowed i then IDLE else WAIT_SHORT_TXA;
         pkt := pkt s;
         long_txa_post_transmit_cnt := long_txa_post_transmit_cnt s;
         cnt := cnt s |}
  | WAIT_LONG_TXA =>
      if cnt s =? long_txa_post_transmit_cnt s then
        {| st := IDLE; pkt := pkt s;
           long_txa_post_transmit_cnt := long_txa_post_transmit_cnt s;
           cnt := 0 |}
      else
        {| st := WAIT_LONG_TXA; pkt := pkt s;
           long_txa_post_transmit_cnt := long_txa_post_transmit_cnt s;
           cnt := trunc 8 (cnt s + 1) |}
  end.

Fixpoint run (ins : list input) (s : state) : state :=
  match ins with
  | [] => s
  | i :: rest => run rest (step i s)
  end.

(** the bytes handed to the PHY along a run (valid meets ready) *)
Fixpoint sent (ins : list input) (s : state) : list Z :=
  match ins with
  | [] => []
  | i :: rest =>
      match tx_out s with
      | Some b => if tx_ready i then b :: sent rest (step i s)
                  else sent rest (step i s)
      | None => sent rest (step i s)
      end
  end.

(** the cycles of a run in which [txa] is asserted, by index *)
Fixpoint txa_trace (ins : list input) (s : state) : list bool :=
  match ins with
  | [] => []
  | i :: rest => txa i s :: txa_trace rest (step i s)
  end.

End Luna.

(** cycles in which the PHY does not take a byte *)
Definition stalls (ins : list input) : bool :=
  forallb (fun i => negb (tx_ready i)) ins.

(** The PHY takes the three bytes of a token in the cycles [r1], [r2] and
    [r3], after stalling for the cycles [sa], [sb] and [sc]. *)
Definition three_bytes (sa sb sc : list input) (r1 r2 r3 : input) : list input :=
  sa ++ [r1] ++ sb ++ [r2] ++ sc ++ [r3].

(** the fields of a token recovered from its two payload bytes *)
Definition decode_addr (b1 : Z) : Z := Z.land b1 127.
Definition decode_endp (b1 b2 : Z) : Z :=
  Z.lor (Z.shiftr b1 7) (Z.shiftl (Z.land b2 7) 1).

(** the states in which a byte is offered to the PHY *)
Definition sending (f : fsm) : Prop :=
  f = SEND_PID \/ f = SEND_PAYLOAD0 \/ f = SEND_PAYLOAD1.

(** the counter of the long wait is zero outside that wait *)
Definition cnt_clear (s : state) : Prop := st s = WAIT_LONG_TXA \/ cnt s = 0.

(** cycles in which the inter-packet timer withholds [tx_allowed] *)
Definition timer_holds (ins : list input) : bool :=
  forallb (fun i => negb (timer_tx_allowed i)) ins.

(** *** Stimulus *)

Definition offer (p : TokenPayload) (sp : USBHostSpeed) : input :=
  {| i_valid := true; i_payload := p; speed := sp;
     tx_ready := false; timer_tx_allowed := false |}.

Definition stall : input :=
  {| i_valid := false; i_payload := {| pid := Sie.TOK_OUT; data := 0 |};
     speed := FULL; tx_ready := false; timer_tx_allowed := false |}.

Definition take : input :=
  {| i_valid := false; i_payload := {| pid := Sie.TOK_OUT; data := 0 |};
     speed := FULL; tx_ready := true; timer_tx_allowed := false |}.

Definition grant : input :=
  {| i_valid := false; i_payload := {| pid := Sie.TOK_OUT; data := 0 |};
     speed := FULL; tx_ready := false; timer_tx_allowed := true |}.

(** the PID bytes of USB 2.0 (PID nibble under its complement) and a
    constant in place of the CRC, to run the model *)
Definition usb_pid_byte (p : Sie.TokenPID) : Z :=
  match p with
  | Sie.TOK_OUT => 225 | Sie.TOK_IN => 105
  | Sie.TOK_SOF => 165 | Sie.TOK_SETUP => 45
  end.

Definition no_crc (_ : Z) : Z := 0.

End TokenGen.

(** ** guh/usbh/sie.py : USBSIE, the data stream to the transmitter *)

Module SieStream.

Import Sie.

(** one beat of [transmitter.stream] *)
Record beat := {
  b_payload : Z;
  b_first   : bool;
  b_last    : bool
}.

(** [transmitter.stream] as the engine drives it: the head of the Tx FIFO
    in SEND_OUT_DATA, a zero-length packet in SEND_OUT_ZLP *)
Definition tx_beat (s : state) : option beat :=
  match st s with
  | SEND_OUT_DATA =>
      if Fifo.r_rdy (tx_fifo s)
      then Some {| b_payload := hd 0 (tx_fifo s);
                   b_first := tx_byte_count s =? 0;
                   b_last := tx_byte_count s =? tx_len s - 1 |}
      else None
  | SEND_OUT_ZLP => Some {| b_payload := 0; b_first := false; b_last := true |}
  | _ => None
  end.

(** the engine moves past the beat: in SEND_OUT_DATA when the transmitter is
    ready, in SEND_OUT_ZLP after one cycle whatever the transmitter says *)
Definition taken (i : input) (s : state) : bool :=
  match st s with
  | SEND_OUT_DATA => tx_stream_ready i
  | SEND_OUT_ZLP => true
  | _ => false
  end.

Definition emitted (i : input) (s : state) : list beat :=
  match tx_beat s with
  | Some b => if taken i s then [b] else []
  | None => []
  end.

Fixpoint transmitted (ins : list input) (s : state) : list beat :=
  match ins with
  | [] => []
  | i :: rest => emitted i s ++ transmitted rest (step i s)
  end.

(** the beats of a data packet of [len] bytes, from its byte number [c] on *)
Fixpoint marks_from (c len : Z) (d : list Z) : list beat :=
  match d with
  | [] => []
  | b :: r =>
      {| b_payload := b; b_first := c =? 0; b_last := c =? len - 1 |}
      :: marks_from (c + 1) len r
  end.

Definition marks (d : list Z) : list beat :=
  match d with
  | [] => [{| b_payload := 0; b_first := false; b_last := true |}]
  | _ => marks_from 0 (Z.of_nat (length d)) d
  end.

(** the data phase of the running transaction is over *)
Definition data_sent (f : fsm) : bool :=
  match f with WAIT_HANDSHAKE | IPD_DRAIN_TX | IDLE => true | _ => false end.

(** Where an OUT or SETUP transaction over the bytes [d] stands: [rest] are
    the beats still to come. *)
Definition phase (d : list Z) (s : state) (rest : list beat) : Prop :=
  xfer_type s <> IN /\ tx_len s = Z.of_nat (length d) /\
  (length d <= Fifo.fifo_depth)%nat /\
  match st s with
  | DRAIN_RX | WAIT_TXA | SEND_TOKEN | WAIT_TOKEN_COMPLETE =>
      tx_byte_count s = 0 /\ (exists extra, tx_fifo s = d ++ extra) /\
      rest = marks d
  | SEND_OUT_DATA =>
      exists b r extra,
        tx_fifo s = (b :: r) ++ extra /\
        tx_byte_count s + Z.of_nat (length (b :: r)) = Z.of_nat (length d) /\
        0 <= tx_byte_count s /\
        rest = marks_from (tx_byte_count s) (Z.of_nat (length d)) (b :: r)
  | SEND_OUT_ZLP => d = [] /\ rest = marks []
  | WAIT_HANDSHAKE | IPD_DRAIN_TX | IDLE => rest = []
  | _ => False
  end.

(** what a finished transaction leaves in [status.response] *)
Definition settled (s : state) : Prop :=
  (st s = IPD_DRAIN_TX -> response s <> NONE) /\
  (st s = WAIT_IN_DATA \/ st s = SEND_ACK -> xfer_type s = IN) /\
  (response s = CRC_ERROR \/ response s = RX_OVERFLOW -> xfer_type s = IN).

(** the inter-packet delay counter rests at zero, and the Tx FIFO is within
    its depth *)
Definition ipd_clear (s : state) : Prop :=
  (st s <> IPD_DRAIN_TX -> ipd s = 0) /\
  (length (tx_fifo s) <= Fifo.fifo_depth)%nat.

(** cycles at speed [sp] in which nothing is written to the Tx FIFO *)
Definition steady (sp : USBHostSpeed) (ins : list input) : Prop :=
  Forall (fun i => detected_speed i = sp /\ txs_valid i = false) ins.

Definition ipd_len (sp : USBHostSpeed) : Z :=
  if is_high sp then _XFER_IPD_HS else _XFER_IPD_FS.

(** *** The receive side: [ctrl.rxs] *)

(** the byte the receiver hands over is written to the Rx FIFO *)
Definition accepted (i : input) (s : state) : list Z :=
  if rx_w_en i s then [rx_payload i] else [].

(** the consumer takes the head of the Rx FIFO ([rxs.valid] and
    [rxs.ready]) *)
Definition delivered (i : input) (s : state) : list Z :=
  if rxs_ready i && Fifo.r_rdy (rx_fifo s) then [hd 0 (rx_fifo s)] else [].

Fixpoint all_accepted (ins : list input) (s : state) : list Z :=
  match ins with
  | [] => []
  | i :: rest => accepted i s ++ all_accepted rest (step i s)
  end.

Fixpoint all_delivered (ins : list input) (s : state) : list Z :=
  match ins with
  | [] => []
  | i :: rest => delivered i s ++ all_delivered rest (step i s)
  end.

(** the consumer takes a byte whenever one is offered *)
Definition reading (b : Z) : input :=
  cycle false false false false true false true true b.

(** *** Stimulus *)

Definition start_out : input :=
  {| reset_active := false; detected_speed := FULL;
     xfer_start := true; in_type := OUT; in_dev_addr := 0x12; in_ep_addr := 2;
     in_data_pid := DATA1;
     txs_valid := false; txs_payload := 0; rxs_ready := false;
     sof_txa := false; sof_rxa := true;
     tok_ready := false; tok_txa := false; tx_stream_ready := false;
     rx_next := false; rx_payload := 0;
     rx_ready_for_response := false; rx_crc_mismatch := false;
     hs_ack := false; hs_nak := false; hs_stall := false |}.

(** the producer writes byte [b] into the Tx FIFO *)
Definition write (b : Z) : input :=
  {| reset_active := false; detected_speed := FULL;
     xfer_start := false; in_type := OUT; in_dev_addr := 0; in_ep_addr := 0;
     in_data_pid := DATA0;
     txs_valid := true; txs_payload := b; rxs_ready := false;
     sof_txa := false; sof_rxa := true;
     tok_ready := false; tok_txa := false; tx_stream_ready := false;
     rx_next := false; rx_payload := 0;
     rx_ready_for_response := false; rx_crc_mismatch := false;
     hs_ack := false; hs_nak := false; hs_stall := false |}.

(** the transmitter takes a byte *)
Definition tx_take : input :=
  {| reset_active := false; detected_speed := FULL;
     xfer_start := false; in_type := OUT; in_dev_addr := 0; in_ep_addr := 0;
     in_data_pid := DATA0;
     txs_valid := false; txs_payload := 0; rxs_ready := false;
     sof_txa := false; sof_rxa := true;
     tok_ready := false; tok_txa := false; tx_stream_ready := true;
     rx_next := false; rx_payload := 0;
     rx_ready_for_response := false; rx_crc_mismatch := false;
     hs_ack := false; hs_nak := false; hs_stall := false |}.

(** the device answers with an ACK handshake *)
Definition dev_ack : input :=
  {| reset_active := false; detected_speed := FULL;
     xfer_start := false; in_type := OUT; in_dev_addr := 0; in_ep_addr := 0;
     in_data_pid := DATA0;
     txs_valid := false; txs_payload := 0; rxs_ready := false;
     sof_txa := false; sof_rxa := true;
     tok_ready := false; tok_txa := false; tx_stream_ready := false;
     rx_next := false; rx_payload := 0;
     rx_ready_for_response := false; rx_crc_mismatch := false;
     hs_ack := true; hs_nak := false; hs_stall := false |}.

(** an OUT transfer of the bytes 7, 8, 9 up to the handshake *)
Definition out_three : list input :=
  [quiet; write 7; write 8; write 9; start_out; quiet; txa_open; token_taken;
   token_done; tx_take; quiet; tx_take; tx_take].

End SieStream.

(** ** guh/usbh/enumerator.py : what the enumerator drives and keeps *)

Module EnumeratorStream.

Import Sie Enumerator.

Definition xfer_state (g : stage) : fsm :=
  match g with
  | Stage1 => ENUM_GET_DESC_DEVICE_XFER
  | Stage2 => ENUM_SET_ADDRESS_XFER
  | Stage3 => ENUM_GET_DESC_DEVICE_FULL_XFER
  | Stage4 => ENUM_GET_DESC_CONFIG_XFER
  | Stage5 => ENUM_SET_CONFIG_XFER
  end.

(** the request of each stage, as the enumeration sequence lists them *)
Definition stage_packet (device_address config_number : Z) (g : stage) : list Z :=
  match g with
  | Stage1 => Setup.get_descriptor Setup.DescriptorTypes_DEVICE 0 0 8
  | Stage2 => Setup.set_address device_address
  | Stage3 => Setup.get_descriptor Setup.DescriptorTypes_DEVICE 0 0 18
  | Stage4 => Setup.get_descriptor Setup.DescriptorTypes_CONFIGURATION 0 0 512
  | Stage5 => Setup.set_configuration config_number
  end.

(** the cycles in which the Tx FIFO of the SIE accepts a byte *)
Definition ready_count (ins : list input) : nat :=
  length (filter txs_ready ins).

(** the bytes written to [sie.ctrl.txs] along a run ([valid] and [ready]) *)
Fixpoint loaded (device_address config_number : Z) (ins : list input)
         (s : state) : list Z :=
  match ins with
  | [] => []
  | i :: rest =>
      match txs_out device_address config_number s with
      | Some b =>
          if txs_ready i
          then b :: loaded device_address config_number rest
                      (step device_address i s)
          else loaded device_address config_number rest
                      (step device_address i s)
      | None => loaded device_address config_number rest
                       (step device_address i s)
      end
  end.

(** [n] elements of [l] from position [a] on *)
Definition slice {A} (a n : nat) (l : list A) : list A := firstn n (skipn a l).

(** the states reached only after ENUM-SET-ADDRESS-UPDATE-ADDR *)
Definition addressed (f : fsm) : bool :=
  match f with
  | ENUM_GET_DESC_DEVICE_FULL_LOAD | ENUM_GET_DESC_DEVICE_FULL_XFER
  | ENUM_GET_DESC_DEVICE_FULL_WAIT_SETUP | ENUM_GET_DESC_DEVICE_FULL_IN
  | ENUM_GET_DESC_DEVICE_FULL_WAIT_IN | ENUM_GET_DESC_DEVICE_FULL_STATUS
  | ENUM_GET_DESC_DEVICE_FULL_WAIT_STATUS | ENUM_GET_DESC_DEVICE_FULL_COMPLETE
  | ENUM_GET_DESC_CONFIG_LOAD | ENUM_GET_DESC_CONFIG_XFER
  | ENUM_GET_DESC_CONFIG_WAIT_SETUP | ENUM_GET_DESC_CONFIG_IN
  | ENUM_GET_DESC_CONFIG_WAIT_IN | ENUM_GET_DESC_CONFIG_STATUS
  | ENUM_GET_DESC_CONFIG_WAIT_STATUS | ENUM_GET_DESC_CONFIG_COMPLETE
  | ENUM_SET_CONFIG_LOAD | ENUM_SET_CONFIG_XFER | ENUM_SET_CONFIG_WAIT_SETUP
  | ENUM_SET_CONFIG_STATUS | ENUM_SET_CONFIG_WAIT_STATUS
  | ENUMERATION_COMPLETE | IDLE => true
  | _ => false
  end.

Definition handed_over (device_address : Z) (s : state) : Prop :=
  (enumerated s = true <-> st s = IDLE) /\
  (addressed (st s) = true -> current_dev_addr s = trunc 7 device_address).

(** cycles in which the SIE is busy *)
Definition all_busy (ins : list input) : bool :=
  forallb (fun i => negb (status_idle i)) ins.

(** the last byte offered on [sie.ctrl.rxs], [b] if there was none *)
Definition last_valid (ins : list input) (b : Z) : Z :=
  fold_left (fun acc i => if rxs_valid i then rxs_payload i else acc) ins b.

(** *** Stimulus *)

(** the SIE, busy, delivers byte [b] *)
Definition rx_cycle (b : Z) : input :=
  {| status_idle := false; status_response := NONE; status_rx_len := 0;
     status_sof_frame := 0; detected_speed := FULL; txs_ready := true;
     rxs_valid := true; rxs_payload := b |}.

(** the SIE idle at a frame number whose low six bits are all set *)
Definition sof_63 : input :=
  {| status_idle := true; status_response := NONE; status_rx_len := 0;
     status_sof_frame := 63; detected_speed := FULL; txs_ready := true;
     rxs_valid := false; rxs_payload := 0 |}.

(** a device that acknowledges every transaction at once, with a short
    packet of two bytes in every data phase *)
Definition ack_script : list input :=
  [sof_63; sof_63] ++ repeat (idle_cycle ACK 2) 72.

(** the Tx FIFO of the SIE does not take a byte *)
Definition txs_stall : input :=
  {| status_idle := true; status_response := NONE; status_rx_len := 0;
     status_sof_frame := 0; detected_speed := FULL; txs_ready := false;
     rxs_valid := false; rxs_payload := 0 |}.

End EnumeratorStream.

(** ** guh/usbh/descriptor.py : a configuration, one descriptor at a time *)

Module ParserSpec.

Import Parser.

(** what a walk over descriptors has established so far: whether the last
    interface descriptor matched, and the first matching endpoint of each
    direction *)
Record found := {
  matching : bool;
  f_in     : option Z;
  f_out    : option Z
}.

Definition nothing : found :=
  {| matching := false; f_in := None; f_out := None |}.

Definition is_some {A} (o : option A) : bool :=
  match o with Some _ => true | None => false end.

Definition keep_first (o : option Z) (a : Z) : option Z :=
  match o with None => Some a | Some _ => o end.

(** bDescriptorType, the second byte *)
Definition d_type (d : list Z) : Z := nth 1 d 0.

(** A descriptor as the parser can read it: bLength bytes long, and long
    enough for the fields the parser looks at to lie before its last byte
    (interface: bInterfaceProtocol is byte 8 of 9; endpoint: bmAttributes is
    byte 4). *)
Definition well_formed (d : list Z) : bool :=
  match d with
  | [] => false
  | len :: body =>
      (3 <=? len) && (len <=? 255) && (Z.of_nat (length body) =? len - 1)
      && (if d_type d =? DescriptorType_INTERFACE then 9 <=? len else true)
      && (if d_type d =? DescriptorType_ENDPOINT then 5 <=? len else true)
  end.

Section Configured.

Variable c : config.

Definition iface_ok (d : list Z) : bool :=
  (nth 5 d 0 =? interface_class c)
  && match interface_subclass c with
     | Some sc => nth 6 d 0 =? sc
     | None => true
     end
  && match interface_protocol c with
     | Some p => nth 7 d 0 =? p
     | None => true
     end.

Definition endpoint_ok (d : list Z) : bool :=
  EndpointAttributes_transfer_type (nth 3 d 0) =? transfer_type c.

(** the effect of one descriptor *)
Definition see (d : list Z) (a : found) : found :=
  if d_type d =? DescriptorType_INTERFACE then
    {| matching := iface_ok d; f_in := f_in a; f_out := f_out a |}
  else if (d_type d =? DescriptorType_ENDPOINT) && matching a && endpoint_ok d
  then
    if EndpointAddress_direction_in (nth 2 d 0)
    then {| matching := matching a;
            f_in := if want_in c then keep_first (f_in a) (nth 2 d 0)
                    else f_in a;
            f_out := f_out a |}
    else {| matching := matching a;
            f_in := f_in a;
            f_out := if want_out c then keep_first (f_out a) (nth 2 d 0)
                     else f_out a |}
  else a.

Definition complete (a : found) : bool :=
  (if want_in c then is_some (f_in a) else true)
  && (if want_out c then is_some (f_out a) else true).

(** the descriptors in order, up to the one that completes the search *)
Fixpoint survey (ds : list (list Z)) (a : found) : found :=
  match ds with
  | [] => a
  | d :: rest =>
      let a' := see d a in
      if complete a' then a' else survey rest a'
  end.

(** the registers after bLength and [k] further bytes of [d] have been
    read, starting from the registers of [s] *)
Definition track (d : list Z) (k : Z) (s : state) : state :=
  let t := if 1 <=? k then nth 1 d 0 else desc_type s in
  {| st := IN_DESCRIPTOR;
     bLength := nth 0 d 0;
     offset := k;
     desc_type := t;
     iface_class :=
       if (5 <=? k) && (t =? DescriptorType_INTERFACE) then nth 5 d 0
       else iface_class s;
     iface_subclass :=
       match interface_subclass c with
       | Some _ =>
           if (6 <=? k) && (t =? DescriptorType_INTERFACE) then nth 6 d 0
           else iface_subclass s
       | None => iface_subclass s
       end;
     iface_protocol :=
       match interface_protocol c with
       | Some _ =>
           if (7 <=? k) && (t =? DescriptorType_INTERFACE) then nth 7 d 0
           else iface_protocol s
       | None => iface_protocol s
       end;
     in_matching_interface := in_matching_interface s;
     endp_addr :=
       if (2 <=? k) && (t =? DescriptorType_ENDPOINT) then nth 2 d 0
       else endp_addr s;
     endp_attr :=
       if (3 <=? k) && (t =? DescriptorType_ENDPOINT) then nth 3 d 0
       else endp_attr s;
     found_in := found_in s;
     found_out := found_out s;
     o_i_endp := o_i_endp s;
     o_o_endp := o_o_endp s;
     o_valid := o_valid s |}.

(** the registers of the parser hold what the walk has established *)
Definition agrees (s : state) (a : found) : Prop :=
  in_matching_interface s = matching a /\
  found_in s = is_some (f_in a) /\
  found_out s = is_some (f_out a) /\
  (forall x, f_in a = Some x -> o_i_endp s = x) /\
  (forall x, f_out a = Some x -> o_o_endp s = x).

(** the parser once [enable] has been seen *)
Definition started : state :=
  step c {| enable := true; i_valid := false; i_payload := 0 |} init.

End Configured.

(** A configuration of a mass-storage device: configuration, interface
    (mass storage, SCSI, bulk-only), bulk IN endpoint 1, bulk OUT endpoint 2. *)
Definition msc_config_descriptors : list (list Z) :=
  [[0x09; 0x02; 0x20; 0x00; 0x01; 0x01; 0x00; 0x80; 0x32];
   [0x09; 0x04; 0x00; 0x00; 0x02; 0x08; 0x06; 0x50; 0x00];
   [0x07; 0x05; 0x81; 0x02; 0x40; 0x00; 0x00];
   [0x07; 0x05; 0x02; 0x02; 0x40; 0x00; 0x00]].

End ParserSpec.

(** ** guh/engines/keyboard.py : polls, reports and the watchdog *)

Module KeyboardRun.

Import Sie Keyboard.

(** a new poll is due: the SIE is idle in a frame other than [l] *)
Definition polls (l : Z) (i : input) : bool :=
  status_idle i && negb (status_sof_frame i =? l).

(** cycles of a running poll: no new poll is due and the SIE does not show
    ACK *)
Definition receiving (l : Z) (ins : list input) : bool :=
  forallb (fun i => negb (polls l i) && negb (is_ack (status_response i))) ins.

(** the bytes offered on [rxs] *)
Definition received (ins : list input) : list Z :=
  map rxs_payload (filter rxs_valid ins).

(** [bytes] stored from position [c] on, as the Rx path stores them *)
Fixpoint write_at (c : Z) (bytes : list Z) (arr : list Z) : list Z :=
  match bytes with
  | [] => arr
  | b :: r =>
      write_at (c + 1) r
        (if c <? KEYBOARD_REPORT_SIZE then array_set arr (Z.to_nat c) b
         else arr)
  end.

Definition report_from (l : list Z) : KeyboardReport :=
  {| modifiers := nth 0 l 0; reserved := nth 1 l 0;
     key0 := nth 2 l 0; key1 := nth 3 l 0; key2 := nth 4 l 0;
     key3 := nth 5 l 0; key4 := nth 6 l 0; key5 := nth 7 l 0 |}.

(** the watchdog is kicked in this cycle *)
Definition kicks (i : input) (s : state) : bool :=
  match st s with
  | WAIT_ENUMERATION => enumerated i && parser_o_valid i
  | KBD_POLL =>
      negb (poll_now i s)
      && (is_ack (status_response i) || is_nak (status_response i))
  | EMIT_REPORT => false
  end.

(** no cycle of the run kicks the watchdog *)
Fixpoint unkicked (ins : list input) (s : state) : bool :=
  match ins with
  | [] => true
  | i :: rest => negb (kicks i s) && unkicked rest (step i s)
  end.

(** the SIE keeps showing ACK in frame [l]; the consumer takes the report in
    the second cycle of each pair *)
Definition shows_ack (l : Z) (p : input * input) : bool :=
  negb (polls l (fst p)) && is_ack (status_response (fst p))
  && negb (rxs_valid (fst p))
  && o_report_ready (snd p) && negb (rxs_valid (snd p)).

Definition pairs (ps : list (input * input)) : list input :=
  concat (map (fun p => [fst p; snd p]) ps).

Fixpoint toggles (n : nat) (p : DataPID) : DataPID :=
  match n with O => p | S n' => toggle (toggles n' p) end.

(** *** Polls answered with a full report *)








End KeyboardRun.

(** ** guh/engines/msc.py : SCSIBulkHost, status wrapper and data stream *)

Module MscStream.

Import Msc.

(** byte [k] of a packed value *)
Definition byte_at (v : Z) (k : Z) : Z := Z.land (Z.shiftr v (k * 8)) 255.

(** cycles in which the SIE is busy with the running transaction *)
Definition all_busy (ins : list input) : bool :=
  forallb (fun i => negb (status_idle i)) ins.

(** the bytes offered on [rxs] *)
Definition received (ins : list input) : list Z :=
  map rxs_payload (filter rxs_valid ins).

(** one entry of [rx_fifo.w_stream]: a [Packet] beat *)
Record beat := {
  p_data  : Z;
  p_first : bool;
  p_last  : bool
}.

(** the beat written to the Rx FIFO in this cycle, if any: DATA-RX in
    stream mode, [rxs.valid] and room in the FIFO *)
Definition rx_push (i : input) (s : state) : option beat :=
  match st s with
  | DATA_RX =>
      if stream_mode s && rxs_valid i && rx_fifo_w_ready i
      then Some {| p_data := rxs_payload i;
                   p_first := rx_data_count s =? 0;
                   p_last := rx_data_count s =? data_len_r s - 1 |}
      else None
  | _ => None
  end.

Fixpoint pushed (ins : list input) (s : state) : list beat :=
  match ins with
  | [] => []
  | i :: rest =>
      match rx_push i s with
      | Some b => b :: pushed rest (step i s)
      | None => pushed rest (step i s)
      end
  end.

(** the beats of a packet of [len] bytes, from its byte number [c] on *)
Fixpoint framed (c len : Z) (d : list Z) : list beat :=
  match d with
  | [] => []
  | b :: r =>
      {| p_data := b; p_first := c =? 0; p_last := c =? len - 1 |}
      :: framed (c + 1) len r
  end.

(** the data phase of a command *)
Definition in_data_phase (f : fsm) : bool :=
  match f with DATA | DATA_RX => true | _ => false end.

(** no command is started *)
Definition no_command (ins : list input) : bool :=
  forallb (fun i => negb (start (cmd i))) ins.

(** the states a command passes through once its CBW has been accepted *)
Definition after_cbw (f : fsm) : bool :=
  match f with DATA | DATA_RX | CSW | CSW_RX | IDLE => true | _ => false end.

(** *** Stimulus *)

(** no command on [cmd] *)
Definition no_cmd : Command :=
  {| start := false; data_len := 0; stream_data := false; cdb := 0 |}.

(** the SIE, busy, delivers byte [b] *)
Definition rx_cycle (b : Z) : input :=
  {| enumerated := true; parser_o_valid := true; cmd := no_cmd;
     txs_ready := false; status_idle := false; status_response := Sie.NONE;
     rxs_valid := true; rxs_payload := b; rx_fifo_w_ready := true |}.

(** the SIE idle, showing response [r] *)
Definition idle_with (r : Sie.TransferResponse) : input :=
  {| enumerated := true; parser_o_valid := true; cmd := no_cmd;
     txs_ready := false; status_idle := true; status_response := r;
     rxs_valid := false; rxs_payload := 0; rx_fifo_w_ready := true |}.

(** the data phase of a streamed command of [len] bytes *)
Definition streaming (len : Z) : state :=
  {| st := DATA_RX; cbw_tag := 1; tx_byte_idx := 0; rx_byte_idx := 0;
     rx_data_count := 0; data_len_r := len; csw_sig := 0; captured_sig := 0;
     pid_in := Sie.DATA0; pid_out := Sie.DATA1; stream_mode := true |}.

(** the data phase of a command whose data are captured *)
Definition capturing : state :=
  {| st := DATA_RX; cbw_tag := 2; tx_byte_idx := 0; rx_byte_idx := 0;
     rx_data_count := 0; data_len_r := 8; csw_sig := 0; captured_sig := 0;
     pid_in := Sie.DATA0; pid_out := Sie.DATA1; stream_mode := false |}.

(** waiting for the status wrapper of command number [tag] *)
Definition csw_rx (tag : Z) : state :=
  {| st := CSW_RX; cbw_tag := tag; tx_byte_idx := 0; rx_byte_idx := 0;
     rx_data_count := 0; data_len_r := 0; csw_sig := 0; captured_sig := 0;
     pid_in := Sie.DATA0; pid_out := Sie.DATA1; stream_mode := false |}.

End MscStream.

(** ** guh/engines/msc.py : USBMSCHost *)

Module MscHost.

Definition _WATCHDOG_CYCLES : Z := 10 * 60000000.
Definition _INIT_RETRY_MAX : Z := 10.
Definition _BLOCKS_PER_READ : Z := 1.

Inductive fsm :=
| WAIT_ENUMERATION
| TEST_UNIT_READY | TEST_UNIT_READY_WAIT
| READ_CAPACITY | READ_CAPACITY_WAIT
| READY | READ | READ_WAIT.

Record state := {
  st          : fsm;
  block_size  : Z;      (* Signal(16), init 512 *)
  block_count : Z;      (* Signal(32) *)
  current_lba : Z;      (* Signal(32) *)
  init_retry  : Z;      (* Signal(range(11)), 4 bits *)
  watchdog    : Z       (* Signal(32) *)
}.

Definition init : state :=
  {| st := WAIT_ENUMERATION; block_size := 512; block_count := 0;
     current_lba := 0; init_retry := 0; watchdog := 0 |}.

(** What the engine samples in one cycle: the status and the captured
    response of the transport, and the command of the user. *)
Record input := {
  scsi_idle     : bool;
  scsi_done     : bool;
  scsi_error    : bool;
  scsi_rejected : bool;
  captured      : Z;      (* ReadCapacity10Response, 64 bits *)
  cmd_start     : bool;
  cmd_lba       : Z       (* unsigned(32) *)
}.

(** *** Combinational outputs *)

(** a 32-bit value with its four bytes in the opposite order *)
Definition swap32 (v : Z) : Z :=
  Cat [(8, Z.shiftr v 24); (8, Z.shiftr v 16); (8, Z.shiftr v 8); (8, v)].

(** [CDB6], or [CDB10], with only the opcode driven: both views of the
    union have it in the low byte *)
Definition opcode_only (opcode : Z) : Z :=
  Cat [(8, opcode); (32, 0); (8, 0); (80, 0)].

(** [CDB10] as READ and READ-WAIT drive it *)
Definition cdb10_read (lba : Z) : Z :=
  Cat [(8, Msc.SCSIOpCode_READ_10);
       (8, 0);
       (32, swap32 lba);
       (8, 0);
       (16, Cat [(8, Z.shiftr _BLOCKS_PER_READ 8);
                 (8, Z.land _BLOCKS_PER_READ 255)]);
       (8, 0);
       (48, 0)].

(** [scsi.cmd] *)
Definition scsi_cmd (s : state) : Msc.Command :=
  match st s with
  | TEST_UNIT_READY =>
      {| Msc.start := true; Msc.data_len := 0; Msc.stream_data := false;
         Msc.cdb := opcode_only Msc.SCSIOpCode_TEST_UNIT_READY |}
  | TEST_UNIT_READY_WAIT =>
      {| Msc.start := false; Msc.data_len := 0; Msc.stream_data := false;
         Msc.cdb := opcode_only Msc.SCSIOpCode_TEST_UNIT_READY |}
  | READ_CAPACITY =>
      {| Msc.start := true; Msc.data_len := Msc.READ_CAPACITY_SIZE_BYTES;
         Msc.stream_data := false;
         Msc.cdb := opcode_only Msc.SCSIOpCode_READ_CAPACITY_10 |}
  | READ_CAPACITY_WAIT =>
      {| Msc.start := false; Msc.data_len := Msc.READ_CAPACITY_SIZE_BYTES;
         Msc.stream_data := false;
         Msc.cdb := opcode_only Msc.SCSIOpCode_READ_CAPACITY_10 |}
  | READ =>
      {| Msc.start := true;
         Msc.data_len := block_size s * _BLOCKS_PER_READ;
         Msc.stream_data := true;
         Msc.cdb := cdb10_read (current_lba s) |}
  | READ_WAIT =>
      {| Msc.start := false;
         Msc.data_len := block_size s * _BLOCKS_PER_READ;
         Msc.stream_data := true;
         Msc.cdb := cdb10_read (current_lba s) |}
  | _ =>
      {| Msc.start := false; Msc.data_len := 0; Msc.stream_data := false;
         Msc.cdb := 0 |}
  end.

Definition status_busy (s : state) : bool :=
  match st s with READY => false | _ => true end.

Definition status_ready (s : state) : bool := negb (status_busy s).

Definition resp_done (i : input) (s : state) : bool :=
  match st s with READ_WAIT => scsi_done i | _ => false end.

Definition resp_error (i : input) (s : state) : bool :=
  match st s with
  | READ_WAIT => scsi_done i && (scsi_error i || scsi_rejected i)
  | _ => false
  end.

Definition watchdog_expired (s : state) : bool :=
  _WATCHDOG_CYCLES - 1 <=? watchdog s.

(** *** Next state *)

Definition ok (i : input) : bool :=
  negb (scsi_error i) && negb (scsi_rejected i).

Definition last_lba_le (i : input) : Z := swap32 (trunc 32 (captured i)).
Definition blk_size_le (i : input) : Z := swap32 (trunc 32 (Z.shiftr (captured i) 32)).

Definition step_no_reset (i : input) (s : state) : state :=
  let tick := trunc 32 (watchdog s + 1) in
  match st s with
  | WAIT_ENUMERATION =>
      if scsi_idle i then
        {| st := TEST_UNIT_READY; block_size := block_size s;
           block_count := block_count s; current_lba := current_lba s;
           init_retry := 0; watchdog := 0 |}
      else
        {| st := WAIT_ENUMERATION; block_size := block_size s;
           block_count := block_count s; current_lba := current_lba s;
           init_retry := init_retry s; watchdog := tick |}
  | TEST_UNIT_READY =>
      {| st := TEST_UNIT_READY_WAIT; block_size := block_size s;
         block_count := block_count s; current_lba := current_lba s;
         init_retry := init_retry s; watchdog := tick |}
  | TEST_UNIT_READY_WAIT =>
      if scsi_done i then
        if ok i then
          {| st := READ_CAPACITY; block_size := block_size s;
             block_count := block_count s; current_lba := current_lba s;
             init_retry := 0; watchdog := 0 |}
        else
          {| st := if _INIT_RETRY_MAX <=? init_retry s
                   then WAIT_ENUMERATION else TEST_UNIT_READY;
             block_size := block_size s;
             block_count := block_count s; current_lba := current_lba s;
             init_retry := trunc 4 (init_retry s + 1); watchdog := tick |}
      else
        {| st := TEST_UNIT_READY_WAIT; block_size := block_size s;
           block_count := block_count s; current_lba := current_lba s;
           init_retry := init_retry s; watchdog := tick |}
  | READ_CAPACITY =>
      {| st := READ_CAPACITY_WAIT; block_size := block_size s;
         block_count := block_count s; current_lba := current_lba s;
         init_retry := init_retry s; watchdog := tick |}
  | READ_CAPACITY_WAIT =>
      if scsi_done i then
        if ok i then
          {| st := READY;
             block_size := trunc 16 (blk_size_le i);
             block_count := trunc 32 (last_lba_le i + 1);
             current_lba := current_lba s;
             init_retry := init_retry s; watchdog := 0 |}
        else
          {| st := READ_CAPACITY; block_size := block_size s;
             block_count := block_count s; current_lba := current_lba s;
             init_retry := init_retry s; watchdog := tick |}
      else
        {| st := READ_CAPACITY_WAIT; block_size := block_size s;
           block_count := block_count s; current_lba := current_lba s;
           init_retry := init_retry s; watchdog := tick |}
  | READY =>
      if cmd_start i then
        {| st := READ; block_size := block_size s;
           block_count := block_count s;
           current_lba := trunc 32 (cmd_lba i);
           init_retry := init_retry s; watchdog := tick |}
      else
        {| st := READY; block_size := block_size s;
           block_count := block_count s; current_lba := current_lba s;
           init_retry := init_retry s; watchdog := tick |}
  | READ =>
      {| st := READ_WAIT; block_size := block_size s;
         block_count := block_count s; current_lba := current_lba s;
         init_retry := init_retry s; watchdog := tick |}
  | READ_WAIT =>
      if scsi_done i then
        {| st := READY; block_size := block_size s;
           block_count := block_count s; current_lba := current_lba s;
           init_retry := init_retry s;
           watchdog := if ok i then 0 else tick |}
      else
        {| st := READ_WAIT; block_size := block_size s;
           block_count := block_count s; current_lba := current_lba s;
           init_retry := init_retry s; watchdog := tick |}
  end.

(** [ResetInserter({"usb": watchdog_expired})] *)
Definition step (i : input) (s : state) : state :=
  if watchdog_expired s then init else step_no_reset i s.

Fixpoint run (ins : list input) (s : state) : state :=
  match ins with
  | [] => s
  | i :: rest => run rest (step i s)
  end.

(** the commands strobed to the transport along a run, by opcode byte *)
Fixpoint started (ins : list input) (s : state) : list Z :=
  match ins with
  | [] => []
  | i :: rest =>
      if Msc.start (scsi_cmd s)
      then Msc.cdb_opcode (scsi_cmd s) :: started rest (step i s)
      else started rest (step i s)
  end.

(** *** Stimulus *)

(** the transport busy with the command *)
Definition pending : input :=
  {| scsi_idle := false; scsi_done := false; scsi_error := false;
     scsi_rejected := false; captured := 0; cmd_start := false; cmd_lba := 0 |}.

(** the transport reports the command done *)
Definition done_with (error rejected : bool) (cap : Z) : input :=
  {| scsi_idle := false; scsi_done := true; scsi_error := error;
     scsi_rejected := rejected; captured := cap;
     cmd_start := false; cmd_lba := 0 |}.

(** the engine waiting for the answer to READ CAPACITY *)
Definition awaiting_capacity : state :=
  {| st := READ_CAPACITY_WAIT; block_size := 512; block_count := 0;
     current_lba := 0; init_retry := 0; watchdog := 100 |}.

(** the command fails in this cycle *)
Definition fails (i : input) : bool :=
  scsi_done i && negb (ok i).

(** the transport is still busy in these cycles *)
Definition waits (ins : list input) : bool :=
  forallb (fun i => negb (scsi_done i)) ins.

(** one attempt: the strobe cycle, the cycles of waiting, the cycle in which
    the transport reports a failure *)
Definition attempt (r : input * list input * input) : list input :=
  fst (fst r) :: snd (fst r) ++ [snd r].

Definition failing (r : input * list input * input) : bool :=
  waits (snd (fst r)) && fails (snd r).

Definition attempts (rs : list (input * list input * input)) : list input :=
  concat (map attempt rs).

Definition cycles (rs : list (input * list input * input)) : Z :=
  Z.of_nat (length (attempts rs)).

End MscHost.

(** ** guh/engines/msc.py : USBMSCHost wired to its SCSIBulkHost *)

Module MscSystem.

(** What the two engines sample from the enumerator, the SIE, the Rx FIFO
    and the user in one cycle. *)
Record env := {
  enumerated      : bool;
  parser_o_valid  : bool;
  txs_ready       : bool;
  status_idle     : bool;
  status_response : Sie.TransferResponse;
  rxs_valid       : bool;
  rxs_payload     : Z;
  rx_fifo_w_ready : bool;
  cmd_start       : bool;
  cmd_lba         : Z
}.

(** [scsi.cmd] is driven by the engine *)
Definition bulk_input (e : env) (h : MscHost.state) : Msc.input :=
  {| Msc.enumerated := enumerated e;
     Msc.parser_o_valid := parser_o_valid e;
     Msc.cmd := MscHost.scsi_cmd h;
     Msc.txs_ready := txs_ready e;
     Msc.status_idle := status_idle e;
     Msc.status_response := status_response e;
     Msc.rxs_valid := rxs_valid e;
     Msc.rxs_payload := rxs_payload e;
     Msc.rx_fifo_w_ready := rx_fifo_w_ready e |}.

(** [scsi.status] and [scsi.captured] are read by the engine *)
Definition host_input (e : env) (h : MscHost.state) (b : Msc.state)
  : MscHost.input :=
  {| MscHost.scsi_idle := Msc.status_idle_out b;
     MscHost.scsi_done := Msc.status_done (bulk_input e h) b;
     MscHost.scsi_error := Msc.status_error (bulk_input e h) b;
     MscHost.scsi_rejected := Msc.status_rejected (bulk_input e h) b;
     MscHost.captured := Msc.captured_sig b;
     MscHost.cmd_start := cmd_start e;
     MscHost.cmd_lba := cmd_lba e |}.

(** the watchdog resets the engine together with its submodules *)
Definition step (e : env) (hb : MscHost.state * Msc.state)
  : MscHost.state * Msc.state :=
  let (h, b) := hb in
  if MscHost.watchdog_expired h then (MscHost.init, Msc.init)
  else (MscHost.step_no_reset (host_input e h b) h,
        Msc.step (bulk_input e h) b).

Fixpoint run (es : list env) (hb : MscHost.state * Msc.state)
  : MscHost.state * Msc.state :=
  match es with
  | [] => hb
  | e :: rest => run rest (step e hb)
  end.

(** the bytes written to [enum.ctrl.txs] along a run *)
Fixpoint wire (es : list env) (hb : MscHost.state * Msc.state) : list Z :=
  match es with
  | [] => []
  | e :: rest =>
      match Msc.txs_out (bulk_input e (fst hb)) (snd hb) with
      | Some byte =>
          if txs_ready e then byte :: wire rest (step e hb)
          else wire rest (step e hb)
      | None => wire rest (step e hb)
      end
  end.

Definition ready_count (es : list env) : nat := length (filter txs_ready es).

(** the low [n] bytes of a value, least significant first *)
Definition le (n : nat) (v : Z) : list Z :=
  map (fun k => MscStream.byte_at v (Z.of_nat k)) (seq 0 n).

(** the engine strobes a command / holds it while the transport works *)
Definition strobing (f : MscHost.fsm) : bool :=
  match f with
  | MscHost.TEST_UNIT_READY | MscHost.READ_CAPACITY | MscHost.READ => true
  | _ => false
  end.

Definition holding (f : MscHost.fsm) : bool :=
  match f with
  | MscHost.TEST_UNIT_READY_WAIT | MscHost.READ_CAPACITY_WAIT
  | MscHost.READ_WAIT => true
  | _ => false
  end.

(** the command block wrapper of each command, byte by byte *)
Definition wire_image (h : MscHost.state) (tag : Z) : list Z :=
  [0x55; 0x53; 0x42; 0x43] ++ le 4 tag ++
  match MscHost.st h with
  | MscHost.TEST_UNIT_READY =>
      [0; 0; 0; 0; 0x00; 0; 6;
       0x00; 0; 0; 0; 0; 0; 0; 0; 0; 0; 0; 0; 0; 0; 0; 0]
  | MscHost.READ_CAPACITY =>
      [8; 0; 0; 0; 0x80; 0; 10;
       0x25; 0; 0; 0; 0; 0; 0; 0; 0; 0; 0; 0; 0; 0; 0; 0]
  | _ =>
      le 4 (MscHost.block_size h) ++
      [if 0 <? trunc 32 (MscHost.block_size h) then 0x80 else 0x00; 0; 10;
       0x28; 0;
       MscStream.byte_at (MscHost.current_lba h) 3;
       MscStream.byte_at (MscHost.current_lba h) 2;
       MscStream.byte_at (MscHost.current_lba h) 1;
       MscStream.byte_at (MscHost.current_lba h) 0;
       0; 0; 1; 0; 0; 0; 0; 0; 0; 0]
  end.

(** *** Stimulus *)

Definition tick (ready : bool) : env :=
  {| enumerated := true; parser_o_valid := true; txs_ready := ready;
     status_idle := false; status_response := Sie.NONE;
     rxs_valid := false; rxs_payload := 0; rx_fifo_w_ready := true;
     cmd_start := false; cmd_lba := 0 |}.

(** the engine about to read block [lba], command number [tag] *)
Definition reading (lba tag : Z) : MscHost.state * Msc.state :=
  ({| MscHost.st := MscHost.READ; MscHost.block_size := 512;
      MscHost.block_count := 2048; MscHost.current_lba := lba;
      MscHost.init_retry := 0; MscHost.watchdog := 0 |},
   Msc.idle_tag tag).

End MscSystem.

(** ** guh/engines/midi.py : USBMIDIHost *)

Module Midi.

Import Sie.

Definition USB_MIDI_EVENT_SIZE : Z := 4.
Definition _WATCHDOG_CYCLES : Z := 3 * 60000000.

Inductive fsm := WAIT_ENUMERATION | MIDI_POLL.

Record state := {
  st            : fsm;
  watchdog      : Z;        (* Signal(32) *)
  pid           : DataPID;
  l_sof_frame   : Z;        (* Signal(11) *)
  rx_byte_count : Z         (* Signal(2) *)
}.

Definition init : state :=
  {| st := WAIT_ENUMERATION; watchdog := 0; pid := DATA0; l_sof_frame := 0;
     rx_byte_count := 0 |}.

(** What the engine samples in one cycle of the [usb] clock. *)
Record input := {
  enumerated       : bool;              (* enum.status.enumerated *)
  parser_o_valid   : bool;              (* enum.parser.o.valid *)
  status_idle      : bool;              (* enum.ctrl.status *)
  status_response  : TransferResponse;
  status_sof_frame : Z;
  rxs_valid        : bool;              (* enum.ctrl.rxs *)
  rxs_payload      : Z;
  w_ready          : bool               (* midi_fifo.w_stream.ready *)
}.

(** *** Combinational outputs *)

(** [enum.ctrl.rxs.valid & enum.ctrl.rxs.ready]: [ready] is the FIFO's *)
Definition rx_fire (i : input) : bool := rxs_valid i && w_ready i.

(** the beat handed to [midi_fifo.w_stream] in this cycle, if any *)
Definition rx_push (i : input) (s : state) : option MscStream.beat :=
  if rx_fire i
  then Some {| MscStream.p_data := rxs_payload i;
               MscStream.p_first := rx_byte_count s =? 0;
               MscStream.p_last :=
                 rx_byte_count s =? USB_MIDI_EVENT_SIZE - 1 |}
  else None.

Definition poll_now (i : input) (s : state) : bool :=
  status_idle i && negb (status_sof_frame i =? l_sof_frame s).

(** [enum.ctrl.xfer.start]; the transfer is an IN with data PID [pid] *)
Definition xfer_start (i : input) (s : state) : bool :=
  match st s with MIDI_POLL => poll_now i s | _ => false end.

Definition watchdog_expired (s : state) : bool :=
  watchdog s =? _WATCHDOG_CYCLES - 1.

(** *** Next state *)

Definition rx_count_after_rx (i : input) (s : state) : Z :=
  if rx_fire i then trunc 2 (rx_byte_count s + 1) else rx_byte_count s.

Definition step_no_reset (i : input) (s : state) : state :=
  match st s with
  | WAIT_ENUMERATION =>
      let go := enumerated i && parser_o_valid i in
      {| st := if go then MIDI_POLL else WAIT_ENUMERATION;
         watchdog := if go then 0 else trunc 32 (watchdog s + 1);
         pid := pid s; l_sof_frame := l_sof_frame s;
         rx_byte_count := rx_count_after_rx i s |}
  | MIDI_POLL =>
      if poll_now i s then
        {| st := MIDI_POLL;
           watchdog := trunc 32 (watchdog s + 1);
           pid := pid s;
           l_sof_frame := status_sof_frame i;
           rx_byte_count := 0 |}
      else
        let r := status_response i in
        {| st := MIDI_POLL;
           watchdog := if Keyboard.is_ack r || Keyboard.is_nak r then 0
                       else trunc 32 (watchdog s + 1);
           pid := if Keyboard.is_ack r then Keyboard.toggle (pid s)
                  else pid s;
           l_sof_frame := l_sof_frame s;
           rx_byte_count := rx_count_after_rx i s |}
  end.

(** [ResetInserter({"usb": watchdog_expired})] *)
Definition step (i : input) (s : state) : state :=
  if watchdog_expired s then init else step_no_reset i s.

Fixpoint run (ins : list input) (s : state) : state :=
  match ins with
  | [] => s
  | i :: rest => run rest (step i s)
  end.

(** the beats handed to the FIFO along a run *)
Fixpoint pushed (ins : list input) (s : state) : list MscStream.beat :=
  match ins with
  | [] => []
  | i :: rest =>
      match rx_push i s with
      | Some b => b :: pushed rest (step i s)
      | None => pushed rest (step i s)
      end
  end.

(** *** Transfers and events *)

(** a new poll is due: the SIE is idle in a frame other than [l] *)
Definition polls (l : Z) (i : input) : bool :=
  status_idle i && negb (status_sof_frame i =? l).

(** cycles of frame [l] in which no new poll is due *)
Definition same_frame (l : Z) (ins : list input) : bool :=
  forallb (fun i => negb (polls l i)) ins.

(** the bytes the FIFO takes from [rxs] *)
Definition accepted (ins : list input) : list Z :=
  map rxs_payload (filter rx_fire ins).

(** bytes in events of four: byte number [k] of a transfer opens an event
    if [k] is a multiple of four and closes one if [k + 1] is *)
Fixpoint events (k : Z) (d : list Z) : list MscStream.beat :=
  match d with
  | [] => []
  | b :: r =>
      {| MscStream.p_data := b;
         MscStream.p_first := k mod 4 =? 0;
         MscStream.p_last := k mod 4 =? 3 |}
      :: events (k + 1) r
  end.

(** the SIE shows ACK and no new poll is due *)
Definition shows_ack (l : Z) (i : input) : bool :=
  negb (polls l i) && Keyboard.is_ack (status_response i).

(** *** Stimulus *)

Definition mcycle (idle : bool) (r : TransferResponse) (frame : Z)
           (rx : option Z) (ready : bool) : input :=
  {| enumerated := true; parser_o_valid := true;
     status_idle := idle; status_response := r; status_sof_frame := frame;
     rxs_valid := match rx with Some _ => true | None => false end;
     rxs_payload := match rx with Some b => b | None => 0 end;
     w_ready := ready |}.

(** the engine polling in frame [l], its byte counter at [c] *)
Definition polling (l c : Z) : state :=
  {| st := MIDI_POLL; watchdog := 5; pid := DATA0; l_sof_frame := l;
     rx_byte_count := c |}.

End Midi.

(** * Properties *)

(** ** Bit-vector facts *)

Lemma trunc_range w x : 0 <= w -> 0 <= trunc w x < 2 ^ w.
Proof.
  intros Hw. unfold trunc. apply Z.mod_pos_bound. apply Z.pow_pos_nonneg; lia.
Qed.

Lemma trunc_small w x : 0 <= x < 2 ^ w -> trunc w x = x.
Proof. intros H. unfold trunc. apply Z.mod_small; assumption. Qed.

Lemma trunc_testbit w x j :
  0 <= w -> Z.testbit (trunc w x) j = (j <? w) && Z.testbit x j.
Proof.
  intros Hw. unfold trunc. destruct (Z.ltb_spec j w) as [Hlt | Hge]; cbn [andb].
  - destruct (Z.neg_nonneg_cases j) as [Hn | Hn].
    + now rewrite !Z.testbit_neg_r.
    + apply Z.mod_pow2_bits_low; lia.
  - apply Z.mod_pow2_bits_high; lia.
Qed.

Lemma Cat_cons_testbit w v rest j :
  0 <= w -> 0 <= j ->
  Z.testbit (Cat ((w, v) :: rest)) j =
  if j <? w then Z.testbit v j else Z.testbit (Cat rest) (j - w).
Proof.
  intros Hw Hj. cbn [Cat].
  rewrite Z.lor_spec, trunc_testbit, Z.shiftl_spec by lia.
  destruct (Z.ltb_spec j w) as [Hlt | Hge]; cbn [andb].
  - rewrite (Z.testbit_neg_r _ (j - w)) by lia. now rewrite orb_false_r.
  - reflexivity.
Qed.

Lemma byte_bits v k j :
  0 <= k -> 0 <= j ->
  Z.testbit (Z.land (Z.shiftr v (k * 8)) 255) j = (j <? 8) && Z.testbit v (j + k * 8).
Proof.
  intros Hk Hj. change 255 with (Z.ones 8).
  rewrite Z.land_spec, Z.shiftr_spec by lia.
  destruct (Z.ltb_spec j 8) as [Hlt | Hge]; cbn [andb].
  - rewrite Z.ones_spec_low by lia. now rewrite andb_true_r.
  - rewrite Z.ones_spec_high by lia. now rewrite andb_false_r.
Qed.

(** A byte of a value is a byte. *)
Lemma byte_bounds v k : 0 <= Z.land (Z.shiftr v (k * 8)) 255 < 256.
Proof.
  change 255 with (Z.ones 8). rewrite Z.land_ones by lia.
  apply Z.mod_pos_bound. lia.
Qed.

(** Dropping the first field of a [Cat]. *)
Lemma Cat_shiftr w v rest :
  0 <= w -> Z.shiftr (Cat ((w, v) :: rest)) w = Cat rest.
Proof.
  intros Hw. apply Z.bits_inj'. intros j Hj.
  rewrite Z.shiftr_spec, Cat_cons_testbit by lia.
  destruct (Z.ltb_spec (j + w) w) as [Hlt | Hge]; [lia |].
  f_equal. lia.
Qed.

(** A byte that lies inside the first field of a [Cat]. *)
Lemma Cat_low_byte w v rest k :
  0 <= k -> k * 8 + 8 <= w ->
  Z.land (Z.shiftr (Cat ((w, v) :: rest)) (k * 8)) 255
  = Z.land (Z.shiftr v (k * 8)) 255.
Proof.
  intros Hk Hw. apply Z.bits_inj'. intros j Hj.
  rewrite !byte_bits by lia.
  destruct (Z.ltb_spec j 8) as [Hlt | Hge]; cbn [andb]; [| reflexivity].
  rewrite Cat_cons_testbit by lia.
  destruct (Z.ltb_spec (j + k * 8) w); [reflexivity | lia].
Qed.

Lemma land_255_small x : 0 <= x < 256 -> Z.land x 255 = x.
Proof.
  intros H. change 255 with (Z.ones 8). rewrite Z.land_ones by lia.
  apply Z.mod_small. lia.
Qed.

(** ** C2: setup packets *)

(** C2.  The setup-packet constructors serialise to the eight bytes measured
    on the wire: GET_DESCRIPTOR(DEVICE, 0, 0, 0x40), SET_ADDRESS(0x12) and
    SET_CONFIGURATION(1) give the byte lists of the protocol test. *)
Theorem setup_payload_bytes :
  Setup.get_descriptor Setup.DescriptorTypes_DEVICE 0 0 0x40
    = [0x80; 0x06; 0x00; 0x01; 0x00; 0x00; 0x40; 0x00]
  /\ Setup.set_address 0x12 = [0x00; 0x05; 0x12; 0x00; 0x00; 0x00; 0x00; 0x00]
  /\ Setup.set_configuration 1
    = [0x00; 0x09; 0x01; 0x00; 0x00; 0x00; 0x00; 0x00].
Proof. repeat split; vm_compute; reflexivity. Qed.

(** ** C7: the SOF controller *)

Lemma sof_cycles_bounds sp : 0 < Sof.sof_cycles sp <= 60000.
Proof. unfold Sof.sof_cycles. destruct (is_high sp); cbv; intuition congruence. Qed.

(** While the timer stays below the period it just counts; the frame
    counters are untouched, and a pending SOF is handed over as soon as
    the token generator takes it. *)
Lemma sof_run_counting sp rs :
  forall s,
    0 <= Sof.sof_timer s ->
    Sof.sof_timer s + Z.of_nat (length rs) <= Sof.sof_cycles sp - 1 ->
    Sof.run sp rs s =
    {| Sof.st := match Sof.st s with
                 | Sof.IDLE => Sof.IDLE
                 | Sof.SEND => if existsb (fun r => r) rs then Sof.IDLE else Sof.SEND
                 end;
       Sof.sof_timer := Sof.sof_timer s + Z.of_nat (length rs);
       Sof.frame_number := Sof.frame_number s;
       Sof.microframe_number := Sof.microframe_number s |}.
Proof.
  pose proof (sof_cycles_bounds sp) as Hc.
  induction rs as [| r rs IH]; intros s H0 Hlen.
  - cbn [Sof.run length existsb Z.of_nat]. rewrite Z.add_0_r.
    destruct s as [f t fr mf]; destruct f; reflexivity.
  - cbn [length] in Hlen. rewrite Nat2Z.inj_succ in Hlen.
    cbn [Sof.run].
    assert (Hstep : Sof.step sp r s =
              {| Sof.st := match Sof.st s with
                           | Sof.IDLE => Sof.IDLE
                           | Sof.SEND => if r then Sof.IDLE else Sof.SEND
                           end;
                 Sof.sof_timer := Sof.sof_timer s + 1;
                 Sof.frame_number := Sof.frame_number s;
                 Sof.microframe_number := Sof.microframe_number s |}).
    { unfold Sof.step. rewrite (trunc_small 16) by (change (2 ^ 16) with 65536; lia).
      destruct (Sof.st s); [| reflexivity].
      destruct (Z.eqb_spec (Sof.sof_timer s) (Sof.sof_cycles sp - 1)); [lia | reflexivity]. }
    rewrite Hstep, IH; cbn [Sof.st Sof.sof_timer Sof.frame_number
                              Sof.microframe_number]; try lia.
    cbn [length existsb]. rewrite Nat2Z.inj_succ.
    f_equal; try lia.
    destruct (Sof.st s); [reflexivity |]. destruct r; reflexivity.
Qed.



(** The first SOF after reset is scheduled when a full period has elapsed. *)
Lemma sof_first_after_reset sp rs :
  Z.of_nat (length rs) = Sof.sof_cycles sp - 1 ->
  Sof.fires sp (Sof.run sp rs Sof.init) = true.
Proof.
  intros Hlen. rewrite sof_run_counting by (cbn; lia).
  unfold Sof.fires; cbn. rewrite Hlen. apply Z.eqb_refl.
Qed.

(** ** The transfer engine: C1, C5, C6 *)

Module SieFacts.

Import Sie.

Lemma received_split i s :
  (if rx_received i s then 1 else 0)
  = (if rx_w_en i s then 1 else 0) + (if rx_dropped i s then 1 else 0).
Proof.
  unfold rx_received, rx_w_en, rx_dropped.
  destruct (st s); try reflexivity.
  destruct (rx_next i), (Fifo.w_rdy (rx_fifo s)); reflexivity.
Qed.

Lemma count_received_split ins :
  forall s, count rx_received ins s = count rx_w_en ins s + count rx_dropped ins s.
Proof.
  induction ins as [| i ins IH]; intros s; cbn [count]; [reflexivity |].
  rewrite IH, received_split. lia.
Qed.

Lemma count_nonneg ev ins : forall s, 0 <= count ev ins s.
Proof.
  induction ins as [| i ins IH]; intros s; cbn [count]; [lia |].
  specialize (IH (step i s)). destruct (ev i s); lia.
Qed.

(** One cycle: [rx_len] moves by one exactly when a byte is received. *)
Lemma rx_len_step i s :
  (st s = IDLE -> xfer_start i = false) ->
  rx_len (step i s) =
  if rx_received i s then trunc 8 (rx_len s + 1) else rx_len s.
Proof.
  intros Hns. unfold step, next_rx_len, rx_received; cbn [rx_len].
  destruct (st s) eqn:E; try reflexivity.
  rewrite Hns; reflexivity.
Qed.

Lemma rx_len_run ins :
  forall s,
    no_start ins = true ->
    0 <= rx_len s < 256 ->
    rx_len (run ins s) = (rx_len s + count rx_received ins s) mod 256.
Proof.
  induction ins as [| i ins IH]; intros s Hns Hr.
  - cbn [run count]. rewrite Z.add_0_r, Z.mod_small; lia.
  - cbn [no_start forallb] in Hns. apply andb_true_iff in Hns as [Hi Hns].
    apply negb_true_iff in Hi.
    cbn [run count]. rewrite IH; [| exact Hns |].
    + rewrite rx_len_step by (intros _; exact Hi).
      destruct (rx_received i s).
      * unfold trunc. change (2 ^ 8) with 256.
        rewrite Zplus_mod_idemp_l. f_equal. lia.
      * f_equal.
    + rewrite rx_len_step by (intros _; exact Hi).
      destruct (rx_received i s); [| exact Hr].
      apply (trunc_range 8). lia.
Qed.

Lemma rx_len_range_run ins :
  forall s,
    no_start ins = true -> 0 <= rx_len s < 256 -> 0 <= rx_len (run ins s) < 256.
Proof.
  intros s Hns Hr. rewrite (rx_len_run ins s Hns Hr).
  apply Z.mod_pos_bound. lia.
Qed.

(** C1 (as the code has it).  When a transfer is started from IDLE and no
    other transfer is started afterwards, [rx_len] is at most 255 and is,
    modulo 256, the number of bytes the receiver handed over in
    WAIT_IN_DATA: the bytes pushed into the Rx FIFO plus the bytes dropped
    because the FIFO was full.  With no dropped byte and fewer than 256
    received bytes it is the number of bytes pushed. *)
Theorem rx_len_counts_received s0 i0 ins :
  st s0 = IDLE ->
  xfer_start i0 = true ->
  no_start ins = true ->
  let s := run (i0 :: ins) s0 in
  let pushed := count rx_w_en (i0 :: ins) s0 in
  let dropped := count rx_dropped (i0 :: ins) s0 in
  0 <= rx_len s <= 255 /\
  rx_len s = (pushed + dropped) mod 256 /\
  (dropped = 0 -> pushed <= 255 -> rx_len s = pushed).
Proof.
  intros Hidle Hstart Hns s pushed dropped.
  assert (H1 : rx_len (step i0 s0) = 0).
  { unfold step, next_rx_len; cbn [rx_len]. now rewrite Hidle, Hstart. }
  assert (Hc : count rx_received (i0 :: ins) s0 = pushed + dropped)
    by apply count_received_split.
  assert (Hc0 : count rx_received (i0 :: ins) s0
                = count rx_received ins (step i0 s0)).
  { cbn [count]. unfold rx_received at 1. now rewrite Hidle. }
  assert (Hlen : rx_len s = (pushed + dropped) mod 256).
  { subst s. cbn [run]. rewrite rx_len_run by (rewrite ?H1; auto; lia).
    rewrite H1, Z.add_0_l, <- Hc0, Hc. reflexivity. }
  split; [| split].
  - rewrite Hlen. pose proof (Z.mod_pos_bound (pushed + dropped) 256). lia.
  - exact Hlen.
  - intros Hd Hp. rewrite Hlen, Hd, Z.add_0_r.
    apply Z.mod_small. split; [apply count_nonneg | lia].
Qed.

Lemma rx_len_counts_received_witness :
  let ins := tl (in_transfer_bytes 3) ++ [packet_end] in
  rx_len (run (start_in :: ins) idle0) = 3 /\
  count rx_w_en (start_in :: ins) idle0 = 3.
Proof.
  intros ins.
  destruct (rx_len_counts_received idle0 start_in ins eq_refl eq_refl eq_refl)
    as (_ & _ & H).
  split; [| reflexivity].
  exact (H eq_refl ltac:(vm_compute; discriminate)).
Defined.

(** C1, as stated, fails: in an IN transfer of 65 bytes that the consumer
    does not read, 64 bytes are pushed into the Rx FIFO and the 65th is
    dropped, yet the latched [rx_len] is 65. *)
Lemma rx_len_counts_dropped_bytes :
  let ins := in_transfer_bytes 65 ++ [packet_end] ++ ipd_cycles in
  let s := run ins idle0 in
  st s = IDLE /\ response s = RX_OVERFLOW /\
  count rx_w_en ins idle0 = 64 /\ count rx_dropped ins idle0 = 1 /\
  rx_len s = 65 /\ rx_len s <> count rx_w_en ins idle0.
Proof. vm_compute. repeat split; discriminate. Qed.

(** *** C5: overflow and the host-side ACK *)

Ltac split_ifs :=
  repeat match goal with
         | |- context [if ?b then _ else _] => destruct b eqn:?
         end.

Lemma response_eqb_eq a b : response_eqb a b = true <-> a = b.
Proof. destruct a, b; cbn; split; intros H; congruence. Qed.









End SieFacts.

(** ** C6: transfers and the SOF transmit window *)

Module SystemFacts.

Import Sie.

Lemma txa_window sp f :
  Sof.txa sp f = true <->
  Sof.tx_to_tx_min sp <= Sof.sof_timer f < Sof.tx_to_tx_max sp.
Proof.
  unfold Sof.txa. rewrite andb_true_iff, Z.leb_le, Z.ltb_lt. reflexivity.
Qed.

Lemma enters_send_token i s :
  st (step i s) = SEND_TOKEN -> st s <> SEND_TOKEN ->
  st s = WAIT_TXA /\ sof_txa i = true.
Proof.
  unfold step, next_st, wait_in_data_next, wait_handshake_next; cbn [st].
  destruct (st s) eqn:E; try destruct (xfer_type s);
    SieFacts.split_ifs; intros H Hne;
    try contradiction; try discriminate; auto.
Qed.

Lemma leaves_sof_phase i s :
  send_sofs s = true -> send_sofs (step i s) = false ->
  st s = WAIT_TXA /\ sof_txa i = true /\ st (step i s) = SEND_TOKEN.
Proof.
  unfold send_sofs, step, next_st; cbn [st].
  destruct (st s) eqn:E; try destruct (xfer_type s);
    SieFacts.split_ifs; intros H1 H2; try discriminate; auto.
Qed.

Lemma system_run_app a :
  forall b s, System.run (a ++ b) s = System.run b (System.run a s).
Proof.
  induction a as [| i a IH]; intros b s; cbn [app System.run];
    [reflexivity | apply IH].
Qed.

(** Whenever the engine is found in SEND_TOKEN, it got there from WAIT_TXA
    in a cycle with the window open and has stayed there since. *)
Lemma token_offer_origin ins :
  forall s,
    st (System.sie s) <> SEND_TOKEN ->
    st (System.sie (System.run ins s)) = SEND_TOKEN ->
    exists pre i post,
      ins = pre ++ i :: post /\
      st (System.sie (System.run pre s)) = WAIT_TXA /\
      Sof.txa (detected_speed i) (System.sof (System.run pre s)) = true /\
      forall post1 post2,
        post = post1 ++ post2 ->
        st (System.sie (System.run (pre ++ i :: post1) s)) = SEND_TOKEN.
Proof.
  induction ins as [| x ins IH] using rev_ind; intros s Hne Hfin.
  - cbn in Hfin. contradiction.
  - rewrite system_run_app in Hfin. cbn [System.run] in Hfin.
    destruct (st (System.sie (System.run ins s))) eqn:E.
    5: { destruct (IH s Hne E) as (pre & i & post & Hins & Hw & Ht & Hstay).
         exists pre, i, (post ++ [x]). subst ins.
         split; [now rewrite <- app_assoc |]. split; [exact Hw |].
         split; [exact Ht |].
         intros post1 post2 Hp.
         destruct post2 as [| y post2 _] using rev_ind.
         - rewrite app_nil_r in Hp. subst post1.
           change (pre ++ i :: post ++ [x]) with (pre ++ (i :: post) ++ [x]).
           rewrite app_assoc, system_run_app. exact Hfin.
         - rewrite app_assoc in Hp. apply app_inj_tail in Hp as [Hp _].
           now apply (Hstay post1 post2). }
    all: cbn [System.step System.sie] in Hfin;
      destruct (enters_send_token _ _ Hfin) as [Hw Ht];
      try (rewrite E; discriminate); try congruence.
    exists ins, x, []. split; [reflexivity |]. split; [exact E |].
    split; [exact Ht |].
    intros post1 post2 Hp. symmetry in Hp. apply app_eq_nil in Hp as [-> _].
    rewrite system_run_app. exact Hfin.
Qed.

(** C6 (as the code has it).  With the SOF controller wired in, the engine
    enters SEND_TOKEN only from WAIT_TXA and only in a cycle in which the
    SOF timer lies in the transmit window [tx_to_tx_min, tx_to_tx_max); that
    is also the only way it stops forwarding SOFs, and a token for a
    transfer is offered only in SEND_TOKEN, so every offered token goes back
    to such a cycle.  The state IDLE itself is left in whatever cycle
    [xfer.start] is strobed. *)
Theorem token_only_after_txa (i : input) (ins : list input) (s : System.state) :
  let sp := detected_speed i in
  let s' := System.step i s in
  let in_window :=
    Sof.tx_to_tx_min sp <= Sof.sof_timer (System.sof s) < Sof.tx_to_tx_max sp in
  (st (System.sie s') = SEND_TOKEN -> st (System.sie s) <> SEND_TOKEN ->
     st (System.sie s) = WAIT_TXA /\ in_window) /\
  (send_sofs (System.sie s) = true -> send_sofs (System.sie s') = false ->
     st (System.sie s') = SEND_TOKEN /\ in_window) /\
  (sie_token_valid (System.sie s') = true -> st (System.sie s') = SEND_TOKEN) /\
  (st (System.sie s) = IDLE ->
     st (System.sie s') = if xfer_start i then DRAIN_RX else IDLE) /\
  (send_sofs (System.sie s) = true ->
   sie_token_valid (System.sie (System.run ins s)) = true ->
     exists pre i0 post,
       ins = pre ++ i0 :: post /\
       st (System.sie (System.run pre s)) = WAIT_TXA /\
       Sof.tx_to_tx_min (detected_speed i0)
         <= Sof.sof_timer (System.sof (System.run pre s))
         < Sof.tx_to_tx_max (detected_speed i0) /\
       forall post1 post2,
         post = post1 ++ post2 ->
         st (System.sie (System.run (pre ++ i0 :: post1) s)) = SEND_TOKEN).
Proof.
  intros sp s' in_window. subst s' in_window. cbn [System.step System.sie].
  assert (W : forall i0, sof_txa (System.wire (System.sof s) i0) = true ->
                detected_speed i0 = sp ->
                Sof.tx_to_tx_min sp <= Sof.sof_timer (System.sof s)
                < Sof.tx_to_tx_max sp).
  { intros i0 Ht <-. cbn [System.wire sof_txa] in Ht. now apply txa_window. }
  split; [| split; [| split; [| split]]].
  - intros H Hne. destruct (enters_send_token _ _ H Hne) as [Hw Ht].
    split; [exact Hw | now apply (W i)].
  - intros H1 H2. destruct (leaves_sof_phase _ _ H1 H2) as (_ & Ht & Hs).
    split; [exact Hs | now apply (W i)].
  - unfold sie_token_valid.
    destruct (st (step (System.wire (System.sof s) i) (System.sie s)));
      intros H; try discriminate; reflexivity.
  - intros H. unfold step, next_st; cbn [st]. rewrite H. reflexivity.
  - intros Hsof Hv.
    assert (Hne : st (System.sie s) <> SEND_TOKEN).
    { unfold send_sofs in Hsof. destruct (st (System.sie s)); discriminate. }
    assert (Hfin : st (System.sie (System.run ins s)) = SEND_TOKEN).
    { unfold sie_token_valid in Hv.
      destruct (st (System.sie (System.run ins s))); try discriminate; reflexivity. }
    destruct (token_offer_origin ins s Hne Hfin)
      as (pre & i0 & post & Hins & Hw & Ht & Hstay).
    exists pre, i0, post. repeat split; try assumption; now apply txa_window.
Qed.

Lemma token_only_after_txa_witness :
  let s := {| System.sof := {| Sof.st := Sof.IDLE; Sof.sof_timer := 12000;
                               Sof.frame_number := 1;
                               Sof.microframe_number := 0 |};
              System.sie := run [start_in; quiet] idle0 |} in
  st (System.sie (System.step quiet s)) = SEND_TOKEN /\
  Sof.tx_to_tx_min FULL <= Sof.sof_timer (System.sof s) < Sof.tx_to_tx_max FULL.
Proof.
  intros s.
  destruct (token_only_after_txa quiet [] s) as (H & _).
  split; [reflexivity |].
  exact (proj2 (H eq_refl ltac:(discriminate))).
Defined.

(** C6, as stated, fails: the engine leaves IDLE in the cycle [xfer.start]
    is strobed, here right after a SOF with the transmit window still
    closed; and at the closing edge of the window the token is offered one
    cycle after the window has ended. *)
Lemma idle_left_outside_txa :
  let s := {| System.sof := Sof.init; System.sie := idle0 |} in
  let late := {| System.sof := {| Sof.st := Sof.IDLE; Sof.sof_timer := 41999;
                                  Sof.frame_number := 1;
                                  Sof.microframe_number := 0 |};
                 System.sie := run [start_in; quiet] idle0 |} in
  (Sof.txa FULL (System.sof s) = false /\
   st (System.sie s) = IDLE /\
   st (System.sie (System.step start_in s)) = DRAIN_RX) /\
  (let late' := System.step quiet late in
   sie_token_valid (System.sie late') = true /\
   Sof.txa FULL (System.sof late') = false).
Proof. vm_compute. repeat split. Qed.

End SystemFacts.

(** ** The enumerator: C3, C4 *)

Module EnumeratorFacts.

Import Sie Enumerator.

(** the wait states do nothing while the SIE is busy *)
Lemma wait_ack_busy a e r i s :
  status_idle i = false -> make_wait_ack_state a e r i s = s.
Proof. intros H. unfold make_wait_ack_state. now rewrite H. Qed.

Lemma goto_st f s : st (goto f s) = f.
Proof. reflexivity. Qed.

Lemma wait_ack_failure on_ack on_error retry i s :
  status_idle i = true -> is_failure (status_response i) = true ->
  0 <= enum_retry s <= 3 ->
  let s' := make_wait_ack_state on_ack on_error retry i s in
  match retry with
  | Some retry_from =>
      (enum_retry s < 3 ->
         st s' = retry_from /\ enum_retry s' = enum_retry s + 1) /\
      (enum_retry s = 3 -> st s' = on_error /\ enum_retry s' = 0)
  | None => s' = goto on_error s
  end.
Proof.
  intros Hidle Hf Hr. unfold make_wait_ack_state. rewrite Hidle.
  destruct (status_response i); try discriminate; destruct retry; cbn zeta;
    try reflexivity.
  all: split; intros H.
  all: try (destruct (Z.leb_spec 3 (enum_retry s)); [lia |]; cbn;
            split; [reflexivity | apply trunc_small; change (2 ^ 2) with 4; lia]).
  all: destruct (Z.leb_spec 3 (enum_retry s)); [| lia]; cbn; split; reflexivity.
Qed.

Lemma status_wait_cases a w n t i s :
  status_idle i = true ->
  (status_response i = TIMEOUT -> make_status_phase_wait a w n t i s = goto t s) /\
  (status_response i = NAK -> make_status_phase_wait a w n t i s = goto a s) /\
  (status_response i = ACK -> make_status_phase_wait a w n t i s = goto n s).
Proof.
  intros Hidle. unfold make_status_phase_wait. rewrite Hidle.
  repeat split; intros ->; reflexivity.
Qed.

Lemma run_app da a : forall b s, run da (a ++ b) s = run da b (run da a s).
Proof.
  induction a as [| i a IH]; intros b s; cbn [app run]; [reflexivity | apply IH].
Qed.

Lemma run_busy_in_wait_setup da g n :
  forall s, st s = wait_setup_state g -> run da (repeat busy_cycle n) s = s.
Proof.
  induction n as [| n IH]; intros s Hs; cbn [repeat run]; [reflexivity |].
  assert (E : step da busy_cycle s = s).
  { unfold step. rewrite Hs. destruct g; cbn [wait_setup_state];
      apply wait_ack_busy; reflexivity. }
  rewrite E. now apply IH.
Qed.

(** loading the eight bytes and starting the SETUP transfer *)
Lemma run_load_and_start da g s :
  st s = load_state g -> setup_byte_ix s = 0 ->
  run da (repeat (idle_cycle NONE 0) 8 ++ [idle_cycle NONE 0]) s
  = goto (wait_setup_state g) s.
Proof.
  destruct s as [f a r t x m l e]. cbn [st setup_byte_ix]. intros -> ->.
  destruct g; reflexivity.
Qed.

(** One failed SETUP attempt of a stage generated with a retry counter. *)
Lemma failed_attempt da g b r s :
  has_setup_retry g = true ->
  st s = load_state g -> setup_byte_ix s = 0 -> 0 <= enum_retry s <= 3 ->
  is_failure r = true ->
  run da (setup_attempt b r) s =
  if enum_retry s <? 3
  then goto (load_state g) (set_enum_retry (enum_retry s + 1) s)
  else goto INIT_RESET (set_enum_retry 0 s).
Proof.
  intros Hg Hs Hx Hr Hf. unfold setup_attempt.
  rewrite app_assoc, run_app, (run_load_and_start da g) by assumption.
  rewrite run_app, (run_busy_in_wait_setup da g) by reflexivity.
  cbn [run]. unfold step. rewrite goto_st.
  assert (W : forall e,
             make_wait_ack_state e INIT_RESET (Some (load_state g))
               (idle_cycle r 0) (goto (wait_setup_state g) s)
             = if enum_retry s <? 3
               then goto (load_state g) (set_enum_retry (enum_retry s + 1) s)
               else goto INIT_RESET (set_enum_retry 0 s)).
  { intros e. unfold make_wait_ack_state. cbn [idle_cycle status_idle status_response].
    destruct r; try discriminate; cbn [goto enum_retry].
    all: destruct (Z.leb_spec 3 (enum_retry s)), (Z.ltb_spec (enum_retry s) 3);
      try lia; try reflexivity.
    all: rewrite trunc_small by (change (2 ^ 2) with 4; lia); reflexivity. }
  destruct g; try discriminate; cbn [wait_setup_state load_state] in *; apply W.
Qed.

(** Four SETUP attempts that all fail: three retries, then the reset. *)
Lemma setup_retries_then_reset da g b r1 r2 r3 r4 s :
  has_setup_retry g = true ->
  st s = load_state g -> enum_retry s = 0 -> setup_byte_ix s = 0 ->
  is_failure r1 = true -> is_failure r2 = true ->
  is_failure r3 = true -> is_failure r4 = true ->
  let three := setup_attempt b r1 ++ setup_attempt b r2 ++ setup_attempt b r3 in
  st (run da three s) = load_state g /\
  enum_retry (run da three s) = 3 /\
  st (run da (three ++ setup_attempt b r4) s) = INIT_RESET /\
  enum_retry (run da (three ++ setup_attempt b r4) s) = 0.
Proof.
  intros Hg Hs Hr Hx F1 F2 F3 F4 three.
  assert (E3 : run da three s
               = goto (load_state g) (set_enum_retry 3 s)).
  { subst three. rewrite !run_app.
    rewrite (failed_attempt da g b r1 s) by (auto; lia).
    rewrite Hr. cbn [Z.ltb Z.compare Z.add Pos.compare Pos.compare_cont].
    rewrite (failed_attempt da g b r2) by (auto; cbn; lia).
    cbn [goto set_enum_retry enum_retry Z.ltb Z.compare Pos.compare
         Pos.compare_cont Z.add Pos.add Pos.succ].
    rewrite (failed_attempt da g b r3) by (auto; cbn; lia).
    reflexivity. }
  rewrite run_app, E3.
  rewrite (failed_attempt da g b r4) by (auto; cbn; lia).
  cbn. auto.
Qed.

Lemma reset_flag_ok_step da i s : reset_flag_ok s -> reset_flag_ok (step da i s).
Proof.
  unfold reset_flag_ok. intros Hs.
  destruct (st s) eqn:E.
  1: { unfold step; rewrite E. destruct (detected_speed i); cbn; congruence. }
  all: assert (Hf : reset_triggered s = false) by (apply Hs; congruence).
  all: unfold step; rewrite E;
    unfold make_load_setup_state, make_setup_xfer_state, make_wait_ack_state,
      in_load, make_in_data_wait, make_multi_packet_in_wait,
      make_status_phase_wait;
    destruct (status_response i);
    repeat match goal with
           | |- context [if ?b then _ else _] => destruct b
           end;
    cbn; intros _; exact Hf.
Qed.

Lemma reset_flag_ok_run da ins : forall s, reset_flag_ok s -> reset_flag_ok (run da ins s).
Proof.
  induction ins as [| i ins IH]; intros s Hs; cbn [run]; [exact Hs |].
  apply IH, reset_flag_ok_step, Hs.
Qed.

Lemma reset_flag_reachable da ins : reset_flag_ok (run da ins init).
Proof. apply reset_flag_ok_run. intros H. now elim H. Qed.

(** C3 (as the code has it).  In stages 1, 3 and 4 the SETUP wait retries on
    NAK or TIMEOUT: while [enum_retry] is below 3 it goes back to the LOAD
    state of its stage and counts, and at 3 it clears the counter and goes to
    INIT-RESET, which strobes the bus reset; so four failed attempts in a row
    mean three retries and then the reset.  In stages 2 and 5 the SETUP wait
    has no retry counter: the first NAK or TIMEOUT goes to INIT-RESET.  The
    status wait of every stage goes to INIT-RESET on TIMEOUT and back to its
    STATUS state on NAK.  From INIT-RESET the enumeration starts again with
    stage 1 once the speed is known and the SOF frame counter has its low six
    bits set. *)
Theorem setup_retry_and_status_timeout da g b r1 r2 r3 r4 i s :
  0 <= enum_retry s <= 3 ->
  reset_triggered s = false ->
  let s' := step da i s in
  (st s = wait_setup_state g -> status_idle i = true ->
   is_failure (status_response i) = true ->
     if has_setup_retry g then
       (enum_retry s < 3 ->
          st s' = load_state g /\ enum_retry s' = enum_retry s + 1) /\
       (enum_retry s = 3 ->
          st s' = INIT_RESET /\ enum_retry s' = 0 /\ bus_reset s' = true)
     else st s' = INIT_RESET /\ bus_reset s' = true) /\
  (has_setup_retry g = true -> st s = load_state g ->
   enum_retry s = 0 -> setup_byte_ix s = 0 ->
   is_failure r1 = true -> is_failure r2 = true ->
   is_failure r3 = true -> is_failure r4 = true ->
     let three := setup_attempt b r1 ++ setup_attempt b r2 ++ setup_attempt b r3 in
     st (run da three s) = load_state g /\
     enum_retry (run da three s) = 3 /\
     st (run da (three ++ setup_attempt b r4) s) = INIT_RESET) /\
  (st s = wait_status_state g -> status_idle i = true ->
     (status_response i = TIMEOUT -> st s' = INIT_RESET /\ bus_reset s' = true) /\
     (status_response i = NAK -> st s' = status_state g)) /\
  (st s = INIT_RESET -> detected_speed i <> UNKNOWN -> st s' = WAIT_SIE_READY) /\
  (st s = WAIT_SIE_READY -> status_idle i = true ->
   Z.land (status_sof_frame i) 63 = 63 -> st s' = load_state Stage1).
Proof.
  intros Hr Ht s'. subst s'. split; [| split; [| split; [| split]]].
  - intros Hs Hidle Hf. unfold step. rewrite Hs.
    destruct g; cbn [wait_setup_state has_setup_retry load_state].
    all: match goal with
         | |- context [make_wait_ack_state ?a ?e ?r ?i0 ?s0] =>
             pose proof (wait_ack_failure a e r i0 s0 Hidle Hf Hr) as W;
             cbn zeta in W
         end.
    all: try (rewrite W; cbn [goto st]; unfold bus_reset; cbn [goto st reset_triggered];
              rewrite Ht; split; reflexivity).
    all: destruct W as [W1 W2]; split; [exact W1 |]; intros H3;
      destruct (W2 H3) as [Wa Wb]; split; [exact Wa |]; split; [exact Wb |].
    all: unfold make_wait_ack_state in *; rewrite Hidle in *;
      unfold bus_reset;
      destruct (status_response i); try discriminate;
      destruct (Z.leb_spec 3 (enum_retry s)); try lia;
      cbn; now rewrite Ht.
  - intros Hg Hs H0 Hx F1 F2 F3 F4 three.
    destruct (setup_retries_then_reset da g b r1 r2 r3 r4 s Hg Hs H0 Hx F1 F2 F3 F4)
      as (A & B & C & _).
    auto.
  - intros Hs Hidle. unfold step. rewrite Hs.
    destruct g; cbn [wait_status_state status_state].
    all: match goal with
         | |- context [make_status_phase_wait ?a ?w ?n ?t ?i0 ?s0] =>
             destruct (status_wait_cases a w n t i0 s0 Hidle) as (T & N & _)
         end.
    all: split; [intros E; rewrite (T E); unfold bus_reset; cbn; now rewrite Ht
                | intros E; rewrite (N E); reflexivity].
  - intros Hs Hsp. unfold step. rewrite Hs.
    destruct (detected_speed i); try reflexivity. now elim Hsp.
  - intros Hs Hidle Hf. unfold step. rewrite Hs, Hidle.
    unfold _SOF_DELAY_RDY. rewrite Hf. reflexivity.
Qed.

Lemma setup_retry_and_status_timeout_witness :
  let s := at_state ENUM_GET_DESC_DEVICE_FULL_WAIT_SETUP 0x12 64 in
  st (step 0x12 (idle_cycle TIMEOUT 0) s) = ENUM_GET_DESC_DEVICE_FULL_LOAD /\
  enum_retry (step 0x12 (idle_cycle TIMEOUT 0) s) = 1.
Proof.
  intros s.
  destruct (setup_retry_and_status_timeout 0x12 Stage3 0%nat NAK NAK NAK NAK
              (idle_cycle TIMEOUT 0) s
              ltac:(cbn; lia) eq_refl) as (H & _).
  exact (proj1 (H eq_refl eq_refl eq_refl) ltac:(cbn; lia)).
Defined.

(** C3, as stated, fails for stages 2 and 5: their SETUP wait is generated
    without a retry counter, so a single NAK (or TIMEOUT) on the SETUP
    transaction of SET_ADDRESS or SET_CONFIGURATION goes straight to
    INIT-RESET; exactly one SETUP transfer is issued. *)
Lemma set_address_setup_not_retried :
  let s2 := at_state ENUM_SET_ADDRESS_LOAD 0 8 in
  let s5 := at_state ENUM_SET_CONFIG_LOAD 0x12 8 in
  enum_retry s2 = 0 /\
  st (run 0x12 (setup_attempt 3 NAK) s2) = INIT_RESET /\
  length (issued 0x12 (setup_attempt 3 NAK) s2) = 1%nat /\
  st (run 0x12 (setup_attempt 3 TIMEOUT) s5) = INIT_RESET /\
  st (run 0x12 (setup_attempt 3 NAK) s2) <> load_state Stage2.
Proof. vm_compute. repeat split; discriminate. Qed.

(** *** C4: the multi-packet IN data phase *)

(** C4 (as the code has it).  In the IN data phases of stages 3 and 4 the
    enumerator, whenever the SIE is idle, requests an IN transfer on endpoint
    0 of the assigned address, always with data PID DATA1, and waits.  When
    the SIE is idle again: on ACK with [rx_len] equal to [max_packet_size] it
    requests the next packet, on NAK it requests the same transfer again, and
    on ACK with any other [rx_len] as well as on every other response it
    leaves the data phase for the status phase.  No register changes. *)
Theorem multi_packet_in_phase da g i s :
  let s' := step da i s in
  (st s = multi_in_state g -> status_idle i = true ->
     xfer_out i s =
       Some {| type := IN; dev_addr := current_dev_addr s; ep_addr := 0;
               data_pid := DATA1 |}
     /\ s' = goto (multi_wait_state g) s) /\
  (st s = multi_wait_state g -> status_idle i = true ->
     xfer_out i s = None /\
     s' = goto (match status_response i with
                | ACK => if status_rx_len i =? max_packet_size s
                         then multi_in_state g else multi_next_state g
                | NAK => multi_in_state g
                | _ => multi_next_state g
                end) s) /\
  ((st s = multi_in_state g \/ st s = multi_wait_state g) ->
   status_idle i = false -> xfer_out i s = None /\ s' = s).
Proof.
  intros s'. subst s'. split; [| split].
  - intros Hs Hidle. unfold xfer_out, step. rewrite Hs, Hidle.
    destruct g; cbn [multi_in_state multi_wait_state]; unfold in_load, xfer_of;
      rewrite Hidle; split; reflexivity.
  - intros Hs Hidle. unfold xfer_out, step. rewrite Hs, Hidle.
    destruct g; cbn [multi_in_state multi_wait_state multi_next_state];
      unfold make_multi_packet_in_wait; rewrite Hidle;
      (split; [reflexivity |]);
      destruct (status_response i); try reflexivity;
      destruct (status_rx_len i =? max_packet_size s); reflexivity.
  - intros Hs Hbusy. unfold xfer_out, step. rewrite Hbusy.
    split; [reflexivity |].
    destruct Hs as [Hs | Hs]; rewrite Hs; destruct g;
      cbn [multi_in_state multi_wait_state];
      unfold in_load, make_multi_packet_in_wait; rewrite Hbusy; reflexivity.
Qed.

Lemma multi_packet_in_phase_witness :
  let s := at_state ENUM_GET_DESC_CONFIG_WAIT_IN 0x12 8 in
  st (step 0x12 (idle_cycle ACK 8) s) = ENUM_GET_DESC_CONFIG_IN /\
  st (step 0x12 (idle_cycle ACK 2) s) = ENUM_GET_DESC_CONFIG_STATUS.
Proof.
  intros s.
  destruct (multi_packet_in_phase 0x12 MultiStage4 (idle_cycle ACK 8) s)
    as (_ & H8 & _).
  destruct (multi_packet_in_phase 0x12 MultiStage4 (idle_cycle ACK 2) s)
    as (_ & H2 & _).
  split.
  - exact (f_equal st (proj2 (H8 eq_refl eq_refl))).
  - exact (f_equal st (proj2 (H2 eq_refl eq_refl))).
Defined.

(** C4, as stated, fails: the data PID of the requested IN transfers is not
    advanced on ACK (two full packets, both requested with DATA1), and the
    data phase is also left on a response that is no ACK at all (STALL) and
    on an ACKed packet longer than [max_packet_size]. *)
Lemma in_data_pid_not_toggled :
  let s := at_state ENUM_GET_DESC_DEVICE_FULL_IN 0x12 8 in
  let two_packets := [idle_cycle NONE 0; busy_cycle; idle_cycle ACK 8;
                      idle_cycle ACK 8] in
  map data_pid (issued 0x12 two_packets s) = [DATA1; DATA1] /\
  st (run 0x12 [idle_cycle NONE 0; busy_cycle; idle_cycle STALL 0] s)
    = ENUM_GET_DESC_DEVICE_FULL_STATUS /\
  st (run 0x12 [idle_cycle NONE 0; busy_cycle; idle_cycle ACK 9] s)
    = ENUM_GET_DESC_DEVICE_FULL_STATUS.
Proof. vm_compute. repeat split. Qed.

End EnumeratorFacts.

(** ** The descriptor parser: C8 *)

Module ParserFacts.

Import Parser.

Section Configured.

Variable c : config.

Lemma feed_app a : forall b s, feed c (a ++ b) s = feed c b (feed c a s).
Proof.
  unfold feed. induction a as [| x a IH]; intros b s; cbn [app map run];
    [reflexivity | apply IH].
Qed.



Lemma done_fixed i s : st s = DONE -> step c i s = s.
Proof. intros H. unfold step. now rewrite H. Qed.

Lemma done_fixed_run ins : forall s, st s = DONE -> run c ins s = s.
Proof.
  induction ins as [| i ins IH]; intros s H; cbn [run]; [reflexivity |].
  rewrite done_fixed by exact H. now apply IH.
Qed.






End Configured.



End ParserFacts.

(** ** The keyboard engine: C9 *)

Module KeyboardFacts.

Import Sie Keyboard.


End KeyboardFacts.

(** ** The command block wrapper: C10 *)

Module MscFacts.

Import Msc.

Lemma trunc_Cat_first w v rest :
  0 <= w -> trunc w (Cat ((w, v) :: rest)) = trunc w v.
Proof.
  intros Hw. apply Z.bits_inj'. intros j Hj.
  rewrite !trunc_testbit, Cat_cons_testbit by lia.
  destruct (Z.ltb_spec j w); reflexivity.
Qed.

(** dropping leading fields of total width [n] *)
Lemma Cat_shiftr2 w1 v1 w2 v2 rest :
  0 <= w1 -> 0 <= w2 ->
  Z.shiftr (Cat ((w1, v1) :: (w2, v2) :: rest)) (w1 + w2) = Cat rest.
Proof.
  intros H1 H2. rewrite <- Z.shiftr_shiftr by lia. now rewrite !Cat_shiftr.
Qed.

Lemma cbw_after_64 c tag :
  Z.shiftr (cbw_flat c tag) 64 =
  Cat [ (32, data_len c); (8, bmCBWFlags c); (4, 0); (4, 0);
        (5, cdb_len c); (3, 0); (128, cdb c) ].
Proof. unfold cbw_flat. now rewrite (Cat_shiftr2 32 _ 32 _) by lia. Qed.

Lemma cbw_after_96 c tag :
  Z.shiftr (cbw_flat c tag) 96 =
  Cat [ (8, bmCBWFlags c); (4, 0); (4, 0); (5, cdb_len c); (3, 0); (128, cdb c) ].
Proof.
  change 96 with (64 + 32). rewrite <- Z.shiftr_shiftr, cbw_after_64 by lia.
  now rewrite Cat_shiftr by lia.
Qed.

Lemma cbw_after_112 c tag :
  Z.shiftr (cbw_flat c tag) 112 =
  Cat [ (5, cdb_len c); (3, 0); (128, cdb c) ].
Proof.
  change 112 with (96 + (8 + (4 + 4))).
  rewrite <- Z.shiftr_shiftr, cbw_after_96 by lia.
  rewrite <- Z.shiftr_shiftr, Cat_shiftr by lia.
  now rewrite (Cat_shiftr2 4 _ 4 _) by lia.
Qed.

Lemma cdb_len_cases c : cdb_len c = 6 \/ cdb_len c = 10.
Proof. unfold cdb_len. destruct (_ || _); auto. Qed.

Lemma flags_field c tag : CBW_bmCBWFlags (cbw_flat c tag) = bmCBWFlags c.
Proof.
  unfold CBW_bmCBWFlags. rewrite cbw_after_96, trunc_Cat_first by lia.
  unfold bmCBWFlags. destruct (0 <? _); reflexivity.
Qed.

Lemma length_field c tag : CBW_bCBWCBLength (cbw_flat c tag) = cdb_len c.
Proof.
  unfold CBW_bCBWCBLength. rewrite cbw_after_112, trunc_Cat_first by lia.
  destruct (cdb_len_cases c) as [-> | ->]; reflexivity.
Qed.

Lemma data_length_field c tag :
  CBW_dCBWDataTransferLength (cbw_flat c tag) = trunc 32 (data_len c).
Proof.
  unfold CBW_dCBWDataTransferLength. now rewrite cbw_after_64, trunc_Cat_first by lia.
Qed.

(** byte 12 of the wrapper is the flags byte, byte 14 the CDB length *)
Lemma flags_byte c tag : cbw_byte_out c tag 12 = bmCBWFlags c.
Proof.
  unfold cbw_byte_out. change (12 * 8) with 96. rewrite cbw_after_96.
  match goal with
  | |- Z.land (Cat ((?w, ?v) :: ?rest)) 255 = _ =>
      pose proof (Cat_low_byte w v rest 0 ltac:(lia) ltac:(lia)) as H
  end.
  rewrite Z.mul_0_l, !Z.shiftr_0_r in H. rewrite H.
  unfold bmCBWFlags. destruct (0 <? _); reflexivity.
Qed.

Lemma trunc_Cat_two w1 v1 w2 v2 rest :
  0 <= w1 -> 0 <= w2 ->
  trunc (w1 + w2) (Cat ((w1, v1) :: (w2, v2) :: rest))
  = Cat [(w1, v1); (w2, v2)].
Proof.
  intros H1 H2. apply Z.bits_inj'. intros j Hj.
  rewrite trunc_testbit by lia.
  rewrite (Cat_cons_testbit w1 v1 ((w2, v2) :: rest)) by lia.
  rewrite (Cat_cons_testbit w1 v1 [(w2, v2)]) by lia.
  destruct (Z.ltb_spec j w1).
  - destruct (Z.ltb_spec j (w1 + w2)); [reflexivity | lia].
  - rewrite !Cat_cons_testbit by lia. cbn [Cat]. rewrite Z.testbit_0_l.
    destruct (Z.ltb_spec (j - w1) w2), (Z.ltb_spec j (w1 + w2));
      try lia; reflexivity.
Qed.

Lemma length_byte c tag : cbw_byte_out c tag 14 = cdb_len c.
Proof.
  unfold cbw_byte_out. change (14 * 8) with 112. rewrite cbw_after_112.
  change 255 with (Z.ones 8). rewrite Z.land_ones by lia.
  change (?x mod 2 ^ 8) with (trunc (5 + 3) x).
  rewrite trunc_Cat_two by lia.
  destruct (cdb_len_cases c) as [-> | ->]; reflexivity.
Qed.

Lemma signature_bytes c tag :
  firstn 4 (cbw_bytes c tag) = [0x55; 0x53; 0x42; 0x43].
Proof.
  unfold cbw_bytes. cbn [seq map firstn]. unfold cbw_byte_out, cbw_flat.
  cbn [Z.of_nat Pos.of_succ_nat Pos.succ].
  rewrite !Cat_low_byte by lia. reflexivity.
Qed.

(** One cycle accepts the command [c0]; the next 31 push the wrapper built
    from the command word [c] present on [cmd] meanwhile. *)
Lemma cbw_loaded c0 c s :
  st s = IDLE -> start c0 = true ->
  loaded (hold c0 :: repeat (hold c) 31) s = cbw_bytes c (cbw_tag s) /\
  st (run (hold c0 :: repeat (hold c) 31) s) = CBW_XFER.
Proof.
  destruct s as [f tag idx ri rc dl csw cap pi po sm], c0 as [cs cl cstream ccdb].
  cbn [st start cbw_tag]. intros -> ->.
  split; lazy -[cbw_byte_out]; reflexivity.
Qed.

(** C10.  For every command the wrapper built by the transport carries the
    signature 0x43425355 (bytes 55 53 42 43 first), a flags byte that is
    DATA_IN (0x80) when [cmd.data_len] is positive and DATA_OUT (0x00)
    otherwise, so that DATA_OUT only ever goes with a transfer length of
    zero, and a CDB length of 6 for TEST UNIT READY and REQUEST SENSE and of
    10 for every other opcode; these are bytes 12 and 14 of the 31 bytes
    that CBW-LOAD pushes into the Tx FIFO after a command [c0] was started,
    built from the command word [c] held on [cmd] during the load. *)
Theorem cbw_construction c0 c s :
  let v := cbw_flat c (cbw_tag s) in
  let bytes := cbw_bytes c (cbw_tag s) in
  length bytes = 31%nat /\
  CBW_dCBWSignature v = 0x43425355 /\
  firstn 4 bytes = [0x55; 0x53; 0x42; 0x43] /\
  CBW_bmCBWFlags v =
    (if 0 <? trunc 32 (data_len c) then CBWFlags_DATA_IN else CBWFlags_DATA_OUT) /\
  nth 12 bytes 0 = CBW_bmCBWFlags v /\
  (CBW_bmCBWFlags v = CBWFlags_DATA_OUT -> CBW_dCBWDataTransferLength v = 0) /\
  CBW_bCBWCBLength v =
    (if (cdb_opcode c =? SCSIOpCode_TEST_UNIT_READY)
        || (cdb_opcode c =? SCSIOpCode_REQUEST_SENSE) then 6 else 10) /\
  nth 14 bytes 0 = CBW_bCBWCBLength v /\
  (st s = IDLE -> start c0 = true ->
     loaded (hold c0 :: repeat (hold c) 31) s = bytes /\
     st (run (hold c0 :: repeat (hold c) 31) s) = CBW_XFER).
Proof.
  intros v bytes. subst v bytes.
  split; [reflexivity |].
  split; [unfold CBW_dCBWSignature, cbw_flat; now rewrite trunc_Cat_first by lia |].
  split; [apply signature_bytes |].
  split; [apply flags_field |].
  split; [rewrite flags_field; apply flags_byte |].
  split.
  { rewrite flags_field, data_length_field. unfold bmCBWFlags.
    pose proof (trunc_range 32 (data_len c) ltac:(lia)) as R.
    destruct (Z.ltb_spec 0 (trunc 32 (data_len c))); [discriminate | lia]. }
  split; [apply length_field |].
  split; [rewrite length_field; apply length_byte |].
  apply cbw_loaded.
Qed.

Lemma cbw_construction_witness :
  loaded (hold read_capacity_10 :: repeat (hold read_capacity_10) 31) (idle_tag 1)
  = [0x55; 0x53; 0x42; 0x43; 1; 0; 0; 0; 8; 0; 0; 0; 0x80; 0; 10;
     0x25; 0; 0; 0; 0; 0; 0; 0; 0; 0; 0; 0; 0; 0; 0; 0].
Proof.
  destruct (cbw_construction read_capacity_10 read_capacity_10 (idle_tag 1))
    as (_ & _ & _ & _ & _ & _ & _ & _ & H).
  rewrite (proj1 (H eq_refl eq_refl)). reflexivity.
Defined.

End MscFacts.

(** ** The reset controller *)

Module ResetFacts.

Import Reset.

Lemma reset_run_app fso a : forall b s, run fso (a ++ b) s = run fso b (run fso a s).
Proof.
  induction a as [| i a IH]; intros b s; cbn [app run]; [reflexivity | apply IH].
Qed.

Lemma holds_J_app a b : holds_J (a ++ b) = holds_J a && holds_J b.
Proof. unfold holds_J. apply forallb_app. Qed.

Lemma timeline_step fso i k :
  is_J (line_state i) = true -> 0 <= k <= _MAX_RESET_TIME + 1 ->
  step fso i (full_speed_timeline k) = full_speed_timeline (k + 1).
Proof.
  intros HJ Hk. unfold full_speed_timeline, _SETTLE_TIME, _MAX_RESET_TIME in *.
  destruct (Z.eqb_spec k 0) as [-> | Hk0].
  - cbn. unfold step, init; cbn. rewrite HJ. reflexivity.
  - destruct (Z.eqb_spec (k + 1) 0); [lia |].
    unfold step, next_counter, in_idle_state.
    destruct (Z.leb_spec k (6000 + 1)).
    + cbn [st reset_counter chirp_timer]. rewrite HJ.
      unfold _SETTLE_TIME.
      rewrite (trunc_small 22) by (change (2 ^ 22) with 4194304; lia).
      destruct (Z.leb_spec 6000 (k - 1)), (Z.leb_spec (k + 1) (6000 + 1));
        try lia; [destruct (Z.leb_spec (k + 1) (3000000 + 1)); try lia |];
        f_equal; lia.
    + destruct (Z.leb_spec k (3000000 + 1)); [| lia].
      cbn [st reset_counter chirp_timer].
      unfold _MAX_RESET_TIME, _MIN_RESET_BEFORE_CHIRP.
      rewrite (trunc_small 22) by (change (2 ^ 22) with 4194304; lia).
      destruct (Z.leb_spec (k + 1) (6000 + 1)); [lia |].
      destruct (Z.leb_spec 3000000 (k - 1)), (Z.leb_spec (k + 1) (3000000 + 1));
        try lia.
      * f_equal. lia.
      * destruct (Z.leb_spec 3000 (k - 1)); [| lia].
        destruct (line_state i); try discriminate.
        destruct fso; cbn; f_equal; lia.
Qed.

Lemma timeline_run fso ins :
  holds_J ins = true ->
  Z.of_nat (length ins) <= _MAX_RESET_TIME + 2 ->
  run fso ins init = full_speed_timeline (Z.of_nat (length ins)).
Proof.
  induction ins as [| i ins IH] using rev_ind; intros HJ Hlen.
  - reflexivity.
  - rewrite holds_J_app in HJ. apply andb_true_iff in HJ as [HJ Hi].
    cbn in Hi. rewrite andb_true_r in Hi.
    rewrite length_app in *. cbn [length] in *.
    rewrite reset_run_app, IH by (auto; lia). cbn [run].
    rewrite timeline_step by (auto; lia).
    f_equal. lia.
Qed.

Lemma holds_J_firstn k ins : holds_J ins = true -> holds_J (firstn k ins) = true.
Proof.
  revert k. induction ins as [| i ins IH]; intros k H; destruct k; cbn in *;
    try reflexivity.
  apply andb_true_iff in H as [H1 H2]. rewrite H1. cbn. now apply IH.
Qed.

Lemma holds_J_repeat i n : is_J (line_state i) = true -> holds_J (repeat i n) = true.
Proof. intros H. induction n as [| n IH]; cbn; [reflexivity | now rewrite H]. Qed.

(** X1.  With a device that holds the line at J and never chirps, the
    controller leaves reset exactly _MAX_RESET_TIME + 2 cycles after
    power-up and reports FULL speed; in every earlier cycle the reset is
    active and the speed UNKNOWN.  The bus_reset input plays no part. *)
Theorem full_speed_detected_after_reset fso ins :
  holds_J ins = true ->
  Z.of_nat (length ins) = _MAX_RESET_TIME + 2 ->
  reset_active (run fso ins init) = false /\
  detected_speed (run fso ins init) = FULL /\
  forall k, (k < length ins)%nat ->
    reset_active (run fso (firstn k ins) init) = true /\
    detected_speed (run fso (firstn k ins) init) = UNKNOWN.
Proof.
  intros HJ Hlen. rewrite timeline_run by (auto; lia). rewrite Hlen.
  split; [reflexivity |]. split; [reflexivity |].
  intros k Hk.
  rewrite timeline_run
    by (rewrite ?length_firstn; auto using holds_J_firstn; lia).
  rewrite length_firstn, Nat.min_l by lia.
  unfold full_speed_timeline, reset_active, detected_speed.
  unfold _MAX_RESET_TIME, _SETTLE_TIME in *.
  destruct (Z.eqb_spec (Z.of_nat k) 0); [split; reflexivity |].
  destruct (Z.leb_spec (Z.of_nat k) (6000 + 1)); [split; reflexivity |].
  destruct (Z.leb_spec (Z.of_nat k) (3000000 + 1)); [split; reflexivity | lia].
Qed.

Lemma full_speed_detected_after_reset_witness :
  let j := {| bus_reset := false; line_state := J |} in
  detected_speed (run true (repeat j (Z.to_nat (_MAX_RESET_TIME + 2))) init) = FULL.
Proof.
  intros j.
  refine (proj1 (proj2 (full_speed_detected_after_reset true
                          (repeat j (Z.to_nat (_MAX_RESET_TIME + 2))) _ _))).
  - apply holds_J_repeat. reflexivity.
  - rewrite repeat_length. apply Z2Nat.id. unfold _MAX_RESET_TIME. lia.
Defined.

(** *** The chirp filter *)

Lemma chirp_filter_counts ks :
  forall s,
    st s = BUS_RESET -> holds_K ks = true ->
    _MIN_RESET_BEFORE_CHIRP <= reset_counter s ->
    reset_counter s + Z.of_nat (length ks) <= _MAX_RESET_TIME ->
    0 <= chirp_timer s ->
    chirp_timer s + Z.of_nat (length ks) <= _CHIRP_FILTER_CYCLES ->
    run false ks s =
    {| st := BUS_RESET;
       reset_counter := reset_counter s + Z.of_nat (length ks);
       chirp_timer := chirp_timer s + Z.of_nat (length ks) |}.
Proof.
  unfold _MIN_RESET_BEFORE_CHIRP, _MAX_RESET_TIME, _CHIRP_FILTER_CYCLES.
  induction ks as [| i ks IH]; intros s Hs HK Hc Hm Ht0 Ht.
  - cbn. rewrite !Z.add_0_r. destruct s; cbn in *; now subst.
  - cbn [length] in *. rewrite Nat2Z.inj_succ in *.
    cbn in HK. apply andb_true_iff in HK as [Hi HK].
    cbn [run].
    assert (E : step false i s =
                {| st := BUS_RESET; reset_counter := reset_counter s + 1;
                   chirp_timer := chirp_timer s + 1 |}).
    { unfold step, next_counter, in_idle_state. rewrite Hs, Hi.
      unfold _MAX_RESET_TIME, _MIN_RESET_BEFORE_CHIRP, _CHIRP_FILTER_CYCLES.
      destruct (Z.leb_spec 3000000 (reset_counter s)); [lia |].
      destruct (Z.leb_spec 3000 (reset_counter s)); [| lia].
      destruct (Z.leb_spec 30000 (chirp_timer s)); [lia |]. cbn.
      rewrite (trunc_small 22) by (change (2 ^ 22) with 4194304; lia).
      rewrite (trunc_small 16) by (change (2 ^ 16) with 65536; lia).
      reflexivity. }
    rewrite E, IH; cbn [st reset_counter chirp_timer]; auto; try lia.
    f_equal; lia.
Qed.

(** X2.  The device chirp must be seen for 30001 consecutive cycles: while
    the bus reset is past its first 3000 cycles and before its end, K held
    for up to 30000 cycles keeps the controller in BUS-RESET with the filter
    counting, any cycle without K clears the filter, and the 30001st cycle of
    K starts the high-speed handshake. *)
Theorem device_chirp_filter ks i s :
  st s = BUS_RESET -> chirp_timer s = 0 -> holds_K ks = true ->
  _MIN_RESET_BEFORE_CHIRP <= reset_counter s ->
  reset_counter s + Z.of_nat (length ks) < _MAX_RESET_TIME ->
  Z.of_nat (length ks) <= _CHIRP_FILTER_CYCLES ->
  let s' := run false ks s in
  st s' = BUS_RESET /\ chirp_timer s' = Z.of_nat (length ks) /\
  (is_K (line_state i) = false ->
     st (step false i s') = BUS_RESET /\ chirp_timer (step false i s') = 0) /\
  (is_K (line_state i) = true ->
     st (step false i s') =
       if Z.of_nat (length ks) =? _CHIRP_FILTER_CYCLES
       then WAIT_DEVICE_CHIRP_END else BUS_RESET).
Proof.
  intros Hs Ht HK Hc Hm Hn s'. subst s'.
  rewrite chirp_filter_counts by (auto; lia). rewrite Ht, Z.add_0_l.
  cbn [st chirp_timer]. split; [reflexivity |]. split; [reflexivity |].
  unfold step, next_counter, in_idle_state; cbn [st reset_counter chirp_timer].
  unfold _MAX_RESET_TIME, _MIN_RESET_BEFORE_CHIRP, _CHIRP_FILTER_CYCLES in *.
  destruct (Z.leb_spec 3000000 (reset_counter s + Z.of_nat (length ks))); [lia |].
  destruct (Z.leb_spec 3000 (reset_counter s + Z.of_nat (length ks))); [| lia].
  cbn [negb andb]. split; intros Hi; rewrite Hi.
  - split; reflexivity.
  - destruct (Z.leb_spec 30000 (Z.of_nat (length ks))),
      (Z.eqb_spec (Z.of_nat (length ks)) 30000); try lia; reflexivity.
Qed.

Lemma device_chirp_filter_witness :
  let k := {| bus_reset := false; line_state := K |} in
  let s := {| st := BUS_RESET; reset_counter := 3000; chirp_timer := 0 |} in
  st (step false k (run false (repeat k 5) s)) = BUS_RESET /\
  chirp_timer (run false (repeat k 5) s) = 5.
Proof.
  intros k s.
  destruct (device_chirp_filter (repeat k 5) k s eq_refl eq_refl eq_refl
              ltac:(cbn; unfold _MIN_RESET_BEFORE_CHIRP; lia)
              ltac:(cbn; unfold _MAX_RESET_TIME; lia)
              ltac:(cbn; unfold _CHIRP_FILTER_CYCLES; lia))
    as (_ & Ht & _ & Hk).
  split; [exact (Hk eq_refl) | exact Ht].
Defined.

(** X3.  The bus_reset strobe is honoured only while the controller is idle
    (IDLE-FS, or IDLE-HS when built with high speed): there it puts the
    controller back into its power-up state, so that reset is active and the
    speed unknown from the next cycle on.  In every other state the next
    state does not depend on bus_reset: a strobe during a reset is lost. *)
Theorem bus_reset_only_when_idle fso i i' s :
  line_state i = line_state i' ->
  (reset_active s = true -> step fso i s = step fso i' s) /\
  (reset_active s = false -> (st s = IDLE_HS -> fso = false) ->
   bus_reset i = true ->
     step fso i s = init /\ reset_active (step fso i s) = true /\
     detected_speed (step fso i s) = UNKNOWN).
Proof.
  intros Hl. split.
  - intros Ha. unfold step. rewrite Hl.
    unfold reset_active in Ha. destruct (st s); try discriminate; reflexivity.
  - intros Ha Hhs Hb. unfold step, next_counter, in_idle_state.
    unfold reset_active in Ha. destruct (st s) eqn:E; try discriminate.
    + rewrite Hb. repeat split.
    + rewrite (Hhs eq_refl), Hb. repeat split.
Qed.

Lemma bus_reset_only_when_idle_witness :
  let strobe := {| bus_reset := true; line_state := J |} in
  let quiet := {| bus_reset := false; line_state := J |} in
  let busy := {| st := BUS_RESET; reset_counter := 7000; chirp_timer := 0 |} in
  let idle := {| st := IDLE_FS; reset_counter := 0; chirp_timer := 0 |} in
  step true strobe busy = step true quiet busy /\ step true strobe idle = init.
Proof.
  intros strobe quiet busy idle.
  split.
  - exact (proj1 (bus_reset_only_when_idle true strobe quiet busy eq_refl) eq_refl).
  - exact (proj1 (proj2 (bus_reset_only_when_idle true strobe quiet idle eq_refl)
                    eq_refl ltac:(discriminate) eq_refl)).
Defined.

(** *** Built full-speed only *)

Lemma fs_only_step i s :
  fs_state s = true -> chirp_timer s = 0 ->
  fs_state (step true i s) = true /\ chirp_timer (step true i s) = 0.
Proof.
  unfold fs_state, step. intros Hf Ht.
  destruct (st s); try discriminate; cbn [negb andb];
    repeat match goal with
           | |- context [if ?b then _ else _] => destruct b
           end; cbn; auto.
Qed.

(** X4.  A controller built with fullspeed_only never enters a high-speed
    state, whatever the line does: it never reports HIGH speed, never drives
    a chirp, and its chirp timer stays at zero. *)
Theorem fullspeed_only_never_high ins :
  let s := run true ins init in
  fs_state s = true /\ detected_speed s <> HIGH /\ tx_out s = None /\
  chirp_timer s = 0.
Proof.
  assert (H : forall s0, fs_state s0 = true -> chirp_timer s0 = 0 ->
            fs_state (run true ins s0) = true /\ chirp_timer (run true ins s0) = 0).
  { induction ins as [| i ins IH]; intros s0 Hf Ht; cbn [run]; [auto |].
    destruct (fs_only_step i s0 Hf Ht) as [Hf' Ht']. now apply IH. }
  intros s. destruct (H init eq_refl eq_refl) as [Hf Ht]. fold s in Hf, Ht.
  split; [exact Hf |]. unfold fs_state, detected_speed, tx_out in *.
  destruct (st s); try discriminate; repeat split; try discriminate; exact Ht.
Qed.

(** *** The host chirps *)

Lemma host_chirp_counts ins :
  forall s,
    chirping (st s) -> 0 <= reset_counter s -> 0 <= chirp_timer s ->
    reset_counter s + Z.of_nat (length ins) < 2 ^ 22 ->
    chirp_timer s + Z.of_nat (length ins) <= _CHIRP_DURATION ->
    run false ins s =
    {| st := st s;
       reset_counter := reset_counter s + Z.of_nat (length ins);
       chirp_timer := chirp_timer s + Z.of_nat (length ins) |}.
Proof.
  unfold _CHIRP_DURATION.
  induction ins as [| i ins IH]; intros s Hs Hc0 Ht0 Hc Ht.
  - cbn. rewrite !Z.add_0_r. destruct s; reflexivity.
  - cbn [length] in *. rewrite Nat2Z.inj_succ in *. cbn [run].
    assert (E : step false i s =
                {| st := st s; reset_counter := reset_counter s + 1;
                   chirp_timer := chirp_timer s + 1 |}).
    { unfold step, next_counter, in_idle_state, _CHIRP_DURATION.
      destruct Hs as [Hs | Hs]; rewrite Hs;
        (destruct (Z.leb_spec 3000 (chirp_timer s)); [lia |]);
        rewrite (trunc_small 22) by lia;
        rewrite (trunc_small 16) by (change (2 ^ 16) with 65536; lia);
        reflexivity. }
    rewrite E, IH; cbn [st reset_counter chirp_timer]; auto; try lia.
    f_equal; lia.
Qed.

(** X5.  Each host chirp lasts _CHIRP_DURATION + 1 cycles, during which the
    chirp byte (0x00 for K, 0xFF for J) is driven; a K chirp is followed by a
    J chirp, and a J chirp by IDLE-HS if the reset counter has reached
    _MAX_RESET_TIME at its last cycle and by the next K chirp otherwise. *)
Theorem host_chirps_alternate ins s :
  chirping (st s) -> chirp_timer s = 0 -> 0 <= reset_counter s ->
  Z.of_nat (length ins) = _CHIRP_DURATION + 1 ->
  reset_counter s + _CHIRP_DURATION + 1 < 2 ^ 22 ->
  (forall k, (k < length ins)%nat ->
     tx_out (run false (firstn k ins) s) = tx_out s /\
     op_mode (run false (firstn k ins) s) = CHIRP) /\
  chirp_timer (run false ins s) = 0 /\
  st (run false ins s) =
    match st s with
    | SEND_HOST_CHIRP_K => SEND_HOST_CHIRP_J
    | _ => if _MAX_RESET_TIME <=? reset_counter s + _CHIRP_DURATION
           then IDLE_HS else SEND_HOST_CHIRP_K
    end.
Proof.
  unfold _CHIRP_DURATION. intros Hs Ht Hc Hlen Hb.
  split.
  - intros k Hk.
    rewrite host_chirp_counts;
      rewrite ?length_firstn, ?Nat.min_l; unfold _CHIRP_DURATION; auto; try lia.
    unfold tx_out, op_mode; cbn [st].
    destruct Hs as [-> | ->]; split; reflexivity.
  - destruct ins as [| i ins _] using rev_ind; [cbn in Hlen; lia |].
    rewrite length_app in Hlen. cbn [length] in Hlen.
    rewrite reset_run_app. cbn [run].
    rewrite host_chirp_counts; unfold _CHIRP_DURATION; auto; try lia.
    replace (Z.of_nat (length ins)) with 3000 by lia. rewrite Ht.
    unfold step, _CHIRP_DURATION; cbn [st reset_counter chirp_timer].
    destruct Hs as [-> | ->]; cbn.
    + split; reflexivity.
    + destruct (_MAX_RESET_TIME <=? reset_counter s + 3000); split; reflexivity.
Qed.

Lemma host_chirps_alternate_witness :
  let i := {| bus_reset := false; line_state := SE0 |} in
  let s := {| st := SEND_HOST_CHIRP_J; reset_counter := 2999000;
              chirp_timer := 0 |} in
  st (run false (repeat i (Z.to_nat 3001)) s) = IDLE_HS.
Proof.
  intros i s.
  refine (proj2 (proj2 (host_chirps_alternate (repeat i (Z.to_nat 3001)) s
                          (or_intror eq_refl) eq_refl _ _ _))).
  - cbn; lia.
  - rewrite repeat_length. reflexivity.
  - cbn. lia.
Defined.

(** *** How long a reset lasts *)

Lemma reset_stays_active ins :
  forall s c,
    reset_active s = true -> 0 <= reset_counter s <= c ->
    c + Z.of_nat (length ins) <= _MAX_RESET_TIME ->
    forall fso,
      reset_active (run fso ins s) = true /\
      0 <= reset_counter (run fso ins s) <= c + Z.of_nat (length ins).
Proof.
  unfold _MAX_RESET_TIME.
  induction ins as [| i ins IH]; intros s c Ha Hc Hlen fso.
  - cbn. split; [exact Ha | lia].
  - cbn [length] in Hlen. rewrite Nat2Z.inj_succ in Hlen. cbn [run].
    assert (E : reset_active (step fso i s) = true /\
                0 <= reset_counter (step fso i s) <= c + 1).
    { assert (Hn : 0 <= next_counter s <= c + 1).
      { unfold next_counter. destruct (in_idle_state s); [lia |].
        rewrite trunc_small by (change (2 ^ 22) with 4194304; lia). lia. }
      unfold reset_active in Ha. unfold step, reset_active.
      unfold _MAX_RESET_TIME, _SETTLE_TIME.
      destruct (Z.leb_spec 3000000 (reset_counter s)); [lia |].
      destruct (st s) eqn:E; try discriminate;
        repeat match goal with
               | |- context [if ?b then _ else _] => destruct b
               end; cbn [st reset_counter]; rewrite ?E;
        (split; [reflexivity | lia]). }
    destruct E as [Ha' Hc'].
    destruct (IH (step fso i s) (c + 1) Ha' Hc' ltac:(lia) fso) as [R1 R2].
    cbn [length]. rewrite Nat2Z.inj_succ. split; [exact R1 | lia].
Qed.

(** X6.  A reset is never shorter than _MAX_RESET_TIME cycles: whatever the
    line and the bus_reset input do, reset stays active (and the speed
    UNKNOWN) during the first _MAX_RESET_TIME cycles after power-up (the
    state a bus_reset strobe taken in an idle state restores). *)
Theorem reset_lasts_max_reset_time fso ins :
  Z.of_nat (length ins) <= _MAX_RESET_TIME ->
  reset_active (run fso ins init) = true /\
  detected_speed (run fso ins init) = UNKNOWN.
Proof.
  intros Hlen.
  destruct (reset_stays_active ins init 0 eq_refl ltac:(cbn; lia) Hlen fso)
    as [Ha _].
  split; [exact Ha |].
  unfold reset_active in Ha. unfold detected_speed.
  destruct (st (run fso ins init)); try discriminate; reflexivity.
Qed.

Lemma reset_lasts_max_reset_time_witness :
  let k := {| bus_reset := true; line_state := K |} in
  reset_active (run false (repeat k 100) init) = true.
Proof.
  intros k.
  exact (proj1 (reset_lasts_max_reset_time false (repeat k 100)
                  ltac:(cbn; unfold _MAX_RESET_TIME; lia))).
Defined.

End ResetFacts.

(** ** The token generator *)

Module TokenGenFacts.

Import TokenGen.

Lemma forall_range (f : Z -> bool) n :
  forallb f (map Z.of_nat (seq 0 n)) = true ->
  forall z, 0 <= z < Z.of_nat n -> f z = true.
Proof.
  intros H z Hz. rewrite forallb_forall in H. apply H.
  apply in_map_iff. exists (Z.to_nat z). split; [lia |].
  apply in_seq. lia.
Qed.

Lemma land_7_trunc x : Z.land x 7 = trunc 3 x.
Proof. change 7 with (Z.ones 3). now rewrite Z.land_ones by lia. Qed.

Lemma land_127_trunc x : Z.land x 127 = trunc 7 x.
Proof. change 127 with (Z.ones 7). now rewrite Z.land_ones by lia. Qed.

(** the token fields survive the two payload bytes, whatever the CRC *)
Lemma token_fields_recovered addr endp crc :
  0 <= addr < 128 -> 0 <= endp < 16 ->
  let d := trunc 11 (token_data addr endp) in
  decode_addr (trunc 8 d) = addr /\
  decode_endp (trunc 8 d) (Cat [(3, Z.shiftr d 8); (5, crc)]) = endp.
Proof.
  intros Ha He d. unfold decode_endp.
  rewrite land_7_trunc, MscFacts.trunc_Cat_first by lia.
  subst d.
  pose (ok := fun a => forallb (fun e =>
     let d := trunc 11 (token_data a e) in
     (decode_addr (trunc 8 d) =? a)
     && (Z.lor (Z.shiftr (trunc 8 d) 7) (Z.shiftl (trunc 3 (Z.shiftr d 8)) 1) =? e))
     (map Z.of_nat (seq 0 16))).
  assert (H : forallb ok (map Z.of_nat (seq 0 128)) = true) by (vm_compute; reflexivity).
  pose proof (forall_range ok 128 H addr ltac:(lia)) as Hok. unfold ok in Hok.
  pose proof (forall_range _ 16 Hok endp ltac:(lia)) as Hae. cbn zeta in Hae.
  apply andb_true_iff in Hae as [H1 H2].
  split; [now apply Z.eqb_eq | now apply Z.eqb_eq].
Qed.

Lemma token_run_app a : forall b s, run (a ++ b) s = run b (run a s).
Proof.
  induction a as [| i a IH]; intros b s; cbn [app run];
    [reflexivity | apply IH].
Qed.

Lemma txa_trace_app a :
  forall b s, txa_trace (a ++ b) s = txa_trace a s ++ txa_trace b (run a s).
Proof.
  induction a as [| i a IH]; intros b s; cbn [app txa_trace run];
    [reflexivity | now rewrite IH].
Qed.

Lemma stall_step i s :
  sending (st s) -> tx_ready i = false -> step i s = s.
Proof.
  intros Hs Hi. unfold step. destruct s as [f p l c]. cbn [st] in *.
  destruct Hs as [-> | [-> | ->]]; rewrite Hi; reflexivity.
Qed.

(** while the generator waits after a token that is not an IN token, it
    counts: after [n] cycles with [c + n <= l] the counter is [c + n], and
    [txa] was low in each of them *)
Lemma long_wait_counts ins :
  forall s, st s = WAIT_LONG_TXA ->
    0 <= cnt s -> long_txa_post_transmit_cnt s < 256 ->
    cnt s + Z.of_nat (length ins) <= long_txa_post_transmit_cnt s ->
    st (run ins s) = WAIT_LONG_TXA /\
    cnt (run ins s) = cnt s + Z.of_nat (length ins) /\
    long_txa_post_transmit_cnt (run ins s) = long_txa_post_transmit_cnt s /\
    pkt (run ins s) = pkt s /\
    txa_trace ins s = repeat false (length ins).
Proof.
  induction ins as [| i ins IH]; intros s Hst Hc Hl Hn.
  - cbn. repeat split; try reflexivity; try assumption. lia.
  - cbn [length] in Hn.
    assert (E : (cnt s =? long_txa_post_transmit_cnt s) = false)
      by (apply Z.eqb_neq; lia).
    assert (Es : step i s =
                 {| st := WAIT_LONG_TXA; pkt := pkt s;
                    long_txa_post_transmit_cnt := long_txa_post_transmit_cnt s;
                    cnt := cnt s + 1 |}).
    { unfold step. rewrite Hst, E. f_equal. unfold trunc.
      apply Z.mod_small. change (2 ^ 8) with 256. lia. }
    cbn [run txa_trace length repeat]. rewrite Es.
    destruct (IH {| st := WAIT_LONG_TXA; pkt := pkt s;
                    long_txa_post_transmit_cnt := long_txa_post_transmit_cnt s;
                    cnt := cnt s + 1 |})
      as (R1 & R2 & R3 & R4 & R5); cbn [st cnt long_txa_post_transmit_cnt pkt];
      try reflexivity; try lia.
    rewrite R1, R2, R3, R4, R5. cbn [cnt long_txa_post_transmit_cnt pkt].
    repeat split; try reflexivity; try lia.
    unfold txa. now rewrite Hst, E.
Qed.

Lemma stall_txa ins :
  forall s, sending (st s) -> stalls ins = true ->
            txa_trace ins s = repeat false (length ins).
Proof.
  induction ins as [| i ins IH]; intros s Hs H; [reflexivity |].
  cbn in H. apply andb_true_iff in H as [Hi H]. apply negb_true_iff in Hi.
  cbn [txa_trace length repeat]. rewrite (stall_step i s Hs Hi), (IH s Hs H).
  f_equal. unfold txa. destruct Hs as [-> | [-> | ->]]; try reflexivity.
  now rewrite Hi.
Qed.

Lemma cnt_clear_step i s : cnt_clear s -> cnt_clear (step i s).
Proof.
  unfold cnt_clear, step. intros [H | H].
  - rewrite H. destruct (cnt s =? long_txa_post_transmit_cnt s);
      [right | left]; reflexivity.
  - destruct (st s) eqn:E; cbn [cnt st]; try (right; exact H).
    destruct (cnt s =? long_txa_post_transmit_cnt s);
      [right | left]; reflexivity.
Qed.

Lemma cnt_clear_run ins : forall s, cnt_clear s -> cnt_clear (run ins s).
Proof.
  induction ins as [| i ins IH]; intros s H; [exact H |].
  cbn [run]. apply IH, cnt_clear_step, H.
Qed.

Lemma cnt_zero_in_idle pre :
  st (run pre init) = IDLE -> cnt (run pre init) = 0.
Proof.
  intros H. destruct (cnt_clear_run pre init) as [E | E];
    [right; reflexivity | congruence | exact E].
Qed.

Lemma long_txa_small sp : trunc 8 (long_txa sp - 1) = long_txa sp - 1.
Proof. unfold long_txa. destruct (is_high sp); reflexivity. Qed.

Lemma long_txa_pos sp : 1 <= long_txa sp <= 200.
Proof.
  unfold long_txa, _LONG_TXA_POST_TRANSMIT_HS, _LONG_TXA_POST_TRANSMIT_FS.
  destruct (is_high sp); lia.
Qed.

Lemma quiet_prefix (la lb lc : nat) (b : bool) :
  false :: repeat false la ++ false :: repeat false lb
        ++ false :: repeat false lc ++ [b]
  = repeat false (3 + la + lb + lc) ++ [b].
Proof.
  replace (3 + la + lb + lc)%nat with (S la + (S lb + (S lc)))%nat by lia.
  rewrite !repeat_app. cbn [repeat app].
  repeat first [rewrite <- app_assoc | progress cbn [app]].
  reflexivity.
Qed.

Lemma short_wait_holds ins :
  forall s, st s = WAIT_SHORT_TXA -> timer_holds ins = true ->
            run ins s = s /\ txa_trace ins s = repeat false (length ins).
Proof.
  induction ins as [| i ins IH]; intros s Hs H; [split; reflexivity |].
  cbn in H. apply andb_true_iff in H as [Hi H]. apply negb_true_iff in Hi.
  assert (E : step i s = s).
  { unfold step. rewrite Hs, Hi. destruct s; cbn in *; now subst. }
  cbn [run txa_trace length repeat]. rewrite E.
  destruct (IH s Hs H) as [R T]. rewrite R, T.
  split; [reflexivity |]. f_equal. unfold txa. now rewrite Hs.
Qed.

Lemma stall_run ins :
  forall s, sending (st s) -> stalls ins = true -> run ins s = s.
Proof.
  induction ins as [| i ins IH]; intros s Hs H; [reflexivity |].
  cbn in H. apply andb_true_iff in H as [Hi H]. apply negb_true_iff in Hi.
  cbn [run]. rewrite (stall_step i s Hs Hi). apply IH; assumption.
Qed.

(** one token, from the cycle it is accepted to the cycle its last byte is
    taken: the registers afterwards and [txa] in every cycle *)
Lemma token_run (s : state) (i0 : input)
    (sa sb sc : list input) (r1 r2 r3 : input) :
  st s = IDLE -> i_valid i0 = true ->
  stalls sa = true -> stalls sb = true -> stalls sc = true ->
  tx_ready r1 = true -> tx_ready r2 = true -> tx_ready r3 = true ->
  let p := i_payload i0 in
  let d := trunc 11 (data p) in
  let ins := i0 :: three_bytes sa sb sc r1 r2 r3 in
  run ins s
  = {| st := if is_in (pid p) then WAIT_SHORT_TXA else WAIT_LONG_TXA;
       pkt := {| pid := pid p; data := d |};
       long_txa_post_transmit_cnt := long_txa (speed i0) - 1;
       cnt := cnt s |} /\
  txa_trace ins s
  = repeat false (3 + length sa + length sb + length sc) ++ [is_in (pid p)].
Proof.
  intros Hst Hv Ha Hb Hc H1 H2 H3 p d ins.
  set (k := long_txa (speed i0) - 1).
  assert (E0 : step i0 s = {| st := SEND_PID; pkt := {| pid := pid p; data := d |};
                              long_txa_post_transmit_cnt := k; cnt := cnt s |}).
  { subst k. unfold step. rewrite Hst, Hv, long_txa_small. reflexivity. }
  set (s1 := {| st := SEND_PID; pkt := {| pid := pid p; data := d |};
                long_txa_post_transmit_cnt := k; cnt := cnt s |}) in *.
  set (s2 := {| st := SEND_PAYLOAD0; pkt := {| pid := pid p; data := d |};
                long_txa_post_transmit_cnt := k; cnt := cnt s |}).
  set (s3 := {| st := SEND_PAYLOAD1; pkt := {| pid := pid p; data := d |};
                long_txa_post_transmit_cnt := k; cnt := cnt s |}).
  assert (G1 : sending (st s1)) by (left; reflexivity).
  assert (G2 : sending (st s2)) by (right; left; reflexivity).
  assert (G3 : sending (st s3)) by (right; right; reflexivity).
  pose proof (stall_run sa s1 G1 Ha) as Ra.
  pose proof (stall_run sb s2 G2 Hb) as Rb.
  pose proof (stall_run sc s3 G3 Hc) as Rc.
  pose proof (stall_txa sa s1 G1 Ha) as Ta.
  pose proof (stall_txa sb s2 G2 Hb) as Tb.
  pose proof (stall_txa sc s3 G3 Hc) as Tc.
  assert (T1 : step r1 s1 = s2) by (unfold step; cbn [st s1]; now rewrite H1).
  assert (T2 : step r2 s2 = s3) by (unfold step; cbn [st s2]; now rewrite H2).
  subst ins. unfold three_bytes.
  cbn [run txa_trace]. unfold txa at 1. rewrite Hst, E0.
  rewrite (txa_trace_app sa), !(token_run_app sa), Ra, Ta.
  cbn [run txa_trace app]. unfold txa at 1. cbn [st s1]. rewrite T1.
  rewrite (txa_trace_app sb), !(token_run_app sb), Rb, Tb.
  cbn [run txa_trace app]. unfold txa at 1. cbn [st s2]. rewrite T2.
  rewrite (txa_trace_app sc), !(token_run_app sc), Rc, Tc.
  cbn [run txa_trace app]. unfold txa at 1. cbn [st s3 pkt pid]. rewrite H3.
  unfold step. cbn [st s3 pkt pid long_txa_post_transmit_cnt cnt]. rewrite H3.
  split; [reflexivity |].
  cbn [andb]. apply quiet_prefix.
Qed.

Section Luna.

Variable pid_byte : Sie.TokenPID -> Z.
Variable crc5 : Z -> Z.

Lemma sent_app a :
  forall b s, sent pid_byte crc5 (a ++ b) s
              = sent pid_byte crc5 a s ++ sent pid_byte crc5 b (run a s).
Proof.
  induction a as [| i a IH]; intros b s; cbn [app sent run];
    [reflexivity |].
  rewrite IH. destruct (tx_out pid_byte crc5 s); [destruct (tx_ready i) |];
    reflexivity.
Qed.

Lemma stall_sent ins :
  forall s, sending (st s) -> stalls ins = true ->
            sent pid_byte crc5 ins s = [].
Proof.
  induction ins as [| i ins IH]; intros s Hs H; [reflexivity |].
  cbn in H. apply andb_true_iff in H as [Hi H]. apply negb_true_iff in Hi.
  cbn [sent]. rewrite (stall_step i s Hs Hi), Hi, (IH s Hs H).
  destruct (tx_out pid_byte crc5 s); reflexivity.
Qed.

(** the bytes of one token *)
Lemma token_sent (s : state) (i0 : input)
    (sa sb sc : list input) (r1 r2 r3 : input) :
  st s = IDLE -> i_valid i0 = true ->
  stalls sa = true -> stalls sb = true -> stalls sc = true ->
  tx_ready r1 = true -> tx_ready r2 = true -> tx_ready r3 = true ->
  let p := i_payload i0 in
  let d := trunc 11 (data p) in
  sent pid_byte crc5 (i0 :: three_bytes sa sb sc r1 r2 r3) s
  = [pid_byte (pid p); trunc 8 d; Cat [(3, Z.shiftr d 8); (5, crc5 d)]].
Proof.
  intros Hst Hv Ha Hb Hc H1 H2 H3 p d.
  set (k := long_txa (speed i0) - 1).
  assert (E0 : step i0 s = {| st := SEND_PID; pkt := {| pid := pid p; data := d |};
                              long_txa_post_transmit_cnt := k; cnt := cnt s |}).
  { subst k. unfold step. rewrite Hst, Hv, long_txa_small. reflexivity. }
  set (s1 := {| st := SEND_PID; pkt := {| pid := pid p; data := d |};
                long_txa_post_transmit_cnt := k; cnt := cnt s |}) in *.
  set (s2 := {| st := SEND_PAYLOAD0; pkt := {| pid := pid p; data := d |};
                long_txa_post_transmit_cnt := k; cnt := cnt s |}).
  set (s3 := {| st := SEND_PAYLOAD1; pkt := {| pid := pid p; data := d |};
                long_txa_post_transmit_cnt := k; cnt := cnt s |}).
  assert (G1 : sending (st s1)) by (left; reflexivity).
  assert (G2 : sending (st s2)) by (right; left; reflexivity).
  assert (G3 : sending (st s3)) by (right; right; reflexivity).
  pose proof (stall_run sa s1 G1 Ha) as Ra.
  pose proof (stall_run sb s2 G2 Hb) as Rb.
  pose proof (stall_run sc s3 G3 Hc) as Rc.
  pose proof (stall_sent sa s1 G1 Ha) as Sa.
  pose proof (stall_sent sb s2 G2 Hb) as Sb.
  pose proof (stall_sent sc s3 G3 Hc) as Sc.
  assert (T1 : step r1 s1 = s2) by (unfold step; cbn [st s1]; now rewrite H1).
  assert (T2 : step r2 s2 = s3) by (unfold step; cbn [st s2]; now rewrite H2).
  assert (Hd : trunc 11 d = d).
  { subst d. unfold trunc. apply Z.mod_mod. lia. }
  unfold three_bytes.
  cbn [sent]. unfold tx_out at 1. rewrite Hst, E0.
  rewrite (sent_app sa), Sa, Ra.
  cbn [sent run app]. unfold tx_out at 1. cbn [st s1 pkt pid]. rewrite H1, T1.
  rewrite (sent_app sb), Sb, Rb.
  cbn [sent run app]. unfold tx_out at 1. cbn [st s2 pkt data]. rewrite H2, T2.
  rewrite (sent_app sc), Sc, Rc.
  cbn [sent run app]. unfold tx_out at 1. cbn [st s3 pkt data]. rewrite H3, Hd.
  reflexivity.
Qed.

(** X7. A token accepted in IDLE leaves the generator as exactly three
    bytes, whatever the number of cycles the PHY stalls before each one: the
    PID byte, the low eight of the eleven data bits, and the three high data
    bits under the five CRC bits. For a token built from an address below
    128 and an endpoint below 16, both are read back from the two payload
    bytes. *)
Theorem token_is_three_bytes (s : state) (i0 : input)
    (sa sb sc : list input) (r1 r2 r3 : input) :
  st s = IDLE -> i_valid i0 = true ->
  stalls sa = true -> stalls sb = true -> stalls sc = true ->
  tx_ready r1 = true -> tx_ready r2 = true -> tx_ready r3 = true ->
  let p := i_payload i0 in
  let d := trunc 11 (data p) in
  let b1 := trunc 8 d in
  let b2 := Cat [(3, Z.shiftr d 8); (5, crc5 d)] in
  sent pid_byte crc5 (i0 :: three_bytes sa sb sc r1 r2 r3) s
  = [pid_byte (pid p); b1; b2] /\
  (forall addr endp, 0 <= addr < 128 -> 0 <= endp < 16 ->
     data p = token_data addr endp ->
     decode_addr b1 = addr /\ decode_endp b1 b2 = endp).
Proof.
  intros Hst Hv Ha Hb Hc H1 H2 H3 p d b1 b2.
  split; [exact (token_sent s i0 sa sb sc r1 r2 r3 Hst Hv Ha Hb Hc H1 H2 H3) |].
  intros addr endp Haddr Hendp Hp.
  subst b1 b2 d. rewrite Hp.
  apply (token_fields_recovered addr endp _ Haddr Hendp).
Qed.

End Luna.

(** X8. After a token that is not an IN token the generator asserts [txa]
    for one cycle, exactly [_LONG_TXA_POST_TRANSMIT] cycles (200 at full
    speed, 20 at high speed, the speed being the one sampled when the token
    was accepted) after the cycle its last byte was taken, and in no cycle
    before; it accepts no token in between and is back in IDLE, its counter
    cleared, right after. *)
Theorem long_txa_after_token (pre : list input) (i0 : input)
    (sa sb sc : list input) (r1 r2 r3 : input) (w : list input) (wl : input) :
  st (run pre init) = IDLE -> i_valid i0 = true ->
  is_in (pid (i_payload i0)) = false ->
  stalls sa = true -> stalls sb = true -> stalls sc = true ->
  tx_ready r1 = true -> tx_ready r2 = true -> tx_ready r3 = true ->
  Z.of_nat (length w) = long_txa (speed i0) - 1 ->
  let s := run pre init in
  let tok := i0 :: three_bytes sa sb sc r1 r2 r3 in
  txa_trace (tok ++ w ++ [wl]) s
  = repeat false (length tok + length w) ++ [true] /\
  (forall k, (k <= length w)%nat ->
     i_ready (run (tok ++ firstn k w) s) = false) /\
  st (run (tok ++ w ++ [wl]) s) = IDLE /\
  cnt (run (tok ++ w ++ [wl]) s) = 0.
Proof.
  intros Hst Hv Hin Ha Hb Hc H1 H2 H3 Hw s tok.
  destruct (token_run s i0 sa sb sc r1 r2 r3 Hst Hv Ha Hb Hc H1 H2 H3)
    as (R & T).
  fold tok in R, T. rewrite Hin in R, T.
  assert (Hc0 : cnt s = 0) by (apply cnt_zero_in_idle; exact Hst).
  rewrite Hc0 in R.
  pose proof (long_txa_pos (speed i0)) as Hp.
  set (s1 := run tok s) in *.
  assert (Hs1 : st s1 = WAIT_LONG_TXA) by now rewrite R.
  assert (Hc1 : cnt s1 = 0) by now rewrite R.
  assert (Hl1 : long_txa_post_transmit_cnt s1 = long_txa (speed i0) - 1)
    by now rewrite R.
  assert (Hcount : forall v, (length v <= length w)%nat ->
            st (run v s1) = WAIT_LONG_TXA /\
            cnt (run v s1) = Z.of_nat (length v) /\
            long_txa_post_transmit_cnt (run v s1) = long_txa (speed i0) - 1 /\
            txa_trace v s1 = repeat false (length v)).
  { intros v Hv'.
    destruct (long_wait_counts v s1 Hs1) as (A & B & C & _ & D);
      try lia.
    rewrite Hc1 in B. rewrite Hl1 in C. repeat split; try assumption; lia. }
  destruct (Hcount w (le_n _)) as (A & B & C & D).
  assert (Elen : length tok = (4 + length sa + length sb + length sc)%nat).
  { unfold tok, three_bytes.
    repeat first [rewrite length_app | progress cbn [length]]. lia. }
  split; [| split; [| split]].
  - rewrite txa_trace_app, T. fold s1.
    rewrite txa_trace_app, D. cbn [txa_trace].
    unfold txa. rewrite A, B, C.
    replace (Z.of_nat (length w) =? long_txa (speed i0) - 1) with true
      by (symmetry; apply Z.eqb_eq; exact Hw).
    rewrite Elen.
    replace (4 + length sa + length sb + length sc + length w)%nat
      with ((3 + length sa + length sb + length sc) + (1 + length w))%nat by lia.
    rewrite (repeat_app false (3 + length sa + length sb + length sc)).
    rewrite <- !app_assoc. reflexivity.
  - intros k Hk. rewrite token_run_app. fold s1.
    destruct (Hcount (firstn k w)) as (A' & _).
    { rewrite length_firstn. lia. }
    unfold i_ready. now rewrite A'.
  - rewrite token_run_app. fold s1. rewrite token_run_app. cbn [run].
    unfold step. rewrite A, B, C.
    replace (Z.of_nat (length w) =? long_txa (speed i0) - 1) with true
      by (symmetry; apply Z.eqb_eq; exact Hw).
    reflexivity.
  - rewrite token_run_app. fold s1. rewrite token_run_app. cbn [run].
    unfold step. rewrite A, B, C.
    replace (Z.of_nat (length w) =? long_txa (speed i0) - 1) with true
      by (symmetry; apply Z.eqb_eq; exact Hw).
    reflexivity.
Qed.

(** X9. After an IN token the generator asserts [txa] in the very cycle the
    PHY takes the last byte, and in no cycle before; it then accepts no
    token for as long as the inter-packet timer withholds [tx_allowed], and
    is back in IDLE in the cycle after the timer grants it. *)
Theorem short_txa_after_in_token (s : state) (i0 : input)
    (sa sb sc : list input) (r1 r2 r3 : input) (w : list input) (wl : input) :
  st s = IDLE -> i_valid i0 = true ->
  is_in (pid (i_payload i0)) = true ->
  stalls sa = true -> stalls sb = true -> stalls sc = true ->
  tx_ready r1 = true -> tx_ready r2 = true -> tx_ready r3 = true ->
  timer_holds w = true -> timer_tx_allowed wl = true ->
  let tok := i0 :: three_bytes sa sb sc r1 r2 r3 in
  txa_trace (tok ++ w ++ [wl]) s
  = repeat false (length tok - 1) ++ [true] ++ repeat false (length w + 1) /\
  i_ready (run (tok ++ w) s) = false /\
  st (run (tok ++ w ++ [wl]) s) = IDLE.
Proof.
  intros Hst Hv Hin Ha Hb Hc H1 H2 H3 Hw Hwl tok.
  destruct (token_run s i0 sa sb sc r1 r2 r3 Hst Hv Ha Hb Hc H1 H2 H3)
    as (R & T).
  fold tok in R, T. rewrite Hin in R, T.
  set (s1 := run tok s) in *.
  assert (Hs1 : st s1 = WAIT_SHORT_TXA) by now rewrite R.
  destruct (short_wait_holds w s1 Hs1 Hw) as [Rw Tw].
  assert (Elen : (length tok - 1 = 3 + length sa + length sb + length sc)%nat).
  { unfold tok, three_bytes.
    repeat first [rewrite length_app | progress cbn [length]]. lia. }
  split; [| split].
  - rewrite txa_trace_app, T. fold s1. rewrite txa_trace_app, Tw, Rw.
    cbn [txa_trace]. unfold txa. rewrite Hs1, Elen.
    rewrite (repeat_app false (length w) 1). cbn [repeat].
    rewrite <- !app_assoc. reflexivity.
  - rewrite token_run_app. fold s1. rewrite Rw. unfold i_ready. now rewrite Hs1.
  - rewrite token_run_app. fold s1. rewrite token_run_app, Rw. cbn [run].
    unfold step. rewrite Hs1, Hwl. reflexivity.
Qed.

Lemma token_is_three_bytes_witness :
  sent usb_pid_byte no_crc
       (offer {| pid := Sie.TOK_SETUP; data := token_data 5 3 |} FULL
        :: three_bytes [stall] [] [stall; stall] take take take) init
  = [45; 133; 1].
Proof.
  exact (proj1 (token_is_three_bytes usb_pid_byte no_crc init
                  (offer {| pid := Sie.TOK_SETUP; data := token_data 5 3 |} FULL)
                  [stall] [] [stall; stall] take take take
                  eq_refl eq_refl eq_refl eq_refl eq_refl
                  eq_refl eq_refl eq_refl)).
Defined.

Lemma long_txa_after_token_witness :
  let tok := offer {| pid := Sie.TOK_SETUP; data := token_data 5 3 |} HIGH
             :: three_bytes [stall] [] [] take take take in
  st (run (tok ++ repeat stall 19 ++ [stall]) (run [stall; stall] init)) = IDLE.
Proof.
  intros tok.
  exact (proj1 (proj2 (proj2
    (long_txa_after_token [stall; stall]
       (offer {| pid := Sie.TOK_SETUP; data := token_data 5 3 |} HIGH)
       [stall] [] [] take take take (repeat stall 19) stall
       eq_refl eq_refl eq_refl eq_refl eq_refl eq_refl
       eq_refl eq_refl eq_refl eq_refl)))).
Defined.

Lemma short_txa_after_in_token_witness :
  let tok := offer {| pid := Sie.TOK_IN; data := token_data 5 1 |} FULL
             :: three_bytes [] [stall] [] take take take in
  st (run (tok ++ [stall; stall] ++ [grant]) init) = IDLE.
Proof.
  intros tok.
  exact (proj2 (proj2
    (short_txa_after_in_token init
       (offer {| pid := Sie.TOK_IN; data := token_data 5 1 |} FULL)
       [] [stall] [] take take take [stall; stall] grant
       eq_refl eq_refl eq_refl eq_refl eq_refl eq_refl
       eq_refl eq_refl eq_refl eq_refl eq_refl))).
Defined.

End TokenGenFacts.

(** ** The transfer engine: data phase, response and inter-packet delay *)

Module SieStreamFacts.

Import Sie SieStream.

Lemma sie_run_app a : forall b s, run (a ++ b) s = run b (run a s).
Proof.
  induction a as [| i a IH]; intros b s; cbn [app run];
    [reflexivity | apply IH].
Qed.

Lemma fifo_step_bound w d r f :
  (length f <= Fifo.fifo_depth)%nat ->
  (length (Fifo.step w d r f) <= Fifo.fifo_depth)%nat.
Proof.
  unfold Fifo.step, Fifo.w_rdy, Fifo.fifo_depth. intros H.
  assert (Ht : (length (tl f) <= length f)%nat) by (destruct f; cbn; lia).
  destruct (r && Fifo.r_rdy f), (w && (length f <? 64)%nat) eqn:E;
    rewrite ?length_app; cbn [length]; try lia.
  - apply andb_true_iff in E as [_ E]. apply Nat.ltb_lt in E. lia.
  - apply andb_true_iff in E as [_ E]. apply Nat.ltb_lt in E. lia.
Qed.

(** a write appends behind what is queued, a read takes the head *)
Lemma fifo_step_keeps_head w d f extra :
  exists extra', Fifo.step w d false (f ++ extra) = f ++ extra'.
Proof.
  unfold Fifo.step. cbn [andb].
  destruct (w && Fifo.w_rdy (f ++ extra)).
  - exists (extra ++ [d]). now rewrite app_assoc.
  - now exists extra.
Qed.

Lemma fifo_step_pops w d b f extra :
  exists extra', Fifo.step w d true ((b :: f) ++ extra) = f ++ extra'.
Proof.
  unfold Fifo.step. cbn [andb app Fifo.r_rdy tl].
  destruct (w && Fifo.w_rdy (b :: f ++ extra)).
  - exists (extra ++ [d]). now rewrite app_assoc.
  - now exists extra.
Qed.

Lemma marks_nonempty d : marks d <> [].
Proof. destruct d; discriminate. Qed.

(** *** The data phase of an OUT or SETUP transaction *)

Lemma phase_step d i s rest :
  phase d s rest -> (st s = IDLE -> xfer_start i = false) ->
  exists rest', phase d (step i s) rest' /\ rest = emitted i s ++ rest'.
Proof.
  intros (Ht & Hl & Hd & H) Hns.
  unfold emitted, tx_beat, taken.
  destruct (st s) eqn:E; try contradiction.
  - (* IDLE, the transaction over *)
    specialize (Hns eq_refl). subst rest. exists [].
    split; [| reflexivity].
    unfold phase, step, next_st, latch; cbn [st xfer_type tx_len].
    rewrite E, Hns. auto.
  - (* DRAIN_RX *)
    destruct H as (Hc & (extra & Hf) & ->). exists (marks d).
    split; [| reflexivity].
    destruct (fifo_step_keeps_head (txs_valid i) (txs_payload i) d extra)
      as (extra' & Hf').
    unfold phase, step, next_st, latch, next_tx_byte_count, tx_r_en;
      cbn [st xfer_type tx_len tx_byte_count tx_fifo].
    rewrite E, Hf, Hf'.
    destruct (negb (Fifo.r_rdy (rx_fifo s))); eauto 10.
  - (* WAIT_TXA *)
    destruct H as (Hc & (extra & Hf) & ->). exists (marks d).
    split; [| reflexivity].
    destruct (fifo_step_keeps_head (txs_valid i) (txs_payload i) d extra)
      as (extra' & Hf').
    unfold phase, step, next_st, latch, next_tx_byte_count, tx_r_en;
      cbn [st xfer_type tx_len tx_byte_count tx_fifo].
    rewrite E, Hf, Hf'.
    destruct (sof_txa i); eauto 10.
  - (* SEND_TOKEN *)
    destruct H as (Hc & (extra & Hf) & ->). exists (marks d).
    split; [| reflexivity].
    destruct (fifo_step_keeps_head (txs_valid i) (txs_payload i) d extra)
      as (extra' & Hf').
    unfold phase, step, next_st, latch, next_tx_byte_count, tx_r_en;
      cbn [st xfer_type tx_len tx_byte_count tx_fifo].
    rewrite E, Hf, Hf'.
    destruct (sie_token_ready i s); eauto 10.
  - (* WAIT_TOKEN_COMPLETE *)
    destruct H as (Hc & (extra & Hf) & ->). exists (marks d).
    split; [| reflexivity].
    destruct (fifo_step_keeps_head (txs_valid i) (txs_payload i) d extra)
      as (extra' & Hf').
    unfold phase, step, next_st, latch, next_tx_byte_count, tx_r_en;
      cbn [st xfer_type tx_len tx_byte_count tx_fifo].
    rewrite E, Hf, Hf'.
    destruct (tok_txa i); [| eauto 10].
    destruct (xfer_type s) eqn:Et; try congruence.
    + destruct (Z.eqb_spec (tx_len s) 0) as [Hz | Hz].
      * assert (d = []) by (destruct d; [reflexivity | cbn in Hl; lia]).
        subst d. auto 10.
      * destruct d as [| b r]; [cbn in Hl; lia |].
        repeat split; try assumption.
        exists b, r, extra'. rewrite Hc. cbn [marks]. repeat split; lia.
    + destruct (Z.eqb_spec (tx_len s) 0) as [Hz | Hz].
      * assert (d = []) by (destruct d; [reflexivity | cbn in Hl; lia]).
        subst d. auto 10.
      * destruct d as [| b r]; [cbn in Hl; lia |].
        repeat split; try assumption.
        exists b, r, extra'. rewrite Hc. cbn [marks]. repeat split; lia.
  - (* SEND_OUT_DATA *)
    destruct H as (b & r & extra & Hf & Hc & Hc0 & ->).
    rewrite Hf. cbn [app Fifo.r_rdy hd].
    destruct (tx_stream_ready i) eqn:Er.
    + destruct (fifo_step_pops (txs_valid i) (txs_payload i) b r extra)
        as (extra' & Hf').
      exists (marks_from (tx_byte_count s + 1) (Z.of_nat (length d)) r).
      split; [| cbn [marks_from app]; now rewrite Hl].
      unfold phase, step, next_st, latch, next_tx_byte_count, tx_r_en;
        cbn [st xfer_type tx_len tx_byte_count tx_fifo].
      rewrite E, Er, Hf. cbn [app Fifo.r_rdy andb].
      change (b :: r ++ extra) with ((b :: r) ++ extra). rewrite Hf'.
      cbn [length] in Hc. unfold Fifo.fifo_depth in Hd.
      destruct (Z.eqb_spec (tx_byte_count s) (tx_len s - 1)) as [Hz | Hz].
      * assert (r = []) by (destruct r; [reflexivity | cbn [length] in Hc; lia]).
        subst r. auto.
      * destruct r as [| b' r']; [cbn [length] in Hc; lia |].
        repeat split; try assumption.
        exists b', r', extra'.
        assert (Et : trunc 16 (tx_byte_count s + 1) = tx_byte_count s + 1).
        { unfold trunc. apply Z.mod_small. change (2 ^ 16) with 65536. lia. }
        rewrite Et. cbn [length] in *. repeat split; try lia.
    + exists (marks_from (tx_byte_count s) (Z.of_nat (length d)) (b :: r)).
      split; [| reflexivity].
      unfold phase, step, next_st, latch, next_tx_byte_count, tx_r_en;
        cbn [st xfer_type tx_len tx_byte_count tx_fifo].
      rewrite E, Er, Hf. cbn [andb].
      destruct (fifo_step_keeps_head (txs_valid i) (txs_payload i) (b :: r) extra)
        as (extra' & Hf').
      rewrite Hf'. repeat split; try assumption.
      exists b, r, extra'. repeat split; try assumption.
  - (* SEND_OUT_ZLP *)
    destruct H as (-> & ->). exists []. split; [| reflexivity].
    unfold phase, step, next_st, latch; cbn [st xfer_type tx_len].
    rewrite E. auto.
  - (* WAIT_HANDSHAKE *)
    subst rest. exists []. split; [| reflexivity].
    unfold phase, step, next_st, latch, wait_handshake_next;
      cbn [st xfer_type tx_len].
    rewrite E.
    destruct (negb (sof_rxa i) || hs_stall i || hs_nak i || hs_ack i); auto.
  - (* IPD_DRAIN_TX *)
    subst rest. exists []. split; [| reflexivity].
    unfold phase, step, next_st, latch; cbn [st xfer_type tx_len].
    rewrite E.
    destruct ((ipd s =? ipd_max i - 1) && negb (Fifo.r_rdy (tx_fifo s))); auto.
Qed.

Lemma phase_run d ins :
  forall s rest,
    phase d s rest -> no_start ins = true ->
    exists rest', phase d (run ins s) rest' /\
                  rest = transmitted ins s ++ rest'.
Proof.
  induction ins as [| i ins IH]; intros s rest Hp Hns.
  - exists rest. split; [exact Hp | reflexivity].
  - cbn [no_start forallb] in Hns. apply andb_true_iff in Hns as [Hi Hns].
    apply negb_true_iff in Hi.
    destruct (phase_step d i s rest Hp (fun _ => Hi)) as (r1 & Hp1 & ->).
    destruct (IH (step i s) r1 Hp1 Hns) as (r2 & Hp2 & ->).
    exists r2. split; [exact Hp2 |].
    cbn [transmitted run]. now rewrite app_assoc.
Qed.

Lemma phase_rest d s rest :
  phase d s rest -> (rest = [] <-> data_sent (st s) = true).
Proof.
  intros (_ & _ & _ & H). unfold data_sent.
  destruct (st s); try contradiction.
  - subst rest. tauto.
  - destruct H as (_ & _ & ->). pose proof (marks_nonempty d).
    split; [tauto | discriminate].
  - destruct H as (_ & _ & ->). pose proof (marks_nonempty d).
    split; [tauto | discriminate].
  - destruct H as (_ & _ & ->). pose proof (marks_nonempty d).
    split; [tauto | discriminate].
  - destruct H as (_ & _ & ->). pose proof (marks_nonempty d).
    split; [tauto | discriminate].
  - destruct H as (b & r & extra & _ & _ & _ & ->).
    split; discriminate.
  - destruct H as (_ & ->). split; discriminate.
  - subst rest. tauto.
  - subst rest. tauto.
Qed.

(** *** Invariants from power-up *)

Lemma ipd_clear_step i s : ipd_clear s -> ipd_clear (step i s).
Proof.
  intros [Hi Hf]. split.
  - unfold step, next_st, next_ipd; cbn [st ipd].
    destruct (st s) eqn:E; intros Hn;
      try (apply Hi; discriminate).
    destruct ((ipd s =? ipd_max i - 1) && negb (Fifo.r_rdy (tx_fifo s)));
      [reflexivity | congruence].
  - unfold step; cbn [tx_fifo]. now apply fifo_step_bound.
Qed.

Lemma ipd_clear_run ins : forall s, ipd_clear s -> ipd_clear (run ins s).
Proof.
  induction ins as [| i ins IH]; intros s H; [exact H |].
  cbn [run]. apply IH, ipd_clear_step, H.
Qed.

Lemma ipd_clear_init : ipd_clear init.
Proof. split; [reflexivity | cbn; unfold Fifo.fifo_depth; lia]. Qed.

Lemma settled_step i s : settled s -> settled (step i s).
Proof.
  intros (H1 & H2 & H3).
  unfold settled, step, next_st, next_response, latch,
    wait_in_data_next, wait_in_data_response,
    wait_handshake_next, wait_handshake_response;
    cbn [st response xfer_type].
  destruct (st s) eqn:E.
  - (* RESET *)
    destruct (negb (reset_active i)); repeat split;
      try discriminate; try (intros [|]; discriminate); auto.
  - (* IDLE *)
    destruct (xfer_start i); repeat split;
      try discriminate; try (intros [|]; discriminate); auto.
  - destruct (negb (Fifo.r_rdy (rx_fifo s))); repeat split;
      try discriminate; try (intros [|]; discriminate); auto.
  - destruct (sof_txa i); repeat split;
      try discriminate; try (intros [|]; discriminate); auto.
  - destruct (sie_token_ready i s); repeat split;
      try discriminate; try (intros [|]; discriminate); auto.
  - (* WAIT_TOKEN_COMPLETE *)
    destruct (tok_txa i); [| repeat split;
      try discriminate; try (intros [|]; discriminate); auto].
    destruct (xfer_type s) eqn:Et; try destruct (tx_len s =? 0);
      repeat split; try discriminate; try (intros [|]; discriminate); auto.
  - (* SEND_OUT_DATA *)
    destruct (tx_stream_ready i && Fifo.r_rdy (tx_fifo s)
              && (tx_byte_count s =? tx_len s - 1)); repeat split;
      try discriminate; try (intros [|]; discriminate); auto.
  - repeat split; try discriminate; try (intros [|]; discriminate); auto.
  - (* WAIT_IN_DATA *)
    specialize (H2 (or_introl eq_refl)).
    destruct (negb (sof_rxa i)); [repeat split; auto; discriminate |].
    destruct (hs_stall i); [repeat split; auto; discriminate |].
    destruct (hs_nak i); [repeat split; auto; discriminate |].
    destruct (rx_crc_mismatch i); [repeat split; auto; discriminate |].
    destruct (rx_next i && negb (Fifo.w_rdy (rx_fifo s)));
      destruct (rx_ready_for_response i);
      try destruct (response_eqb (response s) RX_OVERFLOW) eqn:Eo;
      repeat split; auto; try discriminate.
    intros _. apply SieFacts.response_eqb_eq in Eo. congruence.
  - (* WAIT_HANDSHAKE *)
    destruct (negb (sof_rxa i)); cbn [orb];
      [repeat split; try discriminate; try (intros [|]; discriminate); auto |].
    destruct (hs_stall i); cbn [orb];
      [repeat split; try discriminate; try (intros [|]; discriminate); auto |].
    destruct (hs_nak i); cbn [orb];
      [repeat split; try discriminate; try (intros [|]; discriminate); auto |].
    destruct (hs_ack i);
      repeat split; try discriminate; try (intros [|]; discriminate); auto.
  - (* SEND_ACK *)
    repeat split; try discriminate; try (intros [|]; discriminate); auto.
  - (* IPD_DRAIN_TX *)
    destruct ((ipd s =? ipd_max i - 1) && negb (Fifo.r_rdy (tx_fifo s)));
      repeat split; try discriminate; try (intros [|]; discriminate); auto.
Qed.

Lemma settled_run ins : forall s, settled s -> settled (run ins s).
Proof.
  induction ins as [| i ins IH]; intros s H; [exact H |].
  cbn [run]. apply IH, settled_step, H.
Qed.

Lemma settled_init : settled init.
Proof.
  repeat split; cbn; try discriminate; intros [|]; discriminate.
Qed.

Lemma idle_holds ins :
  forall s, st s = IDLE -> no_start ins = true ->
    st (run ins s) = IDLE /\ response (run ins s) = response s /\
    xfer_type (run ins s) = xfer_type s.
Proof.
  induction ins as [| i ins IH]; intros s Hs Hns; [auto |].
  cbn [no_start forallb] in Hns. apply andb_true_iff in Hns as [Hi Hns].
  apply negb_true_iff in Hi. cbn [run].
  destruct (IH (step i s)) as (A & B & C).
  - unfold step, next_st; cbn [st]. now rewrite Hs, Hi.
  - exact Hns.
  - rewrite A, B, C. unfold step, next_response, latch;
      cbn [response xfer_type]. now rewrite Hs, Hi.
Qed.

(** X10. The data phase of an OUT or SETUP transaction carries exactly the
    bytes that were in the Tx FIFO when the transfer was started, in their
    order, the first marked [first] and the last marked [last] (a single
    zero-length beat marked [last] if the FIFO was empty), whatever is written
    to the FIFO meanwhile and however the transmitter stalls: at every moment
    the beats handed over so far are a prefix of that packet, and the packet
    is complete exactly when the engine has moved on to the handshake. *)
Theorem out_data_is_the_tx_fifo (pre : list input) (i0 : input)
    (ins : list input) :
  let s := run pre init in
  st s = IDLE -> xfer_start i0 = true -> in_type i0 <> IN ->
  no_start ins = true ->
  exists rest,
    marks (tx_fifo s) = transmitted (i0 :: ins) s ++ rest /\
    (rest = [] <-> data_sent (st (run (i0 :: ins) s)) = true).
Proof.
  intros s Hs Hx Ht Hns.
  destruct (ipd_clear_run pre init ipd_clear_init) as [_ Hlen]. fold s in Hlen.
  assert (Hp : phase (tx_fifo s) (step i0 s) (marks (tx_fifo s))).
  { destruct (fifo_step_keeps_head (txs_valid i0) (txs_payload i0)
                (tx_fifo s) []) as (extra' & Hf').
    rewrite app_nil_r in Hf'.
    unfold phase, step, next_st, latch, next_tx_byte_count, tx_r_en;
      cbn [st xfer_type tx_len tx_byte_count tx_fifo].
    rewrite Hs, Hx, Hf'. repeat split; try assumption; eauto.
    unfold trunc, Fifo.w_level. apply Z.mod_small.
    unfold Fifo.fifo_depth in Hlen. change (2 ^ 8) with 256. lia. }
  destruct (phase_run _ ins _ _ Hp Hns) as (rest & Hp' & Hr).
  exists rest. split.
  - cbn [transmitted]. unfold emitted, tx_beat. rewrite Hs. exact Hr.
  - cbn [run]. exact (phase_rest _ _ _ Hp').
Qed.

Lemma out_data_is_the_tx_fifo_witness :
  exists rest,
    marks [7; 8; 9]
    = transmitted (start_out :: [quiet; txa_open; token_taken; token_done;
                                 tx_take; quiet; tx_take; tx_take])
                  (run [quiet; write 7; write 8; write 9] init) ++ rest /\
    (rest = [] <->
     data_sent (st (run (start_out :: [quiet; txa_open; token_taken; token_done;
                                       tx_take; quiet; tx_take; tx_take])
                        (run [quiet; write 7; write 8; write 9] init))) = true).
Proof.
  exact (out_data_is_the_tx_fifo [quiet; write 7; write 8; write 9] start_out
           [quiet; txa_open; token_taken; token_done;
            tx_take; quiet; tx_take; tx_take]
           eq_refl eq_refl ltac:(discriminate) eq_refl).
Defined.

(** X11. A transaction never ends without a response: when the engine
    returns to IDLE from the inter-packet delay, [status.response] is not
    NONE, it is the response the transaction ended with, and it stays there
    for as long as no transfer is started; after an OUT or SETUP
    transaction it is one of ACK, NAK, STALL and TIMEOUT. *)
Theorem transaction_has_response (pre : list input) (i : input)
    (w : list input) :
  let s := run pre init in
  st s = IPD_DRAIN_TX -> st (step i s) = IDLE -> no_start w = true ->
  let s' := run w (step i s) in
  status_idle s' = true /\ response s' = response s /\
  response s' <> NONE /\
  (xfer_type s' <> IN ->
   response s' = ACK \/ response s' = NAK \/ response s' = STALL \/
   response s' = TIMEOUT).
Proof.
  intros s Hs Hn Hw s'.
  destruct (settled_run pre init settled_init) as (H1 & _ & H3). fold s in H1, H3.
  destruct (idle_holds w (step i s) Hn Hw) as (A & B & C). fold s' in A, B, C.
  assert (Er : response (step i s) = response s).
  { unfold step, next_response; cbn [response]. now rewrite Hs. }
  assert (Et : xfer_type (step i s) = xfer_type s).
  { unfold step, latch; cbn [xfer_type]. now rewrite Hs. }
  rewrite Er in B. rewrite Et in C.
  split; [unfold status_idle; now rewrite A |].
  split; [exact B |].
  split; [rewrite B; exact (H1 Hs) |].
  intros Hx. rewrite B. rewrite C in Hx. specialize (H1 Hs).
  destruct (response s); try tauto; exfalso; apply Hx, H3; auto.
Qed.

Lemma transaction_has_response_witness :
  response (run [quiet; quiet]
              (step quiet (run (out_three ++ dev_ack :: repeat quiet 999) init)))
  = ACK.
Proof.
  refine (eq_trans (proj1 (proj2
    (transaction_has_response (out_three ++ dev_ack :: repeat quiet 999)
       quiet [quiet; quiet] _ _ eq_refl))) _);
    vm_compute; reflexivity.
Defined.

(** *** The inter-packet delay *)

Lemma Forall_firstn_keeps {A} (P : A -> Prop) k :
  forall l, Forall P l -> Forall P (firstn k l).
Proof.
  induction k as [| k IH]; intros l H; [constructor |].
  destruct H; cbn [firstn]; constructor; auto.
Qed.

Lemma ipd_len_bounds sp : 100 <= ipd_len sp <= 1000.
Proof.
  unfold ipd_len, _XFER_IPD_HS, _XFER_IPD_FS. destruct (is_high sp); lia.
Qed.

Lemma ipd_counts sp ins :
  forall s,
    st s = IPD_DRAIN_TX -> steady sp ins -> 0 <= ipd s ->
    ipd s + Z.of_nat (length ins) <= ipd_len sp - 1 ->
    st (run ins s) = IPD_DRAIN_TX /\
    ipd (run ins s) = ipd s + Z.of_nat (length ins) /\
    tx_fifo (run ins s) = skipn (length ins) (tx_fifo s).
Proof.
  induction ins as [| i ins IH]; intros s Hs Hst Hi Hn.
  - cbn. repeat split; [assumption | lia].
  - inversion Hst as [| ? ? [Hsp Hw] Hst']; subst.
    cbn [length] in Hn. pose proof (ipd_len_bounds (detected_speed i)) as Hb.
    assert (E : (ipd s =? ipd_max i - 1) = false).
    { apply Z.eqb_neq. unfold ipd_max. fold (ipd_len (detected_speed i)). lia. }
    destruct (IH (step i s)) as (A & B & C).
    + unfold step, next_st; cbn [st]. now rewrite Hs, E.
    + exact Hst'.
    + unfold step, next_ipd; cbn [ipd]. rewrite Hs, E. cbn [andb].
      unfold trunc. apply Z.mod_pos_bound. lia.
    + unfold step, next_ipd; cbn [ipd]. rewrite Hs, E. cbn [andb].
      unfold trunc. rewrite Z.mod_small by (change (2 ^ 10) with 1024; lia). lia.
    + cbn [run length]. rewrite A, B, C. split; [reflexivity |]. split.
      * unfold step, next_ipd; cbn [ipd]. rewrite Hs, E. cbn [andb].
        unfold trunc. rewrite Z.mod_small by (change (2 ^ 10) with 1024; lia). lia.
      * unfold step, tx_r_en; cbn [tx_fifo]. rewrite Hs, Hw.
        unfold Fifo.step. cbn [andb].
        destruct (tx_fifo s) as [| b f]; [now rewrite skipn_nil |].
        reflexivity.
Qed.

(** X12. The inter-packet delay: entered at any point of a run from
    power-up, and with nothing written to the Tx FIFO meanwhile, the state
    IPD_DRAIN_TX lasts exactly [_XFER_IPD] cycles (1000 at full speed, 100 at
    high speed); the engine is not idle before that, and returns to IDLE with
    the Tx FIFO empty and the delay counter cleared. *)
Theorem ipd_drains_tx (pre : list input) (i : input) (sp : USBHostSpeed)
    (ins : list input) :
  let s0 := run pre init in
  st s0 <> IPD_DRAIN_TX -> st (step i s0) = IPD_DRAIN_TX ->
  steady sp ins -> Z.of_nat (length ins) = ipd_len sp ->
  let s := step i s0 in
  (forall k, (k < length ins)%nat ->
     st (run (firstn k ins) s) = IPD_DRAIN_TX) /\
  st (run ins s) = IDLE /\ tx_fifo (run ins s) = [] /\ ipd (run ins s) = 0.
Proof.
  intros s0 Hs0 Hs Hst Hlen s.
  pose proof (ipd_len_bounds sp) as Hb.
  destruct (ipd_clear_run (pre ++ [i]) init ipd_clear_init) as [_ Hf].
  rewrite sie_run_app in Hf. cbn [run] in Hf. fold s0 in Hf. fold s in Hf.
  destruct (ipd_clear_run pre init ipd_clear_init) as [Hi0 _]. fold s0 in Hi0.
  assert (Hi : ipd s = 0).
  { unfold s, step, next_ipd; cbn [ipd].
    destruct (st s0) eqn:E; try (apply Hi0; discriminate). congruence. }
  assert (Hcount : forall v, Forall (fun i => detected_speed i = sp /\
                                              txs_valid i = false) v ->
            Z.of_nat (length v) <= ipd_len sp - 1 ->
            st (run v s) = IPD_DRAIN_TX /\
            ipd (run v s) = Z.of_nat (length v) /\
            tx_fifo (run v s) = skipn (length v) (tx_fifo s)).
  { intros v Hv Hn. destruct (ipd_counts sp v s Hs Hv) as (A & B & C); try lia.
    rewrite Hi in B. auto. }
  assert (Hfirst : forall k, Forall (fun i => detected_speed i = sp /\
                                              txs_valid i = false) (firstn k ins)).
  { intros k. apply Forall_firstn_keeps, Hst. }
  split.
  - intros k Hk. destruct (Hcount (firstn k ins) (Hfirst k)) as (A & _).
    + rewrite length_firstn. lia.
    + exact A.
  - set (n := (length ins - 1)%nat).
    destruct (Hcount (firstn n ins) (Hfirst n)) as (A & B & C).
    { rewrite length_firstn. lia. }
    rewrite length_firstn, Nat.min_l in B, C by lia.
    assert (Hempty : tx_fifo (run (firstn n ins) s) = []).
    { rewrite C. apply skipn_all2. unfold Fifo.fifo_depth in Hf. lia. }
    assert (Hsplit : exists x, ins = firstn n ins ++ [x] /\
                               detected_speed x = sp /\ txs_valid x = false).
    { rewrite <- (firstn_skipn n ins) in Hst. unfold steady in Hst.
      apply Forall_app in Hst as [_ Hst].
      assert (Hl : length (skipn n ins) = 1%nat) by (rewrite length_skipn; lia).
      destruct (skipn n ins) as [| x [| y r]] eqn:Ek; try discriminate.
      exists x. inversion Hst as [| ? ? [H1 H2] _].
      split; [| split; assumption].
      rewrite <- Ek. symmetry. apply firstn_skipn. }
    destruct Hsplit as (x & Hins & Hx1 & Hx2).
    rewrite Hins, sie_run_app. cbn [run].
    set (t := run (firstn n ins) s) in *.
    assert (Em : (ipd t =? ipd_max x - 1) = true).
    { apply Z.eqb_eq. unfold ipd_max. rewrite Hx1. fold (ipd_len sp). lia. }
    unfold step, next_st, next_ipd, tx_r_en; cbn [st ipd tx_fifo].
    rewrite A, Em, Hempty, Hx2. cbn. auto.
Qed.

Lemma ipd_drains_tx_witness :
  st (run (repeat quiet 1000) (step dev_ack (run out_three init))) = IDLE.
Proof.
  refine (proj1 (proj2
    (ipd_drains_tx out_three dev_ack FULL (repeat quiet 1000) _ _ _ _))).
  - vm_compute. discriminate.
  - vm_compute. reflexivity.
  - apply Forall_forall. intros x Hx. apply repeat_spec in Hx. subst x.
    split; reflexivity.
  - reflexivity.
Defined.

(** *** Emptying the Rx FIFO before a transfer *)

Lemma drain_rx_counts ins :
  forall s,
    st s = DRAIN_RX -> (length ins <= length (rx_fifo s))%nat ->
    st (run ins s) = DRAIN_RX /\
    rx_fifo (run ins s) = skipn (length ins) (rx_fifo s).
Proof.
  induction ins as [| i ins IH]; intros s Hs Hn; [auto |].
  cbn [length] in Hn.
  destruct (rx_fifo s) as [| b f] eqn:Ef; [cbn in Hn; lia |].
  destruct (IH (step i s)) as (A & B).
  - unfold step, next_st; cbn [st]. now rewrite Hs, Ef.
  - unfold step, rx_w_en, rx_r_en; cbn [rx_fifo]. rewrite Hs, Ef.
    cbn in *. lia.
  - cbn [run length]. rewrite A, B. split; [reflexivity |].
    unfold step, rx_w_en, rx_r_en; cbn [rx_fifo]. rewrite Hs, Ef.
    reflexivity.
Qed.

(** X13. Before the token of a new transfer is sent, what the consumer left
    in the Rx FIFO is thrown away: from DRAIN_RX the engine takes one byte
    per cycle off the FIFO, whatever the inputs, and moves on to WAIT_TXA in
    the cycle after the FIFO has become empty. *)
Theorem drain_rx_empties_rx_fifo (s : state) (ins : list input) :
  st s = DRAIN_RX -> length ins = S (length (rx_fifo s)) ->
  (forall k, (k <= length (rx_fifo s))%nat ->
     st (run (firstn k ins) s) = DRAIN_RX /\
     rx_fifo (run (firstn k ins) s) = skipn k (rx_fifo s)) /\
  st (run ins s) = WAIT_TXA /\ rx_fifo (run ins s) = [].
Proof.
  intros Hs Hlen.
  assert (Hk : forall k, (k <= length (rx_fifo s))%nat ->
     st (run (firstn k ins) s) = DRAIN_RX /\
     rx_fifo (run (firstn k ins) s) = skipn k (rx_fifo s)).
  { intros k Hk. destruct (drain_rx_counts (firstn k ins) s Hs) as (A & B).
    - rewrite length_firstn. lia.
    - rewrite length_firstn, Nat.min_l in B by lia. auto. }
  split; [exact Hk |].
  destruct (Hk (length (rx_fifo s)) (le_n _)) as (A & B).
  rewrite skipn_all in B.
  set (n := length (rx_fifo s)) in *.
  rewrite <- (firstn_skipn n ins), sie_run_app.
  assert (Hl : length (skipn n ins) = 1%nat) by (rewrite length_skipn; lia).
  destruct (skipn n ins) as [| x [| y r]]; try discriminate.
  cbn [run]. unfold step, next_st, rx_w_en, rx_r_en; cbn [st rx_fifo].
  rewrite A, B. auto.
Qed.

Lemma drain_rx_empties_rx_fifo_witness :
  let s := {| st := DRAIN_RX; xfer_type := IN; xfer_dev_addr := 1;
              xfer_ep_addr := 1; xfer_data_pid := DATA0; rx_len := 0;
              response := NONE; tx_len := 0; tx_byte_count := 0; ipd := 0;
              tx_fifo := []; rx_fifo := [4; 5; 6] |} in
  st (run [quiet; rx_byte 1; quiet; quiet] s) = WAIT_TXA /\
  rx_fifo (run [quiet; rx_byte 1; quiet; quiet] s) = [].
Proof.
  intros s.
  exact (proj2 (drain_rx_empties_rx_fifo s [quiet; rx_byte 1; quiet; quiet]
                  eq_refl eq_refl)).
Defined.

(** *** The receive side *)

Lemma rx_step_conserves i s :
  st s <> DRAIN_RX ->
  rx_fifo s ++ accepted i s = delivered i s ++ rx_fifo (step i s).
Proof.
  intros Hs. unfold accepted, delivered, step, rx_r_en; cbn [rx_fifo].
  assert (Er : (match st s with
                | DRAIN_RX => Fifo.r_rdy (rx_fifo s)
                | _ => rxs_ready i
                end) = rxs_ready i) by (destruct (st s); congruence).
  rewrite Er. unfold Fifo.step.
  assert (Ew : rx_w_en i s && Fifo.w_rdy (rx_fifo s) = rx_w_en i s).
  { unfold rx_w_en. destruct (st s); try reflexivity.
    destruct (rx_next i), (Fifo.w_rdy (rx_fifo s)); reflexivity. }
  rewrite Ew.
  destruct (rx_fifo s) as [| b f]; cbn [Fifo.r_rdy hd tl app];
    destruct (rxs_ready i), (rx_w_en i s); cbn [andb app];
    rewrite ?app_nil_r; reflexivity.
Qed.

Lemma no_drain_step i s :
  st s <> DRAIN_RX -> xfer_start i = false -> st (step i s) <> DRAIN_RX.
Proof.
  intros Hs Hi. unfold step, next_st, wait_in_data_next, wait_handshake_next;
    cbn [st].
  destruct (st s); try congruence; rewrite ?Hi;
    repeat match goal with
           | |- context [if ?b then _ else _] => destruct b
           | |- context [match ?x with SETUP => _ | _ => _ end] => destruct x
           end; discriminate.
Qed.

(** X14. Every byte the engine accepts from the receiver reaches the
    consumer once and in order: as long as no new transfer is started, what
    was in the Rx FIFO followed by the bytes written since equals the bytes
    the consumer has taken followed by what the Rx FIFO holds now. *)
Theorem rx_bytes_in_order (ins : list input) :
  forall s,
    st s <> DRAIN_RX -> no_start ins = true ->
    rx_fifo s ++ all_accepted ins s
    = all_delivered ins s ++ rx_fifo (run ins s).
Proof.
  induction ins as [| i ins IH]; intros s Hs Hns.
  - cbn. now rewrite app_nil_r.
  - cbn [no_start forallb] in Hns. apply andb_true_iff in Hns as [Hi Hns].
    apply negb_true_iff in Hi.
    cbn [all_accepted all_delivered run].
    rewrite app_assoc, (rx_step_conserves i s Hs), <- !app_assoc.
    f_equal. apply IH; [now apply no_drain_step | exact Hns].
Qed.

Lemma rx_bytes_in_order_witness :
  let s := run [start_in; quiet] idle0 in
  let ins := [txa_open; token_taken; token_done;
              rx_byte 10; reading 11; reading 12] in
  rx_fifo s ++ all_accepted ins s = all_delivered ins s ++ rx_fifo (run ins s).
Proof.
  intros s ins.
  refine (rx_bytes_in_order ins s _ eq_refl).
  vm_compute. discriminate.
Defined.

End SieStreamFacts.

(** ** The enumerator: setup packets, hand-over, bMaxPacketSize0 *)

Module EnumeratorStreamFacts.

Import Sie Enumerator EnumeratorStream.

Lemma enum_run_app da a :
  forall b s, run da (a ++ b) s = run da b (run da a s).
Proof.
  induction a as [| i a IH]; intros b s; cbn [app run];
    [reflexivity | apply IH].
Qed.

Lemma loaded_app da cn a :
  forall b s, loaded da cn (a ++ b) s
              = loaded da cn a s ++ loaded da cn b (run da a s).
Proof.
  induction a as [| i a IH]; intros b s; cbn [app loaded run];
    [reflexivity |].
  rewrite IH. destruct (txs_out da cn s); [destruct (txs_ready i) |];
    reflexivity.
Qed.

Lemma slice_cons {A} (d : A) a n (l : list A) :
  (a < length l)%nat ->
  slice a (S n) l = nth a l d :: slice (S a) n l.
Proof.
  unfold slice. revert l. induction a as [| a IH]; intros l Hl.
  - destruct l; [cbn in Hl; lia | reflexivity].
  - destruct l; [cbn in Hl; lia |]. cbn [skipn nth length] in *.
    apply IH. lia.
Qed.

Lemma stage_packet_length da cn g : length (stage_packet da cn g) = 8%nat.
Proof. destruct g; reflexivity. Qed.

(** each LOAD state reads the ROM at the offset of its own request *)
Lemma rom_lookup da cn g s :
  st s = load_state g -> 0 <= setup_byte_ix s <= 7 ->
  txs_out da cn s
  = Some (nth (Z.to_nat (setup_byte_ix s)) (stage_packet da cn g) 0).
Proof.
  intros Hs Hk. unfold txs_out, setup_offset. rewrite Hs.
  assert (H : setup_byte_ix s = 0 \/ setup_byte_ix s = 1 \/
              setup_byte_ix s = 2 \/ setup_byte_ix s = 3 \/
              setup_byte_ix s = 4 \/ setup_byte_ix s = 5 \/
              setup_byte_ix s = 6 \/ setup_byte_ix s = 7) by lia.
  destruct g; cbn [load_state];
    destruct H as [-> | [-> | [-> | [-> | [-> | [-> | [-> | ->]]]]]]];
    reflexivity.
Qed.

Lemma load_progress da cn g ins :
  forall s,
    st s = load_state g -> 0 <= setup_byte_ix s ->
    setup_byte_ix s + Z.of_nat (ready_count ins) <= 7 ->
    st (run da ins s) = load_state g /\
    setup_byte_ix (run da ins s) = setup_byte_ix s + Z.of_nat (ready_count ins) /\
    loaded da cn ins s
    = slice (Z.to_nat (setup_byte_ix s)) (ready_count ins) (stage_packet da cn g).
Proof.
  induction ins as [| i ins IH]; intros s Hs H0 Hn.
  - cbn. repeat split; [assumption | lia].
  - unfold ready_count in *. cbn [filter] in Hn |- *.
    cbn [run loaded]. rewrite (rom_lookup da cn g s Hs) by lia.
    destruct (txs_ready i) eqn:Er.
    + cbn [length] in Hn |- *.
      assert (Es : step da i s
                   = set_setup_byte_ix (setup_byte_ix s + 1) s).
      { unfold step. rewrite Hs.
        destruct g; cbn [load_state]; unfold make_load_setup_state;
          rewrite Er;
          (destruct (Z.eqb_spec (setup_byte_ix s) 7); [lia |]);
          unfold trunc; rewrite Z.mod_small
            by (change (2 ^ 3) with 8; lia); reflexivity. }
      rewrite Es.
      assert (IH' := IH (set_setup_byte_ix (setup_byte_ix s + 1) s) Hs).
      cbn [setup_byte_ix set_setup_byte_ix] in IH'.
      destruct IH' as (A & B & C); [lia | lia |].
      rewrite A, B, C.
      split; [reflexivity |]. split; [lia |].
      rewrite (slice_cons 0) by (rewrite stage_packet_length; lia).
      do 2 f_equal. lia.
    + assert (Es : step da i s = s).
      { unfold step. rewrite Hs.
        destruct g; cbn [load_state]; unfold make_load_setup_state;
          now rewrite Er. }
      rewrite Es. apply IH; assumption.
Qed.

(** X15. Each stage puts its own request into the Tx FIFO: from the LOAD
    state of a stage, however the FIFO stalls, the eight bytes written to
    [sie.ctrl.txs] are the eight bytes of that stage's setup packet -- GET
    DESCRIPTOR (device, 8), SET ADDRESS (the configured address), GET
    DESCRIPTOR (device, 18), GET DESCRIPTOR (configuration, 512), SET
    CONFIGURATION (the configured number) -- and with the eighth byte the
    enumerator moves to the stage's XFER state, its byte index back at 0. *)
Theorem load_state_writes_its_packet (da cn : Z) (g : stage)
    (ins : list input) (r : input) (s : state) :
  st s = load_state g -> setup_byte_ix s = 0 ->
  ready_count ins = 7%nat -> txs_ready r = true ->
  loaded da cn (ins ++ [r]) s = stage_packet da cn g /\
  st (run da (ins ++ [r]) s) = xfer_state g /\
  setup_byte_ix (run da (ins ++ [r]) s) = 0 /\
  (forall k, (k <= length ins)%nat -> st (run da (firstn k ins) s) = load_state g).
Proof.
  intros Hs H0 Hc Hr.
  destruct (load_progress da cn g ins s Hs) as (A & B & C);
    [lia | rewrite H0, Hc; cbn; lia |].
  rewrite H0, Hc in B, C. cbn in B.
  assert (Hlast : txs_out da cn (run da ins s)
                  = Some (nth 7 (stage_packet da cn g) 0)).
  { rewrite (rom_lookup da cn g _ A) by lia. now rewrite B. }
  assert (Es : step da r (run da ins s)
               = goto (xfer_state g) (set_setup_byte_ix 0 (run da ins s))).
  { unfold step. rewrite A.
    destruct g; cbn [load_state xfer_state]; unfold make_load_setup_state;
      rewrite Hr, B; reflexivity. }
  split; [| split; [| split]].
  - rewrite loaded_app, C. cbn [loaded]. rewrite Hlast, Hr.
    pose proof (stage_packet_length da cn g) as Hl.
    destruct (stage_packet da cn g) as [| b0 [| b1 [| b2 [| b3 [| b4 [| b5
      [| b6 [| b7 [| b8 l]]]]]]]]]; try discriminate.
    reflexivity.
  - rewrite enum_run_app. cbn [run]. now rewrite Es.
  - rewrite enum_run_app. cbn [run]. now rewrite Es.
  - intros k Hk.
    destruct (load_progress da cn g (firstn k ins) s Hs) as (A' & _);
      [lia | | exact A'].
    rewrite H0. unfold ready_count in *.
    assert (Hle : (length (filter txs_ready (firstn k ins))
                   <= length (filter txs_ready ins))%nat).
    { rewrite <- (firstn_skipn k ins) at 2. rewrite filter_app, length_app. lia. }
    lia.
Qed.

Lemma load_state_writes_its_packet_witness :
  loaded 0x12 1
    ([idle_cycle NONE 0; txs_stall; idle_cycle NONE 0; idle_cycle NONE 0;
      idle_cycle NONE 0; txs_stall; idle_cycle NONE 0; idle_cycle NONE 0;
      idle_cycle NONE 0] ++ [idle_cycle NONE 0])
    (at_state ENUM_SET_ADDRESS_LOAD 0 64)
  = [0; 5; 0x12; 0; 0; 0; 0; 0].
Proof.
  exact (proj1 (load_state_writes_its_packet 0x12 1 Stage2
    [idle_cycle NONE 0; txs_stall; idle_cycle NONE 0; idle_cycle NONE 0;
     idle_cycle NONE 0; txs_stall; idle_cycle NONE 0; idle_cycle NONE 0;
     idle_cycle NONE 0] (idle_cycle NONE 0)
    (at_state ENUM_SET_ADDRESS_LOAD 0 64) eq_refl eq_refl eq_refl eq_refl)).
Defined.

(** *** After enumeration *)

Ltac enum_gen :=
  unfold make_load_setup_state, make_setup_xfer_state, make_wait_ack_state,
    in_load, make_in_data_wait, make_multi_packet_in_wait,
    make_status_phase_wait, goto, set_enum_retry, set_setup_byte_ix,
    set_last_packet_byte;
  repeat match goal with
         | |- context [if ?b then _ else _] => destruct b
         | |- context [match status_response ?i with _ => _ end] =>
             destruct (status_response i)
         | |- context [match detected_speed ?i with _ => _ end] =>
             destruct (detected_speed i)
         end.

Lemma handed_over_step da i s :
  handed_over da s -> handed_over da (step da i s).
Proof.
  intros [He Ha]. unfold handed_over.
  assert (Hen : st s <> IDLE -> enumerated s = false).
  { intros Hn. destruct (enumerated s); [| reflexivity].
    exfalso. apply Hn, He. reflexivity. }
  destruct (st s) eqn:E; rewrite ?E in Ha; cbn [addressed] in Ha;
    first [specialize (Hen ltac:(discriminate)) | clear Hen];
    unfold step; rewrite ?E; enum_gen;
    cbn [st enumerated current_dev_addr addressed]; rewrite ?E, ?Hen;
    cbn [addressed];
    (split;
     [ split; intros H; first [discriminate | reflexivity | exact H
                              | apply He; reflexivity]
     | intros H; first [discriminate | exact (Ha eq_refl) | reflexivity] ]).
Qed.

Lemma handed_over_run da ins :
  forall s, handed_over da s -> handed_over da (run da ins s).
Proof.
  induction ins as [| i ins IH]; intros s H; [exact H |].
  cbn [run]. apply IH, handed_over_step, H.
Qed.

Lemma handed_over_init da : handed_over da init.
Proof.
  split; [split; discriminate | discriminate].
Qed.

Lemma idle_is_final da cn ins :
  forall s, st s = IDLE ->
    run da ins s = s /\ issued da ins s = [] /\ loaded da cn ins s = [].
Proof.
  induction ins as [| i ins IH]; intros s Hs; [auto |].
  assert (Es : step da i s = s) by (unfold step; now rewrite Hs).
  cbn [run issued loaded]. rewrite Es.
  unfold xfer_out, txs_out, setup_offset. rewrite Hs.
  destruct (status_idle i); apply IH, Hs.
Qed.

(** X16. The hand-over to the class driver: along any run from power-up,
    [status.enumerated] is asserted exactly when the enumerator is in IDLE;
    once there it stays there whatever the SIE reports, starts no transfer,
    writes nothing to the Tx FIFO and asks for no bus reset, and the address
    it reports is the configured device address (its low seven bits). *)
Theorem enumerated_means_handed_over (da cn : Z) (pre ins : list input) :
  let s := run da pre init in
  (enumerated s = true <-> st s = IDLE) /\
  (enumerated s = true ->
     run da ins s = s /\ issued da ins s = [] /\ loaded da cn ins s = [] /\
     bus_reset s = false /\ current_dev_addr s = trunc 7 da).
Proof.
  intros s.
  destruct (handed_over_run da pre init (handed_over_init da)) as [He Ha].
  fold s in He, Ha. split; [exact He |].
  intros H. apply He in H.
  destruct (idle_is_final da cn ins s H) as (A & B & C).
  repeat split; try assumption.
  - unfold bus_reset. now rewrite H.
  - apply Ha. now rewrite H.
Qed.

Lemma enumerated_means_handed_over_witness :
  st (run 0x12 ack_script init) = IDLE /\
  current_dev_addr (run 0x12 ack_script init) = 0x12.
Proof.
  split.
  - exact (proj1 (proj1 (enumerated_means_handed_over 0x12 1 ack_script []))
             eq_refl).
  - exact (proj2 (proj2 (proj2 (proj2
             (proj2 (enumerated_means_handed_over 0x12 1 ack_script [])
                eq_refl))))).
Defined.

(** X18. Every transfer the enumerator starts goes to endpoint 0, a SETUP
    transfer with DATA0 and any other with DATA1; it is addressed to device
    0 up to and including the status stage of SET ADDRESS, and to the
    configured address (its low seven bits) in every later stage, also when
    enumeration had to start over after an error. *)
Theorem transfers_use_the_right_address (da : Z) (pre : list input)
    (i : input) (t : Transfer) :
  let s := run da pre init in
  xfer_out i s = Some t ->
  ep_addr t = 0 /\
  (type t = SETUP <-> data_pid t = DATA0) /\
  dev_addr t = (if addressed (st s) then trunc 7 da else 0).
Proof.
  intros s Hx.
  destruct (handed_over_run da pre init (handed_over_init da)) as [_ Ha].
  fold s in Ha. unfold xfer_out in Hx.
  destruct (status_idle i); [| discriminate].
  destruct (st s); cbn [addressed] in *; try discriminate;
    try specialize (Ha eq_refl);
    injection Hx as <-; cbn [xfer_of ep_addr type data_pid dev_addr];
    (split; [reflexivity |]); (split; [| first [exact Ha | reflexivity]]);
    split; intros H; first [reflexivity | discriminate].
Qed.

Lemma transfers_use_the_right_address_witness :
  dev_addr (xfer_of SETUP DATA0 0x12) = 0x12.
Proof.
  exact (proj2 (proj2
    (transfers_use_the_right_address 0x12
       ([sof_63; sof_63] ++ repeat (idle_cycle ACK 2) 37)
       (idle_cycle ACK 2) (xfer_of SETUP DATA0 0x12) eq_refl))).
Defined.

(** *** bMaxPacketSize0 *)

Lemma wait_in_busy da ins :
  forall s,
    st s = ENUM_GET_DESC_DEVICE_WAIT_IN -> all_busy ins = true ->
    st (run da ins s) = ENUM_GET_DESC_DEVICE_WAIT_IN /\
    last_packet_byte (run da ins s) = last_valid ins (last_packet_byte s).
Proof.
  induction ins as [| i ins IH]; intros s Hs Hb; [auto |].
  cbn [all_busy forallb] in Hb. apply andb_true_iff in Hb as [Hi Hb].
  apply negb_true_iff in Hi.
  cbn [run]. unfold last_valid. cbn [fold_left].
  destruct (IH (step da i s)) as (A & B).
  - unfold step. rewrite Hs. unfold make_in_data_wait. rewrite Hi.
    destruct (rxs_valid i); exact Hs.
  - exact Hb.
  - rewrite A, B. split; [reflexivity |]. unfold last_valid. f_equal.
    unfold step. rewrite Hs. unfold make_in_data_wait. rewrite Hi.
    destruct (rxs_valid i); reflexivity.
Qed.

Lemma wait_status_busy da ins :
  forall s,
    st s = ENUM_GET_DESC_DEVICE_WAIT_STATUS -> all_busy ins = true ->
    run da ins s = s.
Proof.
  induction ins as [| i ins IH]; intros s Hs Hb; [reflexivity |].
  cbn [all_busy forallb] in Hb. apply andb_true_iff in Hb as [Hi Hb].
  apply negb_true_iff in Hi.
  assert (Es : step da i s = s).
  { unfold step. rewrite Hs. unfold make_status_phase_wait. now rewrite Hi. }
  cbn [run]. rewrite Es. now apply IH.
Qed.

Lemma last_valid_app a b x :
  last_valid (a ++ b) x = last_valid b (last_valid a x).
Proof. unfold last_valid. apply fold_left_app. Qed.

(** X17. bMaxPacketSize0: the packet size used for the later multi-packet
    reads is the last byte the SIE delivered on [rxs] during the IN data
    phase of the first GET DESCRIPTOR -- the eighth byte of the device
    descriptor when all eight bytes arrive -- and it is taken over once the
    status stage of that request has been acknowledged. *)
Theorem max_packet_size_is_last_byte (da : Z) (data : list input)
    (i1 i2 : input) (w : list input) (i3 i4 : input) (s : state) :
  st s = ENUM_GET_DESC_DEVICE_WAIT_IN ->
  all_busy data = true ->
  status_idle i1 = true -> status_response i1 <> NAK ->
  status_idle i2 = true ->
  all_busy w = true ->
  status_idle i3 = true -> status_response i3 = ACK ->
  let s' := run da (data ++ [i1; i2] ++ w ++ [i3; i4]) s in
  st s' = ENUM_GET_DESC_DEVICE_COMPLETE /\
  max_packet_size s' = last_valid (data ++ [i1]) (last_packet_byte s) /\
  max_packet_size (run da (data ++ [i1; i2] ++ w ++ [i3]) s)
  = max_packet_size s.
Proof.
  intros Hs Hd H1 H1r H2 Hw H3 H3r s'.
  destruct (wait_in_busy da data s Hs Hd) as (A & B).
  set (t := run da data s) in *.
  set (b := if rxs_valid i1 then rxs_payload i1 else last_packet_byte t).
  assert (E1 : step da i1 t
               = goto ENUM_GET_DESC_DEVICE_STATUS (set_last_packet_byte b t)).
  { unfold step. rewrite A. unfold make_in_data_wait. rewrite H1. subst b.
    destruct (status_response i1), (rxs_valid i1); try congruence;
      destruct t; reflexivity. }
  set (t1 := goto ENUM_GET_DESC_DEVICE_STATUS (set_last_packet_byte b t)) in *.
  assert (E2 : step da i2 t1 = goto ENUM_GET_DESC_DEVICE_WAIT_STATUS t1).
  { unfold step. cbn [st t1 goto]. unfold in_load. now rewrite H2. }
  set (t2 := goto ENUM_GET_DESC_DEVICE_WAIT_STATUS t1) in *.
  assert (E3 : run da w t2 = t2) by (apply wait_status_busy; auto).
  assert (E4 : step da i3 t2 = goto ENUM_GET_DESC_DEVICE_SET_MPS t2).
  { unfold step. cbn [st t2 goto]. unfold make_status_phase_wait.
    now rewrite H3, H3r. }
  assert (Hb : b = last_valid (data ++ [i1]) (last_packet_byte s)).
  { rewrite last_valid_app, <- B. reflexivity. }
  assert (Hm : max_packet_size t = max_packet_size s).
  { clear -Hs Hd. subst t. revert s Hs Hd.
    induction data as [| i data IH]; intros s Hs Hd; [reflexivity |].
    cbn [all_busy forallb] in Hd. apply andb_true_iff in Hd as [Hi Hd].
    apply negb_true_iff in Hi. cbn [run].
    assert (Hst : st (step da i s) = ENUM_GET_DESC_DEVICE_WAIT_IN /\
                  max_packet_size (step da i s) = max_packet_size s).
    { unfold step. rewrite Hs. unfold make_in_data_wait. rewrite Hi.
      destruct (rxs_valid i); split; auto. }
    destruct Hst as [Hst Hmm]. rewrite (IH _ Hst Hd). exact Hmm. }
  split; [| split].
  - subst s'. rewrite enum_run_app. fold t.
    cbn [app run]. rewrite E1, E2. rewrite enum_run_app, E3.
    cbn [run]. rewrite E4. reflexivity.
  - subst s'. rewrite enum_run_app. fold t.
    cbn [app run]. rewrite E1, E2. rewrite enum_run_app, E3.
    cbn [run]. rewrite E4. cbn. exact Hb.
  - rewrite enum_run_app. fold t.
    cbn [app run]. rewrite E1, E2. rewrite enum_run_app, E3.
    cbn [run]. rewrite E4. cbn. exact Hm.
Qed.

Lemma max_packet_size_is_last_byte_witness :
  max_packet_size
    (run 0x12 (map rx_cycle [18; 1; 0; 2; 0; 0; 0; 8]
               ++ [idle_cycle ACK 8; idle_cycle ACK 8]
               ++ [busy_cycle; busy_cycle]
               ++ [idle_cycle ACK 0; idle_cycle ACK 0])
         (at_state ENUM_GET_DESC_DEVICE_WAIT_IN 0 64))
  = 8.
Proof.
  exact (proj1 (proj2 (max_packet_size_is_last_byte 0x12
    (map rx_cycle [18; 1; 0; 2; 0; 0; 0; 8])
    (idle_cycle ACK 8) (idle_cycle ACK 8) [busy_cycle; busy_cycle]
    (idle_cycle ACK 0) (idle_cycle ACK 0)
    (at_state ENUM_GET_DESC_DEVICE_WAIT_IN 0 64)
    eq_refl eq_refl eq_refl ltac:(discriminate) eq_refl eq_refl
    eq_refl eq_refl))).
Defined.

End EnumeratorStreamFacts.

(** ** The descriptor parser against a walk over whole descriptors *)

Module ParserSpecFacts.

Import Parser ParserSpec.

Lemma firstn_snoc {A} (d : A) n (l : list A) :
  (n < length l)%nat -> firstn (S n) l = firstn n l ++ [nth n l d].
Proof.
  revert l. induction n as [| n IH]; intros l H.
  - destruct l; [cbn in H; lia | reflexivity].
  - destruct l as [| x l]; [cbn in H; lia |].
    cbn [firstn nth app]. f_equal. apply IH. cbn in H. lia.
Qed.

Section Configured.

Variable c : config.

Ltac decide_all :=
  repeat match goal with
         | |- context [Z.leb ?a ?b] => destruct (Z.leb_spec a b)
         | |- context [Z.eqb ?a ?b] => destruct (Z.eqb_spec a b)
         end.

(** one byte inside a descriptor, before its last *)
Lemma track_step d s k :
  0 <= k -> k < nth 0 d 0 - 2 -> nth 0 d 0 <= 255 ->
  step c (byte_in (nth (Z.to_nat (k + 1)) d 0)) (track c d k s)
  = track c d (k + 1) s.
Proof.
  intros H0 Hk HL.
  unfold step. cbn [st track byte_in i_valid i_payload].
  unfold in_descriptor_byte, capturing_in, capturing_out, is_endpoint_end,
    at_end. cbn [st track bLength offset desc_type iface_class iface_subclass
                 iface_protocol in_matching_interface endp_addr endp_attr
                 found_in found_out o_i_endp o_o_endp o_valid].
  destruct (Z.eqb_spec k (nth 0 d 0 - 2)) as [E | _]; [lia |].
  cbn [andb]. rewrite !orb_false_r.
  unfold track, DescriptorType_INTERFACE, DescriptorType_ENDPOINT.
  assert (Ho : trunc 8 (k + 1) = k + 1).
  { apply trunc_small. change (2 ^ 8) with 256. lia. }
  rewrite Ho.
  f_equal.
  - decide_all; try lia; try reflexivity.
    replace k with 0 by lia. reflexivity.
  - decide_all; cbn [andb]; try lia; try reflexivity; try congruence.
    replace k with 4 by lia. reflexivity.
  - destruct (interface_subclass c); [| reflexivity].
    decide_all; cbn [andb]; try lia; try reflexivity; try congruence.
    replace k with 5 by lia. reflexivity.
  - destruct (interface_protocol c); [| reflexivity].
    decide_all; cbn [andb]; try lia; try reflexivity; try congruence.
    replace k with 6 by lia. reflexivity.
  - decide_all; cbn [andb]; try lia; try reflexivity; try congruence.
    replace k with 1 by lia. reflexivity.
  - decide_all; cbn [andb]; try lia; try reflexivity; try congruence.
    replace k with 2 by lia. reflexivity.
Qed.

(** bLength and the first [n] bytes after it *)
Lemma track_reach d s n :
  st s = GET_LEN -> nth 0 d 0 <= 255 ->
  Z.of_nat n <= nth 0 d 0 - 2 -> (S n < length d)%nat ->
  feed c (firstn (S n) d) s = track c d (Z.of_nat n) s.
Proof.
  intros Hs HL. induction n as [| n IH]; intros Hn Hlen.
  - destruct d as [| len body]; [cbn in Hlen; lia |].
    unfold feed. cbn [firstn map run]. unfold step. rewrite Hs.
    cbn [byte_in i_valid i_payload]. unfold track. cbn [nth Z.of_nat].
    f_equal.
    + destruct (interface_subclass c); reflexivity.
    + destruct (interface_protocol c); reflexivity.
  - rewrite (firstn_snoc 0) by lia.
    rewrite (ParserFacts.feed_app c), IH by lia.
    unfold feed. cbn [map run].
    replace (S n) with (Z.to_nat (Z.of_nat n + 1)) at 1 by lia.
    rewrite track_step by lia.
    f_equal. lia.
Qed.

(** the last byte of a descriptor *)
Lemma last_byte d s a b :
  3 <= nth 0 d 0 ->
  (d_type d = DescriptorType_INTERFACE -> 9 <= nth 0 d 0) ->
  (d_type d = DescriptorType_ENDPOINT -> 5 <= nth 0 d 0) ->
  agrees s a -> complete c a = false -> o_valid s = false ->
  let s' := step c (byte_in b) (track c d (nth 0 d 0 - 2) s) in
  agrees s' (see c d a) /\
  st s' = (if complete c (see c d a) then DONE else GET_LEN) /\
  o_valid s' = complete c (see c d a).
Proof.
  intros H3 H9 H5 (Am & Ai & Ao & Axi & Axo) Hc Hv s'. subst s'.
  unfold step. cbn [st track byte_in i_valid i_payload].
  unfold in_descriptor_byte, all_found, capturing_in, capturing_out,
    is_endpoint_end, type_match, interface_match, at_end.
  cbn [st track bLength offset desc_type iface_class iface_subclass
       iface_protocol in_matching_interface endp_addr endp_attr
       found_in found_out o_i_endp o_o_endp o_valid].
  rewrite Z.eqb_refl. cbn [andb].
  destruct (Z.leb_spec 1 (nth 0 d 0 - 2)) as [_ | ?]; [| lia].
  unfold agrees, see, complete, iface_ok, endpoint_ok, d_type in *.
  cbn [in_matching_interface found_in found_out o_i_endp o_o_endp].
  rewrite Am, Ai, Ao, Hv.
  unfold DescriptorType_INTERFACE, DescriptorType_ENDPOINT in *.
  destruct (Z.eqb_spec (nth 1 d 0) 4) as [E4 | N4].
  - (* an interface descriptor *)
    specialize (H9 E4).
    destruct (Z.eqb_spec (nth 1 d 0) 5) as [E5 | _]; [congruence |].
    destruct (Z.leb_spec 5 (nth 0 d 0 - 2)); [| lia].
    destruct (Z.leb_spec 6 (nth 0 d 0 - 2)); [| lia].
    destruct (Z.leb_spec 7 (nth 0 d 0 - 2)); [| lia].
    cbn [andb negb matching f_in f_out]. rewrite !orb_false_r. rewrite Hc.
    assert (Em : (nth 5 d 0 =? interface_class c)
                 && match interface_subclass c with
                    | Some sc =>
                        match interface_subclass c with
                        | Some _ => nth 6 d 0
                        | None => iface_subclass s
                        end =? sc
                    | None => true
                    end
                 && match interface_protocol c with
                    | Some p =>
                        match interface_protocol c with
                        | Some _ => nth 7 d 0
                        | None => iface_protocol s
                        end =? p
                    | None => true
                    end
                 = (nth 5 d 0 =? interface_class c)
                   && match interface_subclass c with
                      | Some sc => nth 6 d 0 =? sc
                      | None => true
                      end
                   && match interface_protocol c with
                      | Some p => nth 7 d 0 =? p
                      | None => true
                      end).
    { destruct (interface_subclass c), (interface_protocol c); reflexivity. }
    rewrite Em. repeat split; auto.
  - destruct (Z.eqb_spec (nth 1 d 0) 5) as [E5 | N5].
    + (* an endpoint descriptor *)
      specialize (H5 E5).
      destruct (Z.leb_spec 2 (nth 0 d 0 - 2)); [| lia].
      destruct (Z.leb_spec 3 (nth 0 d 0 - 2)); [| lia].
      cbn [andb negb].
      destruct a as [m fi fo]. cbn [matching f_in f_out] in *.
      unfold want_in, want_out in *.
      destruct m; cbn [andb];
        destruct (EndpointAttributes_transfer_type (nth 3 d 0)
                  =? transfer_type c); cbn [andb];
        destruct (EndpointAddress_direction_in (nth 2 d 0)); cbn [andb negb];
        destruct (endpoint_filter c); cbn [andb orb negb];
        destruct fi as [xi |], fo as [xo |];
        cbn [is_some keep_first andb orb negb matching f_in f_out] in *;
        try discriminate;
        repeat split; intros; try congruence; auto.
    + (* any other descriptor *)
      cbn [andb negb]. rewrite !orb_false_r. rewrite Hc.
      repeat split; auto.
Qed.

(** one whole descriptor *)
Lemma one_descriptor d s a :
  well_formed d = true -> st s = GET_LEN ->
  agrees s a -> complete c a = false -> o_valid s = false ->
  agrees (feed c d s) (see c d a) /\
  st (feed c d s) = (if complete c (see c d a) then DONE else GET_LEN) /\
  o_valid (feed c d s) = complete c (see c d a).
Proof.
  intros Hw Hs Ha Hc Hv.
  destruct d as [| len body]; [discriminate |].
  unfold well_formed in Hw.
  apply andb_true_iff in Hw as [Hw W5].
  apply andb_true_iff in Hw as [Hw W9].
  apply andb_true_iff in Hw as [Hw Wl].
  apply andb_true_iff in Hw as [W3 W255].
  apply Z.leb_le in W3, W255. apply Z.eqb_eq in Wl.
  set (d := len :: body) in *.
  assert (Hlen : Z.of_nat (length d) = len) by (subst d; cbn [length]; lia).
  set (n := Z.to_nat (len - 2)).
  assert (Hd : d = firstn (S n) d ++ [nth (S n) d 0]).
  { rewrite <- (firstn_snoc 0) by lia.
    symmetry. apply firstn_all2. lia. }
  assert (Ef : feed c d s
               = step c (byte_in (nth (S n) d 0))
                      (track c d (nth 0 d 0 - 2) s)).
  { transitivity (feed c (firstn (S n) d ++ [nth (S n) d 0]) s);
      [now rewrite <- Hd |].
    rewrite (ParserFacts.feed_app c).
    rewrite track_reach;
      [| exact Hs | cbn; lia | unfold d; cbn [nth]; lia | lia].
    replace (Z.of_nat n) with (nth 0 d 0 - 2) by (unfold d; cbn [nth]; lia).
    reflexivity. }
  rewrite Ef.
  apply last_byte; try assumption.
  - intros E. rewrite E, Z.eqb_refl in W9. apply Z.leb_le in W9. exact W9.
  - intros E. rewrite E, Z.eqb_refl in W5. apply Z.leb_le in W5. exact W5.
Qed.

Lemma complete_nothing : complete c nothing = false.
Proof.
  unfold complete, nothing, want_in, want_out. cbn.
  destruct (endpoint_filter c); reflexivity.
Qed.

Lemma whole_configuration ds :
  forall s a,
    forallb well_formed ds = true -> st s = GET_LEN ->
    agrees s a -> complete c a = false -> o_valid s = false ->
    agrees (feed c (concat ds) s) (survey c ds a) /\
    st (feed c (concat ds) s)
    = (if complete c (survey c ds a) then DONE else GET_LEN) /\
    o_valid (feed c (concat ds) s) = complete c (survey c ds a).
Proof.
  induction ds as [| d ds IH]; intros s a Hw Hs Ha Hc Hv.
  - cbn. rewrite Hc. auto.
  - cbn [forallb] in Hw. apply andb_true_iff in Hw as [Hd Hw].
    destruct (one_descriptor d s a Hd Hs Ha Hc Hv) as (A & B & C).
    cbn [concat survey]. rewrite (ParserFacts.feed_app c).
    destruct (complete c (see c d a)) eqn:E.
    + assert (Ef : feed c (concat ds) (feed c d s) = feed c d s)
        by (unfold feed at 1; apply ParserFacts.done_fixed_run; exact B).
      rewrite !Ef, E. auto.
    + apply IH; assumption.
Qed.

(** X19. The parser finds what a walk over whole descriptors finds.  For a
    configuration made of well-formed descriptors, streamed one byte per
    cycle after [enable], the parser ends with [o.valid] set exactly if the
    walk is complete, in DONE then and waiting for the next bLength
    otherwise, and its endpoint outputs are those of the walk: per wanted
    direction the first endpoint of the wanted transfer type that follows an
    interface descriptor of the wanted class (and subclass and protocol, if
    given), no descriptor being looked at after the one that completes the
    search. *)
Theorem parser_finds_first_endpoints (ds : list (list Z)) :
  forallb well_formed ds = true ->
  let s := feed c (concat ds) (started c) in
  let a := survey c ds nothing in
  o_valid s = complete c a /\
  st s = (if complete c a then DONE else GET_LEN) /\
  (forall x, f_in a = Some x -> o_i_endp s = x) /\
  (forall x, f_out a = Some x -> o_o_endp s = x) /\
  found_in s = is_some (f_in a) /\ found_out s = is_some (f_out a).
Proof.
  intros Hw s a.
  destruct (whole_configuration ds (started c) nothing Hw) as (A & B & C).
  - reflexivity.
  - repeat split; intros; discriminate.
  - apply complete_nothing.
  - reflexivity.
  - destruct A as (_ & Ai & Ao & Axi & Axo).
    repeat split; assumption.
Qed.

End Configured.

Lemma parser_finds_first_endpoints_witness :
  let s := feed MSCDescriptorParser (concat msc_config_descriptors)
                (started MSCDescriptorParser) in
  o_valid s = true /\ o_i_endp s = 0x81 /\ o_o_endp s = 0x02.
Proof.
  intros s.
  destruct (parser_finds_first_endpoints MSCDescriptorParser
              msc_config_descriptors eq_refl) as (A & _ & B & C & _).
  split; [exact A |].
  split; [exact (B 0x81 eq_refl) | exact (C 0x02 eq_refl)].
Defined.

End ParserSpecFacts.

(** ** The keyboard engine: report assembly, repeated reports, watchdog,
       and C9 as the code has it *)

Module KeyboardRunFacts.

Import Sie Keyboard KeyboardRun.

Lemma kbd_run_app a : forall b s, run (a ++ b) s = run b (run a s).
Proof.
  induction a as [| i a IH]; intros b s; cbn [app run];
    [reflexivity | apply IH].
Qed.

Lemma emitted_app a :
  forall b s, emitted (a ++ b) s = emitted a s ++ emitted b (run a s).
Proof.
  induction a as [| i a IH]; intros b s; cbn [app emitted run];
    [reflexivity |].
  rewrite IH. destruct (o_report s); [destruct (o_report_ready i) |];
    reflexivity.
Qed.

Lemma not_expired s :
  0 <= watchdog s < _WATCHDOG_CYCLES - 1 -> watchdog_expired s = false.
Proof. intros H. unfold watchdog_expired. apply Z.eqb_neq. lia. Qed.

Lemma array_set_length l : forall k v, length (array_set l k v) = length l.
Proof.
  induction l as [| h t IH]; intros k v; [reflexivity |].
  destruct k; cbn [array_set length]; [reflexivity | now rewrite IH].
Qed.

Lemma write_at_high bytes :
  forall c arr, KEYBOARD_REPORT_SIZE <= c -> write_at c bytes arr = arr.
Proof.
  induction bytes as [| b r IH]; intros c arr Hc; [reflexivity |].
  cbn [write_at]. destruct (Z.ltb_spec c KEYBOARD_REPORT_SIZE); [lia |].
  apply IH. lia.
Qed.

(** eight bytes or more fill the whole report; what follows is dropped *)
Lemma write_at_full bytes arr :
  length arr = 8%nat -> (8 <= length bytes)%nat ->
  write_at 0 bytes arr = firstn 8 bytes.
Proof.
  intros Ha Hb.
  destruct arr as [| a0 [| a1 [| a2 [| a3 [| a4 [| a5 [| a6 [| a7 [| a8 arr]]]]]]]]];
    try discriminate.
  destruct bytes as [| b0 [| b1 [| b2 [| b3 [| b4 [| b5 [| b6 [| b7 r]]]]]]]];
    cbn [length] in Hb; try lia.
  cbn [write_at]. cbn. apply write_at_high. unfold KEYBOARD_REPORT_SIZE. lia.
Qed.

Lemma write_at_length bytes :
  forall c arr, length (write_at c bytes arr) = length arr.
Proof.
  induction bytes as [| b r IH]; intros c arr; [reflexivity |].
  cbn [write_at]. rewrite IH.
  destruct (c <? KEYBOARD_REPORT_SIZE); [apply array_set_length | reflexivity].
Qed.

(** *** Receiving the bytes of a poll *)

Lemma rx_progress ins :
  forall s,
    st s = KBD_POLL -> receiving (l_sof_frame s) ins = true ->
    0 <= watchdog s ->
    watchdog s + Z.of_nat (length ins) < _WATCHDOG_CYCLES - 1 ->
    0 <= rx_byte_count s ->
    rx_byte_count s + Z.of_nat (length (received ins)) <= 15 ->
    let s' := run ins s in
    st s' = KBD_POLL /\
    rx_byte_count s' = rx_byte_count s + Z.of_nat (length (received ins)) /\
    report_bytes s'
    = write_at (rx_byte_count s) (received ins) (report_bytes s) /\
    pid s' = pid s /\ l_sof_frame s' = l_sof_frame s /\
    0 <= watchdog s' <= watchdog s + Z.of_nat (length ins) /\
    emitted ins s = [].
Proof.
  induction ins as [| i ins IH]; intros s Hs Hr Hw0 Hw Hc0 Hc.
  - cbn. repeat split; try assumption; lia.
  - cbn [receiving forallb] in Hr. apply andb_true_iff in Hr as [Hi Hr].
    apply andb_true_iff in Hi as [Hp Ha].
    apply negb_true_iff in Hp, Ha.
    cbn [length] in Hw. unfold received in Hc |- *. cbn [filter] in Hc |- *.
    assert (He : watchdog_expired s = false) by (apply not_expired; lia).
    assert (Hpn : poll_now i s = false) by exact Hp.
    set (n := if rxs_valid i then 1 else 0).
    assert (Hn : Z.of_nat (length (map rxs_payload
                    (if rxs_valid i then i :: filter rxs_valid ins
                     else filter rxs_valid ins)))
                 = n + Z.of_nat (length (map rxs_payload (filter rxs_valid ins)))).
    { subst n. destruct (rxs_valid i); cbn [map length]; lia. }
    rewrite Hn in Hc.
    assert (Es : st (step i s) = KBD_POLL /\
                 rx_byte_count (step i s) = rx_byte_count s + n /\
                 report_bytes (step i s)
                 = (if rxs_valid i
                    then (if rx_byte_count s <? KEYBOARD_REPORT_SIZE
                          then array_set (report_bytes s)
                                 (Z.to_nat (rx_byte_count s)) (rxs_payload i)
                          else report_bytes s)
                    else report_bytes s) /\
                 pid (step i s) = pid s /\
                 l_sof_frame (step i s) = l_sof_frame s /\
                 0 <= watchdog (step i s) <= watchdog s + 1).
    { unfold step. rewrite He. unfold step_no_reset. rewrite Hs, Hpn, Ha.
      cbn [st rx_byte_count report_bytes pid l_sof_frame watchdog andb orb].
      unfold rx_count_after_rx, next_report_bytes, rx_fire, rxs_ready.
      rewrite Hs. subst n.
      assert (Ht : trunc 32 (watchdog s + 1) = watchdog s + 1).
      { apply trunc_small. unfold _WATCHDOG_CYCLES in Hw.
        change (2 ^ 32) with 4294967296. lia. }
      destruct (rxs_valid i); cbn [andb].
      - rewrite trunc_small by (change (2 ^ 4) with 16; lia).
        repeat split; try lia;
          destruct (is_nak (status_response i)); rewrite ?Ht; lia.
      - repeat split; try lia;
          destruct (is_nak (status_response i)); rewrite ?Ht; lia. }
    destruct Es as (E1 & E2 & E3 & E4 & E5 & E6).
    assert (Hn01 : 0 <= n <= 1) by (subst n; destruct (rxs_valid i); lia).
    assert (IH' : let s' := run ins (step i s) in _) by
      (apply (IH (step i s) E1); unfold received;
       [rewrite E5; exact Hr | lia | lia | lia | lia]).
    cbv zeta in IH'. destruct IH' as (A & B & C & D & E & F & G).
    cbn [run emitted]. unfold o_report at 1. rewrite Hs.
    cbv zeta. rewrite A, B, C, D, E, G, E2, E3, E4, E5.
    unfold received in *. cbn [length] in *.
    repeat split; try lia.
    destruct (rxs_valid i); cbn [map write_at]; subst n;
      rewrite ?Z.add_0_r; reflexivity.
Qed.

(** X20. One poll, one report: after a poll has been started, the bytes
    the SIE delivers are stored in order, and when the SIE then shows ACK the
    engine offers the report made of the first eight of them, bytes nine to
    fifteen being dropped, and the data PID is toggled once; if fewer than
    eight bytes arrived, nothing is offered. *)
Theorem report_is_first_eight_bytes (s : state) (i0 : input)
    (ins : list input) (ack take : input) :
  st s = KBD_POLL -> length (report_bytes s) = 8%nat ->
  0 <= watchdog s ->
  watchdog s + Z.of_nat (length ins) + 3 < _WATCHDOG_CYCLES - 1 ->
  poll_now i0 s = true -> rxs_valid i0 = false ->
  receiving (status_sof_frame i0) ins = true ->
  (length (received ins) <= 15)%nat ->
  polls (status_sof_frame i0) ack = false ->
  status_response ack = ACK -> rxs_valid ack = false ->
  o_report_ready take = true ->
  ((8 <= length (received ins))%nat ->
     emitted (i0 :: ins ++ [ack; take]) s
     = [report_from (firstn 8 (received ins))] /\
     st (run (i0 :: ins ++ [ack; take]) s) = KBD_POLL /\
     pid (run (i0 :: ins ++ [ack; take]) s) = toggle (pid s)) /\
  ((length (received ins) < 8)%nat ->
     emitted (i0 :: ins ++ [ack]) s = [] /\
     st (run (i0 :: ins ++ [ack]) s) = KBD_POLL).
Proof.
  intros Hs Hl Hw0 Hw Hp Hv0 Hr Hn Hpa Ha Hva Ht.
  assert (He : watchdog_expired s = false) by (apply not_expired; lia).
  set (s1 := step i0 s).
  assert (E1 : st s1 = KBD_POLL /\ rx_byte_count s1 = 0 /\
               report_bytes s1 = report_bytes s /\ pid s1 = pid s /\
               l_sof_frame s1 = status_sof_frame i0 /\
               watchdog s1 = watchdog s + 1).
  { subst s1. unfold step. rewrite He. unfold step_no_reset. rewrite Hs, Hp.
    cbn [st rx_byte_count report_bytes pid l_sof_frame watchdog].
    unfold next_report_bytes, rx_fire. rewrite Hv0. cbn [andb].
    repeat split. apply trunc_small. unfold _WATCHDOG_CYCLES in Hw.
    change (2 ^ 32) with 4294967296. lia. }
  destruct E1 as (A1 & B1 & C1 & D1 & F1 & G1).
  assert (P : let s' := run ins s1 in _) by
    (apply (rx_progress ins s1 A1);
     [rewrite F1; exact Hr | lia | lia | lia | lia]).
  cbv zeta in P. destruct P as (A & B & C & D & E & F & G).
  set (s2 := run ins s1) in *.
  rewrite B1 in B, C. rewrite Z.add_0_l in B. rewrite C1 in C.
  assert (He2 : watchdog_expired s2 = false) by (apply not_expired; lia).
  assert (Hpn : poll_now ack s2 = false).
  { unfold poll_now. rewrite E, F1. exact Hpa. }
  split.
  - intros H8.
    assert (Ef : report_bytes s2 = firstn 8 (received ins))
      by (rewrite C; apply write_at_full; assumption).
    set (s3 := step ack s2).
    assert (E3 : st s3 = EMIT_REPORT /\ report_bytes s3 = report_bytes s2 /\
                 pid s3 = toggle (pid s2) /\ watchdog s3 = 0).
    { subst s3. unfold step. rewrite He2. unfold step_no_reset.
      rewrite A, Hpn, Ha.
      cbn [st report_bytes pid watchdog is_ack is_nak andb orb].
      unfold next_report_bytes, rx_fire. rewrite Hva. cbn [andb].
      destruct (Z.leb_spec KEYBOARD_REPORT_SIZE (rx_byte_count s2)) as [_ | Hlt];
        [repeat split | unfold KEYBOARD_REPORT_SIZE in Hlt; lia]. }
    destruct E3 as (A3 & B3 & C3 & D3).
    assert (He3 : watchdog_expired s3 = false).
    { apply not_expired. rewrite D3. unfold _WATCHDOG_CYCLES. lia. }
    cbn [emitted run]. unfold o_report at 1. rewrite Hs. fold s1.
    rewrite emitted_app, kbd_run_app, G. fold s2.
    cbn [emitted run app]. unfold o_report at 1. rewrite A. fold s3.
    unfold o_report at 1. rewrite A3, Ht.
    split; [| split].
    + f_equal. unfold report_of. rewrite B3, Ef. reflexivity.
    + unfold step. rewrite He3. unfold step_no_reset. rewrite A3, Ht.
      reflexivity.
    + unfold step. rewrite He3. unfold step_no_reset. rewrite A3.
      cbn [pid]. now rewrite C3, D, D1.
  - intros H8.
    cbn [emitted run]. unfold o_report at 1. rewrite Hs. fold s1.
    rewrite emitted_app, kbd_run_app, G. fold s2.
    cbn [emitted run app]. unfold o_report at 1. rewrite A.
    split; [reflexivity |].
    unfold step. rewrite He2. unfold step_no_reset. rewrite A, Hpn, Ha.
    cbn [st is_ack andb].
    destruct (Z.leb_spec KEYBOARD_REPORT_SIZE (rx_byte_count s2)) as [Hge | _];
      [unfold KEYBOARD_REPORT_SIZE in Hge; lia | reflexivity].
Qed.

Lemma report_is_first_eight_bytes_witness :
  emitted (kcycle true NONE 1 None false
           :: map (fun b => kcycle false NONE 1 (Some b) false)
                  [2; 0; 4; 5; 0; 0; 0; 0; 9; 9]
           ++ [kcycle true ACK 1 None false; kcycle true ACK 1 None true])
          polling
  = [report_from [2; 0; 4; 5; 0; 0; 0; 0]].
Proof.
  refine (proj1 (proj1 (report_is_first_eight_bytes polling
    (kcycle true NONE 1 None false)
    (map (fun b => kcycle false NONE 1 (Some b) false)
         [2; 0; 4; 5; 0; 0; 0; 0; 9; 9])
    (kcycle true ACK 1 None false) (kcycle true ACK 1 None true)
    eq_refl eq_refl _ _ eq_refl eq_refl eq_refl _ eq_refl eq_refl eq_refl
    eq_refl) _)); cbn; unfold _WATCHDOG_CYCLES; lia.
Defined.

(** *** While the SIE keeps showing ACK *)

Lemma ack_pair p s :
  st s = KBD_POLL -> shows_ack (l_sof_frame s) p = true ->
  KEYBOARD_REPORT_SIZE <= rx_byte_count s ->
  0 <= watchdog s < _WATCHDOG_CYCLES - 1 ->
  let s' := run [fst p; snd p] s in
  st s' = KBD_POLL /\ rx_byte_count s' = rx_byte_count s /\
  report_bytes s' = report_bytes s /\ l_sof_frame s' = l_sof_frame s /\
  pid s' = toggle (pid s) /\ watchdog s' = 1 /\
  emitted [fst p; snd p] s = [report_of s].
Proof.
  intros Hs Hp Hc Hw. destruct p as [i1 i2]. unfold shows_ack in Hp.
  cbn [fst snd] in *.
  apply andb_true_iff in Hp as [Hp H5]. apply andb_true_iff in Hp as [Hp H4].
  apply andb_true_iff in Hp as [Hp H3]. apply andb_true_iff in Hp as [H1 H2].
  apply negb_true_iff in H1, H3, H5.
  assert (Ha : status_response i1 = ACK)
    by (destruct (status_response i1); try discriminate; reflexivity).
  assert (He : watchdog_expired s = false) by (apply not_expired; lia).
  set (s1 := step i1 s).
  assert (E1 : s1 = {| st := EMIT_REPORT; watchdog := 0;
                       pid := toggle (pid s); l_sof_frame := l_sof_frame s;
                       rx_byte_count := rx_byte_count s;
                       report_bytes := report_bytes s |}).
  { subst s1. unfold step. rewrite He. unfold step_no_reset.
    rewrite Hs. unfold poll_now. fold (polls (l_sof_frame s) i1).
    rewrite H1, Ha. cbn [is_ack is_nak andb orb].
    unfold rx_count_after_rx, next_report_bytes, rx_fire. rewrite H3.
    cbn [andb].
    destruct (Z.leb_spec KEYBOARD_REPORT_SIZE (rx_byte_count s)); [| lia].
    reflexivity. }
  cbv zeta. cbn [run emitted]. unfold o_report at 1. rewrite Hs. fold s1.
  unfold o_report at 1. rewrite E1. cbn [st]. rewrite H4.
  unfold step, watchdog_expired. cbn [watchdog].
  change (0 =? _WATCHDOG_CYCLES - 1) with false. cbv iota.
  unfold step_no_reset. cbn [st]. rewrite H4.
  unfold rx_count_after_rx, next_report_bytes, rx_fire. rewrite H5.
  cbn. repeat split.
Qed.

(** X21. One ACK, many reports: the engine does not remember that it has
    handed a report over.  For as long as the SIE keeps showing ACK for the
    finished poll and no new frame has begun, every return to KBD-POLL leads
    straight back to EMIT-REPORT: a consumer that takes the report at once is
    given the same report again every second cycle, and the data PID is
    toggled each time. *)
Theorem report_repeats_while_ack (ps : list (input * input)) :
  forall s,
    st s = KBD_POLL ->
    forallb (shows_ack (l_sof_frame s)) ps = true ->
    KEYBOARD_REPORT_SIZE <= rx_byte_count s ->
    0 <= watchdog s < _WATCHDOG_CYCLES - 1 ->
    emitted (pairs ps) s = repeat (report_of s) (length ps) /\
    st (run (pairs ps) s) = KBD_POLL /\
    pid (run (pairs ps) s) = toggles (length ps) (pid s).
Proof.
  induction ps as [| p ps IH]; intros s Hs Hp Hc Hw; [cbn; auto |].
  cbn [forallb] in Hp. apply andb_true_iff in Hp as [Hp1 Hp].
  pose proof (ack_pair p s Hs Hp1 Hc Hw) as P. cbv zeta in P.
  destruct P as (A & B & C & D & E & F & G).
  unfold pairs. cbn [map concat]. fold (pairs ps).
  rewrite emitted_app, kbd_run_app, G.
  destruct (IH (run [fst p; snd p] s)) as (I1 & I2 & I3); try assumption.
  - now rewrite D.
  - now rewrite B.
  - rewrite F. unfold _WATCHDOG_CYCLES. lia.
  - rewrite I1, I2, I3, E. cbn [length repeat app].
    assert (Er : report_of (run [fst p; snd p] s) = report_of s)
      by (unfold report_of; now rewrite C).
    rewrite Er. repeat split.
    clear. induction (length ps) as [| n IHn]; [reflexivity |].
    cbn [toggles]. now rewrite IHn.
Qed.

Lemma report_repeats_while_ack_witness :
  let s := {| st := KBD_POLL; watchdog := 0; pid := DATA0; l_sof_frame := 1;
              rx_byte_count := 8; report_bytes := [2; 0; 4; 0; 0; 0; 0; 0] |} in
  let p := (kcycle true ACK 1 None false, kcycle true ACK 1 None true) in
  emitted (pairs [p; p; p]) s = repeat (report_of s) 3.
Proof.
  intros s p.
  refine (proj1 (report_repeats_while_ack [p; p; p] s eq_refl eq_refl _ _));
    cbn; unfold KEYBOARD_REPORT_SIZE, _WATCHDOG_CYCLES; lia.
Defined.

(** *** The watchdog *)

Lemma unkicked_counts ins :
  forall s,
    0 <= watchdog s ->
    watchdog s + Z.of_nat (length ins) <= _WATCHDOG_CYCLES - 1 ->
    unkicked ins s = true ->
    watchdog (run ins s) = watchdog s + Z.of_nat (length ins).
Proof.
  induction ins as [| i ins IH]; intros s H0 Hn Hu.
  - cbn. lia.
  - cbn [unkicked] in Hu. apply andb_true_iff in Hu as [Hk Hu].
    apply negb_true_iff in Hk. cbn [length] in Hn.
    assert (He : watchdog_expired s = false) by (apply not_expired; lia).
    assert (Es : watchdog (step i s) = watchdog s + 1).
    { unfold step. rewrite He. unfold step_no_reset, kicks in *.
      assert (Ht : trunc 32 (watchdog s + 1) = watchdog s + 1).
      { apply trunc_small. unfold _WATCHDOG_CYCLES in Hn.
        change (2 ^ 32) with 4294967296. lia. }
      destruct (st s); cbn [watchdog].
      - rewrite Hk. exact Ht.
      - destruct (poll_now i s); cbn [negb andb] in Hk; cbn [watchdog];
          [exact Ht | rewrite Hk; exact Ht].
      - exact Ht. }
    cbn [run length]. rewrite IH; rewrite ?Es; try assumption; lia.
Qed.

(** X22. The watchdog: counting from any cycle, if the watchdog is not
    kicked -- no ACK or NAK seen while polling, no completed enumeration
    -- then it expires when its count reaches [_WATCHDOG_CYCLES - 1], not
    before, and the cycle after puts every register of the engine back to its
    power-up value, whatever the inputs. *)
Theorem watchdog_resets_engine (ins : list input) (i : input) (s : state) :
  0 <= watchdog s ->
  watchdog s + Z.of_nat (length ins) = _WATCHDOG_CYCLES - 1 ->
  unkicked ins s = true ->
  (forall k, (k < length ins)%nat ->
     watchdog_expired (run (firstn k ins) s) = false) /\
  watchdog_expired (run ins s) = true /\
  step i (run ins s) = init.
Proof.
  intros H0 Hn Hu.
  assert (Hpre : forall k, unkicked (firstn k ins) s = true).
  { clear -Hu. revert s Hu. induction ins as [| x ins IH]; intros s Hu k.
    - now rewrite firstn_nil.
    - destruct k; [reflexivity |]. cbn [firstn unkicked] in *.
      apply andb_true_iff in Hu as [H1 H2]. rewrite H1. cbn [andb].
      now apply IH. }
  split; [| split].
  - intros k Hk. apply not_expired.
    rewrite unkicked_counts; try apply Hpre; rewrite ?length_firstn; lia.
  - unfold watchdog_expired. rewrite unkicked_counts by (assumption || lia).
    apply Z.eqb_eq. lia.
  - unfold step, watchdog_expired.
    rewrite unkicked_counts by (assumption || lia).
    replace (watchdog s + Z.of_nat (length ins) =? _WATCHDOG_CYCLES - 1)
      with true by (symmetry; apply Z.eqb_eq; lia).
    reflexivity.
Qed.

Lemma watchdog_resets_engine_witness :
  let s := {| st := KBD_POLL; watchdog := _WATCHDOG_CYCLES - 3; pid := DATA1;
              l_sof_frame := 1; rx_byte_count := 3;
              report_bytes := [2; 0; 4; 0; 0; 0; 0; 0] |} in
  let quiet := kcycle true STALL 1 None false in
  step quiet (run [quiet; quiet] s) = init.
Proof.
  intros s quiet.
  refine (proj2 (proj2 (watchdog_resets_engine [quiet; quiet] quiet s _ _ _))).
  - cbn. unfold _WATCHDOG_CYCLES. lia.
  - reflexivity.
  - vm_compute. reflexivity.
Defined.

(** *** Every full report is emitted *)





(** The bound of fifteen bytes is sharp: the byte counter has four bits, so
    the sixteenth byte of a transfer wraps it to zero, and the ACK that
    follows finds fewer than eight bytes counted: nothing is emitted. *)
Lemma sixteen_bytes_wrap_the_counter :
  let ins := kcycle true NONE 1 None false
             :: map (fun b => kcycle false NONE 1 (Some b) false)
                    [0; 0; 4; 5; 0; 0; 0; 0; 1; 2; 3; 4; 5; 6; 7; 8]
             ++ [kcycle false ACK 1 None false;
                 kcycle false ACK 1 None true] in
  emitted ins polling = [] /\ st (run ins polling) = KBD_POLL /\
  rx_byte_count (run ins polling) = 0.
Proof. vm_compute. repeat split. Qed.

End KeyboardRunFacts.

(** ** The bulk-only transport: status wrapper and data stream *)

Module MscStreamFacts.

Import Msc MscStream.

Lemma msc_run_app a : forall b s, run (a ++ b) s = run b (run a s).
Proof.
  induction a as [| i a IH]; intros b s; cbn [app run];
    [reflexivity | apply IH].
Qed.

(** [word_select(idx, 8).eq(b)] replaces byte [idx] and no other *)
Lemma set_word_byte n v idx b k :
  0 <= idx -> 0 <= k ->
  byte_at (set_word n v idx b) k
  = if (idx <? n) && (k =? idx) then trunc 8 b else byte_at v k.
Proof.
  intros Hi Hk. unfold set_word, byte_at.
  destruct (Z.ltb_spec idx n); cbn [andb]; [| reflexivity].
  apply Z.bits_inj'. intros j Hj.
  rewrite byte_bits by lia.
  destruct (Z.eqb_spec k idx) as [-> | Hne].
  - rewrite Z.lor_spec, Z.land_spec, Z.lnot_spec, !Z.shiftl_spec by lia.
    replace (j + idx * 8 - idx * 8) with j by lia.
    rewrite trunc_testbit by lia.
    destruct (Z.ltb_spec j 8); cbn [andb]; [| reflexivity].
    change 255 with (Z.ones 8). rewrite Z.ones_spec_low by lia.
    cbn [negb]. now rewrite andb_false_r.
  - rewrite byte_bits by lia.
    rewrite Z.lor_spec, Z.land_spec, Z.lnot_spec, !Z.shiftl_spec by lia.
    destruct (Z.ltb_spec j 8); cbn [andb]; [| reflexivity].
    assert (Hout : j + k * 8 - idx * 8 < 0 \/ 8 <= j + k * 8 - idx * 8) by lia.
    destruct Hout as [Hneg | Hhigh].
    + rewrite !(Z.testbit_neg_r _ _ Hneg). cbn [negb].
      now rewrite andb_true_r, orb_false_r.
    + change 255 with (Z.ones 8). rewrite Z.ones_spec_high by lia.
      rewrite trunc_testbit by lia.
      destruct (Z.ltb_spec (j + k * 8 - idx * 8) 8); [lia |].
      cbn [negb andb]. now rewrite andb_true_r, orb_false_r.
Qed.

Lemma status_is_byte_12 v : CSW_bCSWStatus v = byte_at v 12.
Proof.
  unfold CSW_bCSWStatus, byte_at, trunc. change (12 * 8) with 96.
  change 255 with (Z.ones 8). now rewrite Z.land_ones by lia.
Qed.

(** *** Receiving the status wrapper *)

Lemma csw_progress ins :
  forall s,
    st s = CSW_RX -> all_busy ins = true ->
    0 <= rx_byte_idx s ->
    rx_byte_idx s + Z.of_nat (length (received ins)) <= 1023 ->
    let s' := run ins s in
    st s' = CSW_RX /\
    rx_byte_idx s' = rx_byte_idx s + Z.of_nat (length (received ins)) /\
    cbw_tag s' = cbw_tag s /\ pid_in s' = pid_in s /\
    (forall k, 0 <= k ->
       byte_at (csw_sig s') k
       = if (rx_byte_idx s <=? k)
            && (k <? rx_byte_idx s + Z.of_nat (length (received ins)))
            && (k <? CSW_SIZE_BYTES)
         then trunc 8 (nth (Z.to_nat (k - rx_byte_idx s)) (received ins) 0)
         else byte_at (csw_sig s) k).
Proof.
  induction ins as [| i ins IH]; intros s Hs Hb H0 Hn.
  - cbn. repeat split; try assumption; try lia.
    intros k Hk.
    destruct (Z.leb_spec (rx_byte_idx s) k), (Z.ltb_spec k (rx_byte_idx s + 0));
      cbn [andb]; try reflexivity; lia.
  - cbn [all_busy forallb] in Hb. apply andb_true_iff in Hb as [Hi Hb].
    apply negb_true_iff in Hi.
    set (n := if rxs_valid i then 1 else 0).
    assert (Hn01 : 0 <= n <= 1) by (subst n; destruct (rxs_valid i); lia).
    assert (Hlen : Z.of_nat (length (received (i :: ins)))
                   = n + Z.of_nat (length (received ins))).
    { unfold received. cbn [filter]. subst n.
      destruct (rxs_valid i); cbn [map length]; lia. }
    rewrite Hlen in *.
    assert (Es : st (step i s) = CSW_RX /\
                 rx_byte_idx (step i s) = rx_byte_idx s + n /\
                 cbw_tag (step i s) = cbw_tag s /\
                 pid_in (step i s) = pid_in s /\
                 csw_sig (step i s)
                 = (if rxs_valid i
                    then set_word CSW_SIZE_BYTES (csw_sig s) (rx_byte_idx s)
                                  (rxs_payload i)
                    else csw_sig s)).
    { unfold step, next_st, acked. rewrite Hs, Hi.
      cbn [st rx_byte_idx cbw_tag pid_in csw_sig andb]. subst n.
      destruct (rxs_valid i); repeat split; try lia.
      apply trunc_small. change (2 ^ 10) with 1024. lia. }
    destruct Es as (E1 & E2 & E3 & E4 & E5).
    assert (IH' : let s' := run ins (step i s) in _) by
      (apply (IH (step i s) E1 Hb); lia).
    cbv zeta in IH'. destruct IH' as (A & B & C & D & F).
    cbv zeta. cbn [run]. rewrite A, B, C, D, E2, E3, E4.
    repeat split; try lia.
    intros k Hk. rewrite (F k Hk), E2, E5.
    unfold received. cbn [filter]. subst n.
    destruct (rxs_valid i) eqn:Ev; cbn [map length nth].
    + rewrite set_word_byte by lia.
      fold (received ins).
      destruct (Z.leb_spec (rx_byte_idx s + 1) k),
               (Z.leb_spec (rx_byte_idx s) k),
               (Z.ltb_spec k (rx_byte_idx s + 1 + Z.of_nat (length (received ins)))),
               (Z.ltb_spec k (rx_byte_idx s + (1 + Z.of_nat (length (received ins))))),
               (Z.ltb_spec k CSW_SIZE_BYTES),
               (Z.ltb_spec (rx_byte_idx s) CSW_SIZE_BYTES),
               (Z.eqb_spec k (rx_byte_idx s));
        cbn [andb]; try lia; try reflexivity.
      * replace (Z.to_nat (k - rx_byte_idx s))
          with (S (Z.to_nat (k - (rx_byte_idx s + 1)))) by lia.
        reflexivity.
      * subst k. rewrite Z.sub_diag. reflexivity.
    + fold (received ins). rewrite !Z.add_0_r. reflexivity.
Qed.

(** X23. The command status wrapper: the bytes the SIE delivers while the
    transport waits in CSW-RX are stored at their position, byte 13 and
    later being dropped; when the SIE then shows ACK the command is reported
    done, with the error flag set exactly if the thirteenth byte
    (bCSWStatus) is not zero, the tag for the next command is one higher,
    the IN data PID is toggled and the transport is idle again. *)
Theorem status_wrapper_received (s : state) (ins : list input) (fin : input) :
  st s = CSW_RX -> rx_byte_idx s = 0 -> all_busy ins = true ->
  (13 <= length (received ins) <= 1023)%nat ->
  status_idle fin = true -> status_response fin = Sie.ACK ->
  rxs_valid fin = false ->
  let s' := run ins s in
  (forall k, 0 <= k < 13 ->
     byte_at (csw_sig s') k = trunc 8 (nth (Z.to_nat k) (received ins) 0)) /\
  status_done fin s' = true /\
  status_error fin s' = negb (trunc 8 (nth 12 (received ins) 0) =? 0) /\
  st (step fin s') = IDLE /\
  cbw_tag (step fin s') = trunc 32 (cbw_tag s + 1) /\
  pid_in (step fin s') = toggle (pid_in s).
Proof.
  intros Hs H0 Hb Hn Hi Hr Hv s'.
  assert (P : let s' := run ins s in _) by
    (apply (csw_progress ins s Hs Hb); lia).
  cbv zeta in P. fold s' in P. destruct P as (A & B & C & D & F).
  rewrite H0 in F.
  assert (Hk : forall k, 0 <= k < 13 ->
            byte_at (csw_sig s') k
            = trunc 8 (nth (Z.to_nat k) (received ins) 0)).
  { intros k Hk. rewrite F by lia. unfold CSW_SIZE_BYTES.
    destruct (Z.leb_spec 0 k), (Z.ltb_spec k 13),
             (Z.ltb_spec k (0 + Z.of_nat (length (received ins))));
      cbn [andb]; try lia.
    now rewrite Z.sub_0_r. }
  split; [exact Hk |].
  unfold status_done, status_error, step, next_st, acked.
  rewrite A, Hi, Hr. cbn [st cbw_tag pid_in is_ack andb].
  rewrite status_is_byte_12, (Hk 12) by lia.
  rewrite C, D. repeat split.
Qed.

Lemma status_wrapper_received_witness :
  let ins := map rx_cycle [0x55; 0x53; 0x42; 0x53; 7; 0; 0; 0; 0; 0; 0; 0; 1] in
  status_error (idle_with Sie.ACK) (run ins (csw_rx 7)) = true /\
  cbw_tag (step (idle_with Sie.ACK) (run ins (csw_rx 7))) = 8.
Proof.
  intros ins.
  destruct (status_wrapper_received (csw_rx 7) ins (idle_with Sie.ACK)
              eq_refl eq_refl eq_refl ltac:(cbn; lia) eq_refl eq_refl eq_refl)
    as (_ & _ & E & _ & T & _).
  split; [exact E | exact T].
Defined.

(** *** The data stream *)

Lemma framed_step i s :
  after_cbw (st s) = true -> stream_mode s = true ->
  start (cmd i) = false -> 0 <= rx_data_count s < 65535 ->
  after_cbw (st (step i s)) = true /\
  stream_mode (step i s) = true /\
  data_len_r (step i s) = data_len_r s /\
  match rx_push i s with
  | Some b =>
      b = {| p_data := rxs_payload i;
             p_first := rx_data_count s =? 0;
             p_last := rx_data_count s =? data_len_r s - 1 |} /\
      rx_data_count (step i s) = rx_data_count s + 1
  | None => rx_data_count (step i s) = rx_data_count s
  end.
Proof.
  intros Ha Hm Hn Hc. unfold rx_push, step, next_st, acked.
  cbn [st stream_mode data_len_r rx_data_count].
  destruct (st s) eqn:E; try discriminate; cbn [after_cbw];
    rewrite ?Hn, ?Hm.
  - repeat split.
  - destruct (status_idle i); repeat split.
  - unfold rxs_ready. rewrite E, Hm. cbn [andb].
    split; [destruct (status_idle i); [destruct (is_ack (status_response i));
       [destruct (data_len_r s <=? rx_data_count s) |
        destruct (is_nak (status_response i))] |]; reflexivity |].
    split; [reflexivity |]. split; [reflexivity |].
    destruct (rxs_valid i), (rx_fifo_w_ready i); cbn [andb];
      try reflexivity.
    split; [reflexivity |].
    apply trunc_small. change (2 ^ 16) with 65536. lia.
  - destruct (status_idle i); repeat split.
  - split; [destruct (status_idle i); [destruct (is_ack (status_response i));
       [| destruct (is_nak (status_response i))] |]; reflexivity |].
    repeat split.
Qed.

(** X24. The data of a streamed command reach the Rx FIFO framed as one
    packet: counting from the acknowledged CBW, beat number 0 carries
    [first] and beat number [data_len - 1] carries [last], and no other beat
    does, however many IN transactions, NAKs and full-FIFO stalls lie in
    between. *)
Theorem data_stream_is_framed (ins : list input) :
  forall s,
    after_cbw (st s) = true -> stream_mode s = true ->
    no_command ins = true ->
    0 <= rx_data_count s ->
    rx_data_count s + Z.of_nat (length ins) < 65536 ->
    pushed ins s
    = framed (rx_data_count s) (data_len_r s) (map p_data (pushed ins s)).
Proof.
  induction ins as [| i ins IH]; intros s Ha Hm Hn H0 Hc; [reflexivity |].
  cbn [no_command forallb] in Hn. apply andb_true_iff in Hn as [Hi Hn].
  apply negb_true_iff in Hi. cbn [length] in Hc.
  destruct (framed_step i s Ha Hm Hi) as (A & B & C & D); [lia |].
  cbn [pushed].
  destruct (rx_push i s) as [b |].
  - destruct D as [-> D]. cbn [map framed p_data]. f_equal.
    rewrite <- C, <- D. apply IH; try assumption; lia.
  - rewrite <- C, <- D. apply IH; try assumption; lia.
Qed.

Lemma data_stream_is_framed_witness :
  pushed [rx_cycle 10; rx_cycle 11; idle_with Sie.ACK; idle_with Sie.NONE;
          rx_cycle 12; rx_cycle 13] (streaming 4)
  = [{| p_data := 10; p_first := true; p_last := false |};
     {| p_data := 11; p_first := false; p_last := false |};
     {| p_data := 12; p_first := false; p_last := false |};
     {| p_data := 13; p_first := false; p_last := true |}].
Proof.
  exact (data_stream_is_framed
           [rx_cycle 10; rx_cycle 11; idle_with Sie.ACK; idle_with Sie.NONE;
            rx_cycle 12; rx_cycle 13] (streaming 4)
           eq_refl eq_refl eq_refl ltac:(cbn; lia) ltac:(cbn; lia)).
Defined.

(** X25. The byte counter of the data phase is 16 bits wide and the
    length it is compared with 32: a command whose data length is 65536 or
    more never finishes its data phase, whatever the device sends -- the
    transport stays in DATA and DATA-RX, never done and never idle. *)
Theorem long_transfer_never_completes (ins : list input) :
  forall s,
    in_data_phase (st s) = true -> 65536 <= data_len_r s ->
    0 <= rx_data_count s < 65536 ->
    in_data_phase (st (run ins s)) = true /\
    (forall i, status_done i (run ins s) = false) /\
    status_idle_out (run ins s) = false.
Proof.
  induction ins as [| i ins IH]; intros s Hp Hl Hc.
  - cbn [run]. split; [exact Hp |].
    unfold status_done, status_idle_out, in_data_phase in *.
    destruct (st s); try discriminate; auto.
  - cbn [run]. apply IH.
    + unfold step, next_st, in_data_phase in *. cbn [st].
      destruct (st s); try discriminate.
      * destruct (status_idle i); reflexivity.
      * destruct (Z.leb_spec (data_len_r s) (rx_data_count s)); [lia |].
        destruct (status_idle i); [| reflexivity].
        destruct (is_ack (status_response i)); [reflexivity |].
        destruct (is_nak (status_response i)); reflexivity.
    + unfold step, in_data_phase in *. cbn [data_len_r].
      destruct (st s); try discriminate; exact Hl.
    + unfold step, in_data_phase in *. cbn [rx_data_count].
      destruct (st s); try discriminate; [exact Hc |].
      destruct (rxs_valid i && rxs_ready i s); [| exact Hc].
      apply trunc_range. lia.
Qed.

Lemma long_transfer_never_completes_witness :
  in_data_phase
    (st (run [idle_with Sie.ACK; rx_cycle 1; idle_with Sie.ACK]
             (streaming 65536))) = true.
Proof.
  exact (proj1 (long_transfer_never_completes
                  [idle_with Sie.ACK; rx_cycle 1; idle_with Sie.ACK]
                  (streaming 65536) eq_refl ltac:(cbn; lia) ltac:(cbn; lia))).
Defined.

End MscStreamFacts.

(** ** The mass-storage engine on top of the transport *)

Module MscHostFacts.

Import Msc MscStream.

(** *** Bytes of packed values *)

Lemma byte_at_in w v rest k :
  0 <= k -> k * 8 + 8 <= w ->
  byte_at (Cat ((w, v) :: rest)) k = byte_at v k.
Proof. intros. unfold byte_at. now apply Cat_low_byte. Qed.

Lemma byte_at_skip w v rest k m :
  w = 8 * m -> 0 <= m <= k ->
  byte_at (Cat ((w, v) :: rest)) k = byte_at (Cat rest) (k - m).
Proof.
  intros Hw Hm. unfold byte_at.
  replace (k * 8) with (w + (k - m) * 8) by lia.
  rewrite <- Z.shiftr_shiftr by lia. now rewrite Cat_shiftr by lia.
Qed.

Lemma byte_at_skip2 w1 v1 w2 v2 rest k m :
  0 <= w1 -> 0 <= w2 -> w1 + w2 = 8 * m -> 0 <= m <= k ->
  byte_at (Cat ((w1, v1) :: (w2, v2) :: rest)) k = byte_at (Cat rest) (k - m).
Proof.
  intros H1 H2 Hw Hm. unfold byte_at.
  replace (k * 8) with ((w1 + w2) + (k - m) * 8) by lia.
  rewrite <- Z.shiftr_shiftr by lia. now rewrite MscFacts.Cat_shiftr2 by lia.
Qed.

Lemma byte_at_byte v : 0 <= v < 256 -> byte_at v 0 = v.
Proof.
  intros H. unfold byte_at. rewrite Z.mul_0_l, Z.shiftr_0_r.
  now apply land_255_small.
Qed.

(** into a field that holds the byte, past a field that does not *)
Ltac into_field :=
  repeat first
    [ rewrite byte_at_in by lia
    | rewrite (byte_at_skip _ _ _ _ 1) by lia
    | rewrite (byte_at_skip _ _ _ _ 4) by lia
    | rewrite (byte_at_skip _ _ _ _ 2) by lia
    | rewrite (byte_at_skip _ _ _ _ 16) by lia ].

(** *** The layout of the command block wrapper *)

Lemma cbw_tag_byte c tag k :
  4 <= k < 8 -> cbw_byte_out c tag k = byte_at tag (k - 4).
Proof.
  intros Hk. change (cbw_byte_out c tag k) with (byte_at (cbw_flat c tag) k).
  unfold cbw_flat.
  rewrite (byte_at_skip _ _ _ _ 4) by lia. now rewrite byte_at_in by lia.
Qed.

Lemma cbw_len_byte c tag k :
  8 <= k < 12 -> cbw_byte_out c tag k = byte_at (data_len c) (k - 8).
Proof.
  intros Hk. change (cbw_byte_out c tag k) with (byte_at (cbw_flat c tag) k).
  unfold cbw_flat.
  rewrite !(byte_at_skip _ _ _ _ 4) by lia. rewrite byte_at_in by lia.
  f_equal. lia.
Qed.

Lemma cbw_lun_byte c tag : cbw_byte_out c tag 13 = 0.
Proof.
  change (cbw_byte_out c tag 13) with (byte_at (cbw_flat c tag) 13).
  unfold cbw_flat.
  rewrite !(byte_at_skip _ _ _ _ 4) by lia.
  rewrite (byte_at_skip _ _ _ _ 1) by lia.
  unfold byte_at. change ((13 - 4 - 4 - 4 - 1) * 8) with 0.
  rewrite Z.shiftr_0_r. change 255 with (Z.ones 8).
  rewrite Z.land_ones by lia.
  change (?x mod 2 ^ 8) with (trunc (4 + 4) x).
  rewrite MscFacts.trunc_Cat_two by lia. reflexivity.
Qed.

Lemma cbw_cdb_byte c tag k :
  15 <= k < 31 -> cbw_byte_out c tag k = byte_at (cdb c) (k - 15).
Proof.
  intros Hk. change (cbw_byte_out c tag k) with (byte_at (cbw_flat c tag) k).
  unfold cbw_flat.
  rewrite !(byte_at_skip _ _ _ _ 4) by lia.
  rewrite (byte_at_skip _ _ _ _ 1) by lia.
  rewrite (byte_at_skip2 4 _ 4 _ _ _ 1) by lia.
  rewrite (byte_at_skip2 5 _ 3 _ _ _ 1) by lia.
  rewrite byte_at_in by lia. f_equal. lia.
Qed.

(** the wrapper as it goes over the wire: signature, tag and length least
    significant byte first, flags, LUN, command length, command block *)
Lemma cbw_layout c tag :
  cbw_bytes c tag
  = [0x55; 0x53; 0x42; 0x43] ++ MscSystem.le 4 tag
    ++ MscSystem.le 4 (data_len c)
    ++ [bmCBWFlags c; 0; cdb_len c] ++ MscSystem.le 16 (cdb c).
Proof.
  pose proof (MscFacts.signature_bytes c tag) as Hsig.
  unfold cbw_bytes, MscSystem.le in *. cbn [seq map app firstn] in *.
  cbn [Z.of_nat Pos.of_succ_nat Pos.succ] in *.
  injection Hsig as -> -> -> ->.
  rewrite !(cbw_tag_byte c tag) by lia.
  rewrite !(cbw_len_byte c tag) by lia.
  rewrite MscFacts.flags_byte, cbw_lun_byte, MscFacts.length_byte.
  rewrite !(cbw_cdb_byte c tag) by lia.
  reflexivity.
Qed.

(** *** The command blocks of the three commands *)

Lemma opcode_only_bytes op :
  0 <= op < 256 ->
  MscSystem.le 16 (MscHost.opcode_only op)
  = [op; 0; 0; 0; 0; 0; 0; 0; 0; 0; 0; 0; 0; 0; 0; 0].
Proof.
  intros Hop. unfold MscSystem.le, MscHost.opcode_only.
  cbn [seq map]. cbn [Z.of_nat Pos.of_succ_nat Pos.succ].
  repeat (apply (f_equal2 (@cons Z));
          [into_field; first [now apply byte_at_byte | reflexivity] |]).
  reflexivity.
Qed.

Lemma opcode_only_opcode op :
  0 <= op < 256 -> trunc 8 (MscHost.opcode_only op) = op.
Proof.
  intros Hop. unfold MscHost.opcode_only.
  rewrite MscFacts.trunc_Cat_first by lia. apply trunc_small.
  change (2 ^ 8) with 256. lia.
Qed.

(** READ(10): opcode, flags, the block address most significant byte first,
    group, the block count most significant byte first, control *)
Lemma read10_bytes lba :
  MscSystem.le 16 (MscHost.cdb10_read lba)
  = [0x28; 0; byte_at lba 3; byte_at lba 2; byte_at lba 1; byte_at lba 0;
     0; 0; 1; 0; 0; 0; 0; 0; 0; 0].
Proof.
  unfold MscSystem.le, MscHost.cdb10_read, MscHost.swap32.
  cbn [seq map]. cbn [Z.of_nat Pos.of_succ_nat Pos.succ].
  repeat (apply (f_equal2 (@cons Z));
          [into_field;
           first [ reflexivity
                 | unfold byte_at; rewrite Z.shiftr_shiftr by lia;
                   reflexivity ] |]).
  reflexivity.
Qed.

Lemma read10_opcode lba : trunc 8 (MscHost.cdb10_read lba) = 0x28.
Proof.
  unfold MscHost.cdb10_read. now rewrite MscFacts.trunc_Cat_first by lia.
Qed.

(** *** The engine and the transport together *)

Lemma sys_run_app a :
  forall b hb, MscSystem.run (a ++ b) hb = MscSystem.run b (MscSystem.run a hb).
Proof.
  induction a as [| e a IH]; intros b hb; cbn [app MscSystem.run];
    [reflexivity | apply IH].
Qed.

Lemma wire_app a :
  forall b hb,
    MscSystem.wire (a ++ b) hb
    = MscSystem.wire a hb ++ MscSystem.wire b (MscSystem.run a hb).
Proof.
  induction a as [| e a IH]; intros b hb;
    cbn [app MscSystem.wire MscSystem.run]; [reflexivity |].
  rewrite IH.
  destruct (txs_out _ _); [destruct (MscSystem.txs_ready e) |]; reflexivity.
Qed.

Lemma host_not_expired h :
  0 <= MscHost.watchdog h < MscHost._WATCHDOG_CYCLES - 1 ->
  MscHost.watchdog_expired h = false.
Proof. intros H. unfold MscHost.watchdog_expired. apply Z.leb_gt. lia. Qed.

Lemma cbw_bytes_length c tag : length (cbw_bytes c tag) = 31%nat.
Proof. reflexivity. Qed.

Lemma cbw_bytes_nth c tag k :
  0 <= k <= 30 ->
  nth (Z.to_nat k) (cbw_bytes c tag) 0 = cbw_byte_out c tag k.
Proof.
  intros Hk. unfold cbw_bytes.
  rewrite (nth_indep _ 0 (cbw_byte_out c tag (Z.of_nat 0)))
    by (rewrite length_map, length_seq; lia).
  rewrite (map_nth (fun n => cbw_byte_out c tag (Z.of_nat n))).
  rewrite seq_nth by lia. cbn [Nat.add]. f_equal. lia.
Qed.

(** while the engine holds the command, the transport loads the wrapper *)
Lemma sys_load_progress es :
  forall h b,
    MscSystem.holding (MscHost.st h) = true -> st b = CBW_LOAD ->
    0 <= tx_byte_idx b ->
    tx_byte_idx b + Z.of_nat (MscSystem.ready_count es) <= 30 ->
    0 <= MscHost.watchdog h ->
    MscHost.watchdog h + Z.of_nat (length es) < MscHost._WATCHDOG_CYCLES - 1 ->
    let hb' := MscSystem.run es (h, b) in
    MscHost.scsi_cmd (fst hb') = MscHost.scsi_cmd h /\
    MscSystem.holding (MscHost.st (fst hb')) = true /\
    MscHost.watchdog (fst hb') = MscHost.watchdog h + Z.of_nat (length es) /\
    st (snd hb') = CBW_LOAD /\
    tx_byte_idx (snd hb')
    = tx_byte_idx b + Z.of_nat (MscSystem.ready_count es) /\
    cbw_tag (snd hb') = cbw_tag b /\
    MscSystem.wire es (h, b)
    = EnumeratorStream.slice (Z.to_nat (tx_byte_idx b))
        (MscSystem.ready_count es)
        (cbw_bytes (MscHost.scsi_cmd h) (cbw_tag b)).
Proof.
  induction es as [| e es IH]; intros h b Hh Hb H0 Hn Hw0 Hw.
  - cbn. repeat split; try assumption; lia.
  - cbn [length] in Hw. unfold MscSystem.ready_count in *.
    cbn [filter] in Hn |- *.
    assert (He : MscHost.watchdog_expired h = false)
      by (apply host_not_expired; lia).
    set (h1 := MscHost.step_no_reset (MscSystem.host_input e h b) h).
    assert (Eh : MscHost.scsi_cmd h1 = MscHost.scsi_cmd h /\
                 MscSystem.holding (MscHost.st h1) = true /\
                 MscHost.watchdog h1 = MscHost.watchdog h + 1).
    { subst h1. unfold MscHost.step_no_reset, MscSystem.host_input.
      cbn [MscHost.scsi_done]. unfold status_done. rewrite Hb.
      assert (Ht : trunc 32 (MscHost.watchdog h + 1) = MscHost.watchdog h + 1).
      { apply trunc_small. unfold MscHost._WATCHDOG_CYCLES in Hw.
        change (2 ^ 32) with 4294967296. lia. }
      unfold MscHost.scsi_cmd.
      destruct (MscHost.st h) eqn:E; try discriminate;
        cbn [MscHost.st MscHost.block_size MscHost.current_lba
             MscHost.watchdog MscSystem.holding];
        rewrite ?E; auto. }
    destruct Eh as (Eh1 & Eh2 & Eh3).
    cbn [MscSystem.run MscSystem.wire MscSystem.step fst snd].
    rewrite He. fold h1.
    unfold txs_out at 1. rewrite Hb.
    cbn [MscSystem.bulk_input cmd].
    set (b1 := step (MscSystem.bulk_input e h) b).
    destruct (MscSystem.txs_ready e) eqn:Er.
    + cbn [length] in Hn |- *.
      assert (Eb : st b1 = CBW_LOAD /\ tx_byte_idx b1 = tx_byte_idx b + 1 /\
                   cbw_tag b1 = cbw_tag b).
      { subst b1. unfold step, next_st. rewrite Hb.
        cbn [st tx_byte_idx cbw_tag MscSystem.bulk_input txs_ready].
        rewrite Er. unfold CBW_SIZE_BYTES.
        destruct (Z.eqb_spec (tx_byte_idx b) (31 - 1)); [lia |].
        cbn [andb]. repeat split.
        apply trunc_small. change (2 ^ 6) with 64. lia. }
      destruct Eb as (Eb1 & Eb2 & Eb3).
      assert (IH' := IH h1 b1 Eh2 Eb1).
      cbv zeta in IH'. rewrite Eb2, Eb3, Eh1, Eh3 in IH'.
      destruct IH' as (A & B & C & D & E & F & G); try lia.
      rewrite A, B, C, D, E, F, G.
      repeat split; try lia.
      rewrite (EnumeratorStreamFacts.slice_cons 0)
        by (rewrite cbw_bytes_length; lia).
      rewrite cbw_bytes_nth by lia.
      do 2 f_equal. lia.
    + assert (Eb : st b1 = CBW_LOAD /\ tx_byte_idx b1 = tx_byte_idx b /\
                   cbw_tag b1 = cbw_tag b).
      { subst b1. unfold step, next_st. rewrite Hb.
        cbn [st tx_byte_idx cbw_tag MscSystem.bulk_input txs_ready].
        rewrite Er. repeat split. }
      destruct Eb as (Eb1 & Eb2 & Eb3).
      assert (IH' := IH h1 b1 Eh2 Eb1).
      cbv zeta in IH'. rewrite Eb2, Eb3, Eh1, Eh3 in IH'.
      destruct IH' as (A & B & C & D & E & F & G); try lia.
      rewrite A, B, C, D, E, F, G. cbn [length].
      repeat split; lia.
Qed.

(** the wrapper of the command the engine holds *)
Lemma held_command_image h h1 tag :
  MscSystem.strobing (MscHost.st h) = true ->
  MscHost.st h1 = match MscHost.st h with
                  | MscHost.TEST_UNIT_READY => MscHost.TEST_UNIT_READY_WAIT
                  | MscHost.READ_CAPACITY => MscHost.READ_CAPACITY_WAIT
                  | _ => MscHost.READ_WAIT
                  end ->
  MscHost.block_size h1 = MscHost.block_size h ->
  MscHost.current_lba h1 = MscHost.current_lba h ->
  cbw_bytes (MscHost.scsi_cmd h1) tag = MscSystem.wire_image h tag.
Proof.
  intros Hs E1 E2 E3. rewrite cbw_layout. unfold MscSystem.wire_image.
  do 2 f_equal. unfold MscHost.scsi_cmd. rewrite E1.
  destruct (MscHost.st h); try discriminate;
    unfold bmCBWFlags, cdb_len, cdb_opcode; cbn [data_len cdb].
  - rewrite opcode_only_opcode, opcode_only_bytes
      by (unfold SCSIOpCode_TEST_UNIT_READY; lia).
    reflexivity.
  - rewrite opcode_only_opcode, opcode_only_bytes
      by (unfold SCSIOpCode_READ_CAPACITY_10; lia).
    reflexivity.
  - rewrite read10_opcode, read10_bytes, E2, E3.
    unfold MscHost._BLOCKS_PER_READ. rewrite Z.mul_1_r. reflexivity.
Qed.

(** X26. What the engine's commands look like on the wire.  When the
    engine strobes TEST UNIT READY, READ CAPACITY(10) or READ(10) to the idle
    transport, the 31 bytes the transport writes to the Tx FIFO, however the
    FIFO stalls, are: the signature USBC, the tag least significant byte
    first, the data length least significant byte first, the direction flag,
    LUN 0, the command length and the command block -- for READ(10) the
    block address most significant byte first and a block count of one.  The
    engine keeps the command stable until the transport has loaded all of
    it. *)
Theorem command_on_the_wire (h : MscHost.state) (b : state)
    (e0 : MscSystem.env) (es : list MscSystem.env) (el : MscSystem.env) :
  MscSystem.strobing (MscHost.st h) = true -> st b = IDLE ->
  MscSystem.ready_count es = 30%nat -> MscSystem.txs_ready el = true ->
  0 <= MscHost.watchdog h ->
  MscHost.watchdog h + Z.of_nat (length es) + 2
  < MscHost._WATCHDOG_CYCLES - 1 ->
  MscSystem.wire (e0 :: es ++ [el]) (h, b)
  = MscSystem.wire_image h (cbw_tag b) /\
  st (snd (MscSystem.run (e0 :: es ++ [el]) (h, b))) = CBW_XFER /\
  MscSystem.holding
    (MscHost.st (fst (MscSystem.run (e0 :: es ++ [el]) (h, b)))) = true.
Proof.
  intros Hs Hb Hc Hl Hw0 Hw.
  assert (He : MscHost.watchdog_expired h = false)
    by (apply host_not_expired; lia).
  set (h1 := MscHost.step_no_reset (MscSystem.host_input e0 h b) h).
  set (b1 := step (MscSystem.bulk_input e0 h) b).
  assert (Ht : trunc 32 (MscHost.watchdog h + 1) = MscHost.watchdog h + 1).
  { apply trunc_small. unfold MscHost._WATCHDOG_CYCLES in Hw.
    change (2 ^ 32) with 4294967296. lia. }
  assert (Eh : MscHost.st h1 = match MscHost.st h with
                  | MscHost.TEST_UNIT_READY => MscHost.TEST_UNIT_READY_WAIT
                  | MscHost.READ_CAPACITY => MscHost.READ_CAPACITY_WAIT
                  | _ => MscHost.READ_WAIT
                  end /\
               MscHost.block_size h1 = MscHost.block_size h /\
               MscHost.current_lba h1 = MscHost.current_lba h /\
               MscHost.watchdog h1 = MscHost.watchdog h + 1).
  { subst h1. unfold MscHost.step_no_reset.
    destruct (MscHost.st h); try discriminate; cbn; auto. }
  destruct Eh as (Eh1 & Eh2 & Eh3 & Eh4).
  assert (Hh1 : MscSystem.holding (MscHost.st h1) = true).
  { rewrite Eh1. destruct (MscHost.st h); try discriminate; reflexivity. }
  assert (Hstart : start (MscHost.scsi_cmd h) = true).
  { unfold MscHost.scsi_cmd.
    destruct (MscHost.st h); try discriminate; reflexivity. }
  assert (Eb : st b1 = CBW_LOAD /\ tx_byte_idx b1 = 0 /\
               cbw_tag b1 = cbw_tag b).
  { subst b1. unfold step, next_st. rewrite Hb.
    cbn [st tx_byte_idx cbw_tag MscSystem.bulk_input cmd].
    rewrite Hstart. repeat split. }
  destruct Eb as (Eb1 & Eb2 & Eb3).
  assert (P : let hb' := MscSystem.run es (h1, b1) in _) by
    (apply (sys_load_progress es h1 b1 Hh1 Eb1);
     rewrite ?Eb2, ?Eh4, ?Hc; lia).
  cbv zeta in P. rewrite Eb2, Eb3, Eh4, Hc in P.
  destruct P as (A & B & C & D & E & F & G).
  rewrite (held_command_image h h1 (cbw_tag b) Hs Eh1 Eh2 Eh3) in G.
  cbn [MscSystem.run MscSystem.wire MscSystem.step fst snd].
  rewrite He. fold h1 b1.
  unfold txs_out at 1. rewrite Hb.
  rewrite wire_app, sys_run_app, G.
  destruct (MscSystem.run es (h1, b1)) as [h2 b2] eqn:E2.
  cbn [fst snd] in *.
  assert (He2 : MscHost.watchdog_expired h2 = false)
    by (apply host_not_expired; lia).
  cbn [MscSystem.run MscSystem.wire MscSystem.step fst snd].
  rewrite He2. unfold txs_out at 1. rewrite D, Hl.
  cbn [MscSystem.bulk_input cmd]. rewrite A, E, F.
  change (0 + Z.of_nat 30) with 30.
  rewrite <- (cbw_bytes_nth _ _ 30) by lia.
  rewrite (held_command_image h h1 (cbw_tag b) Hs Eh1 Eh2 Eh3).
  split; [| split].
  - unfold EnumeratorStream.slice. cbn [Z.to_nat skipn].
    change (Pos.to_nat 30) with 30%nat.
    assert (Hlen : length (MscSystem.wire_image h (cbw_tag b)) = 31%nat)
      by (unfold MscSystem.wire_image; destruct (MscHost.st h); reflexivity).
    rewrite <- (ParserSpecFacts.firstn_snoc 0) by lia.
    apply firstn_all2. lia.
  - unfold step, next_st. rewrite D.
    cbn [st MscSystem.bulk_input txs_ready]. rewrite Hl, E.
    reflexivity.
  - unfold MscHost.step_no_reset, MscSystem.host_input.
    cbn [MscHost.scsi_done]. unfold status_done. rewrite D.
    destruct (MscHost.st h2); try discriminate; reflexivity.
Qed.

Lemma command_on_the_wire_witness :
  MscSystem.wire
    (MscSystem.tick false
     :: (MscSystem.tick false :: repeat (MscSystem.tick true) 30)
     ++ [MscSystem.tick true])
    (MscSystem.reading 0x00012345 7)
  = [0x55; 0x53; 0x42; 0x43; 7; 0; 0; 0; 0; 2; 0; 0; 0x80; 0; 10;
     0x28; 0; 0x00; 0x01; 0x23; 0x45; 0; 0; 1; 0; 0; 0; 0; 0; 0; 0].
Proof.
  refine (proj1 (command_on_the_wire
                   (fst (MscSystem.reading 0x00012345 7))
                   (snd (MscSystem.reading 0x00012345 7))
                   (MscSystem.tick false)
                   (MscSystem.tick false :: repeat (MscSystem.tick true) 30)
                   (MscSystem.tick true) eq_refl eq_refl eq_refl eq_refl _ _));
    cbn; unfold MscHost._WATCHDOG_CYCLES; lia.
Defined.

(** *** READ CAPACITY *)

Lemma Cat_cons_add w v rest :
  0 <= w -> Cat ((w, v) :: rest) = trunc w v + 2 ^ w * Cat rest.
Proof.
  intros Hw.
  rewrite (Z_div_mod_eq_full (Cat ((w, v) :: rest)) (2 ^ w)).
  rewrite <- Z.shiftr_div_pow2 by lia. rewrite Cat_shiftr by lia.
  change (Cat ((w, v) :: rest) mod 2 ^ w) with (trunc w (Cat ((w, v) :: rest))).
  rewrite MscFacts.trunc_Cat_first by lia. lia.
Qed.

Lemma byte_of_trunc w v k :
  0 <= k -> k * 8 + 8 <= w ->
  trunc 8 (Z.shiftr (trunc w v) (k * 8)) = byte_at v k.
Proof.
  intros Hk Hw. apply Z.bits_inj'. intros j Hj.
  unfold byte_at. rewrite byte_bits, trunc_testbit by lia.
  rewrite Z.shiftr_spec, trunc_testbit by lia.
  destruct (Z.ltb_spec j 8); cbn [andb]; [| reflexivity].
  destruct (Z.ltb_spec (j + k * 8) w); [reflexivity | lia].
Qed.

Lemma byte_at_shiftr v k m :
  0 <= k -> 0 <= m -> byte_at (Z.shiftr v (m * 8)) k = byte_at v (k + m).
Proof.
  intros Hk Hm. unfold byte_at. rewrite Z.shiftr_shiftr by lia.
  f_equal. f_equal. lia.
Qed.

Lemma byte_at_high_word v k :
  0 <= k -> byte_at (Z.shiftr v 32) k = byte_at v (k + 4).
Proof.
  intros Hk. change 32 with (4 * 8). apply byte_at_shiftr; lia.
Qed.

Lemma byte_at_range v k : 0 <= byte_at v k < 256.
Proof. apply byte_bounds. Qed.

(** a 32-bit word taken most significant byte first *)
Lemma swap32_value v :
  MscHost.swap32 (trunc 32 v)
  = byte_at v 3 + 2 ^ 8 * byte_at v 2 + 2 ^ 16 * byte_at v 1
    + 2 ^ 24 * byte_at v 0.
Proof.
  unfold MscHost.swap32. rewrite !Cat_cons_add by lia. cbn [Cat].
  change 24 with (3 * 8) at 1. change 16 with (2 * 8) at 1.
  change (Z.shiftr (trunc 32 v) 8) with (Z.shiftr (trunc 32 v) (1 * 8)).
  rewrite !byte_of_trunc by lia.
  replace (trunc 8 (trunc 32 v)) with (byte_at v 0).
  2:{ rewrite <- (byte_of_trunc 32 v 0) by lia.
      now rewrite Z.mul_0_l, Z.shiftr_0_r. }
  lia.
Qed.

(** the non-streamed data of a command, as the transport captures it *)
Lemma capture_progress ins :
  forall s,
    st s = DATA_RX -> stream_mode s = false -> all_busy ins = true ->
    0 <= rx_byte_idx s ->
    rx_byte_idx s + Z.of_nat (length (received ins)) <= 1023 ->
    forall k, 0 <= k ->
      byte_at (captured_sig (run ins s)) k
      = if (rx_byte_idx s <=? k)
           && (k <? rx_byte_idx s + Z.of_nat (length (received ins)))
           && (k <? READ_CAPACITY_SIZE_BYTES)
        then trunc 8 (nth (Z.to_nat (k - rx_byte_idx s)) (received ins) 0)
        else byte_at (captured_sig s) k.
Proof.
  induction ins as [| i ins IH]; intros s Hs Hm Hb H0 Hn k Hk.
  - cbn.
    destruct (Z.leb_spec (rx_byte_idx s) k), (Z.ltb_spec k (rx_byte_idx s + 0));
      cbn [andb]; try reflexivity; lia.
  - cbn [all_busy forallb] in Hb. apply andb_true_iff in Hb as [Hi Hb].
    apply negb_true_iff in Hi.
    set (n := if rxs_valid i then 1 else 0).
    assert (Hn01 : 0 <= n <= 1) by (subst n; destruct (rxs_valid i); lia).
    assert (Hlen : Z.of_nat (length (received (i :: ins)))
                   = n + Z.of_nat (length (received ins))).
    { unfold received. cbn [filter]. subst n.
      destruct (rxs_valid i); cbn [map length]; lia. }
    rewrite Hlen in *.
    assert (Es : st (step i s) = DATA_RX /\ stream_mode (step i s) = false /\
                 rx_byte_idx (step i s) = rx_byte_idx s + n /\
                 captured_sig (step i s)
                 = (if rxs_valid i
                    then set_word READ_CAPACITY_SIZE_BYTES (captured_sig s)
                                  (rx_byte_idx s) (rxs_payload i)
                    else captured_sig s)).
    { unfold step, next_st, acked, rxs_ready. rewrite Hs, Hi, Hm.
      cbn [st stream_mode rx_byte_idx captured_sig andb negb]. subst n.
      destruct (rxs_valid i); cbn [andb]; repeat split; try lia.
      apply trunc_small. change (2 ^ 10) with 1024. lia. }
    destruct Es as (E1 & E2 & E3 & E4).
    cbn [run]. rewrite (IH (step i s) E1 E2 Hb) by lia.
    rewrite E3, E4.
    unfold received. cbn [filter]. subst n.
    destruct (rxs_valid i) eqn:Ev; cbn [map length nth].
    + rewrite MscStreamFacts.set_word_byte by lia.
      fold (received ins).
      destruct (Z.leb_spec (rx_byte_idx s + 1) k),
               (Z.leb_spec (rx_byte_idx s) k),
               (Z.ltb_spec k (rx_byte_idx s + 1 + Z.of_nat (length (received ins)))),
               (Z.ltb_spec k (rx_byte_idx s + (1 + Z.of_nat (length (received ins))))),
               (Z.ltb_spec k READ_CAPACITY_SIZE_BYTES),
               (Z.ltb_spec (rx_byte_idx s) READ_CAPACITY_SIZE_BYTES),
               (Z.eqb_spec k (rx_byte_idx s));
        cbn [andb]; try lia; try reflexivity.
      * replace (Z.to_nat (k - rx_byte_idx s))
          with (S (Z.to_nat (k - (rx_byte_idx s + 1)))) by lia.
        reflexivity.
      * subst k. rewrite Z.sub_diag. reflexivity.
    + fold (received ins). rewrite !Z.add_0_r. reflexivity.
Qed.

(** X27. READ CAPACITY(10): the eight data bytes the transport receives
    are captured in the order of their arrival, and when the command is
    reported done without error the engine takes the first four,
    most significant byte first, as the last block address and reports one
    more as the block count (modulo 2^32); of the last four, the block size,
    it keeps the two least significant bytes.  The engine is ready for reads
    from the next cycle on. *)
Theorem capacity_is_read_big_endian (b : state) (ins : list input)
    (i : MscHost.input) (h : MscHost.state) :
  st b = DATA_RX -> stream_mode b = false -> rx_byte_idx b = 0 ->
  all_busy ins = true -> length (received ins) = 8%nat ->
  MscHost.st h = MscHost.READ_CAPACITY_WAIT ->
  MscHost.watchdog_expired h = false ->
  MscHost.scsi_done i = true -> MscHost.ok i = true ->
  MscHost.captured i = captured_sig (run ins b) ->
  let d k := trunc 8 (nth k (received ins) 0) in
  let h' := MscHost.step i h in
  MscHost.st h' = MscHost.READY /\ MscHost.status_ready h' = true /\
  MscHost.block_count h'
  = (d 0%nat * 2 ^ 24 + d 1%nat * 2 ^ 16 + d 2%nat * 2 ^ 8 + d 3%nat + 1)
    mod 2 ^ 32 /\
  MscHost.block_size h' = d 6%nat * 2 ^ 8 + d 7%nat.
Proof.
  intros Hb Hm H0 Hbusy Hlen Hh He Hd Hok Hcap d h'.
  assert (Hk : forall k, 0 <= k < 8 ->
            byte_at (MscHost.captured i) k = d (Z.to_nat k)).
  { intros k Hk. rewrite Hcap.
    rewrite (capture_progress ins b Hb Hm Hbusy) by lia.
    rewrite H0, Hlen. unfold READ_CAPACITY_SIZE_BYTES.
    destruct (Z.leb_spec 0 k), (Z.ltb_spec k (0 + Z.of_nat 8)), (Z.ltb_spec k 8);
      cbn [andb]; try lia.
    now rewrite Z.sub_0_r. }
  subst h'. unfold MscHost.step. rewrite He.
  unfold MscHost.step_no_reset. rewrite Hh, Hd, Hok.
  unfold MscHost.status_ready, MscHost.status_busy.
  cbn [MscHost.st MscHost.block_count MscHost.block_size negb].
  split; [reflexivity |]. split; [reflexivity |].
  unfold MscHost.last_lba_le, MscHost.blk_size_le.
  rewrite !swap32_value.
  rewrite !byte_at_high_word by lia.
  change (3 + 4) with 7. change (2 + 4) with 6.
  change (1 + 4) with 5. change (0 + 4) with 4.
  rewrite (Hk 0), (Hk 1), (Hk 2), (Hk 3), (Hk 6), (Hk 7) by lia.
  pose proof (byte_at_range (MscHost.captured i) 5) as R5.
  pose proof (byte_at_range (MscHost.captured i) 4) as R4.
  change (Z.to_nat 0) with 0%nat. change (Z.to_nat 1) with 1%nat.
  change (Z.to_nat 2) with 2%nat. change (Z.to_nat 3) with 3%nat.
  change (Z.to_nat 6) with 6%nat. change (Z.to_nat 7) with 7%nat.
  split.
  - unfold trunc at 1. f_equal. lia.
  - assert (R6 : 0 <= d 6%nat < 256)
      by (subst d; cbv beta; apply trunc_range; lia).
    assert (R7 : 0 <= d 7%nat < 256)
      by (subst d; cbv beta; apply trunc_range; lia).
    unfold trunc at 1.
    replace (d 7%nat + 2 ^ 8 * d 6%nat
             + 2 ^ 16 * byte_at (MscHost.captured i) 5
             + 2 ^ 24 * byte_at (MscHost.captured i) 4)
      with ((d 7%nat + 2 ^ 8 * d 6%nat)
            + (byte_at (MscHost.captured i) 5
               + 2 ^ 8 * byte_at (MscHost.captured i) 4) * 2 ^ 16) by lia.
    rewrite Z.mod_add by lia. rewrite Z.mod_small; lia.
Qed.

Lemma capacity_is_read_big_endian_witness :
  let data := map rx_cycle [0x00; 0x1F; 0xFF; 0xFF; 0x00; 0x00; 0x02; 0x00] in
  let i := MscHost.done_with false false (captured_sig (run data capturing)) in
  MscHost.block_count (MscHost.step i MscHost.awaiting_capacity) = 0x200000 /\
  MscHost.block_size (MscHost.step i MscHost.awaiting_capacity) = 512.
Proof.
  intros data i.
  destruct (capacity_is_read_big_endian capturing data i
              MscHost.awaiting_capacity
              eq_refl eq_refl eq_refl eq_refl eq_refl eq_refl eq_refl
              eq_refl eq_refl eq_refl) as (_ & _ & C & S).
  split; [exact C | exact S].
Defined.

(** *** TEST UNIT READY *)

Lemma host_run_app a :
  forall b s, MscHost.run (a ++ b) s = MscHost.run b (MscHost.run a s).
Proof.
  induction a as [| i a IH]; intros b s; cbn [app MscHost.run];
    [reflexivity | apply IH].
Qed.

Lemma started_app a :
  forall b s,
    MscHost.started (a ++ b) s
    = MscHost.started a s ++ MscHost.started b (MscHost.run a s).
Proof.
  induction a as [| i a IH]; intros b s;
    cbn [app MscHost.started MscHost.run]; [reflexivity |].
  rewrite IH. destruct (start (MscHost.scsi_cmd s)); reflexivity.
Qed.

Lemma tur_waiting ws :
  forall s,
    MscHost.st s = MscHost.TEST_UNIT_READY_WAIT -> MscHost.waits ws = true ->
    0 <= MscHost.watchdog s ->
    MscHost.watchdog s + Z.of_nat (length ws) < MscHost._WATCHDOG_CYCLES - 1 ->
    MscHost.st (MscHost.run ws s) = MscHost.TEST_UNIT_READY_WAIT /\
    MscHost.init_retry (MscHost.run ws s) = MscHost.init_retry s /\
    MscHost.watchdog (MscHost.run ws s)
    = MscHost.watchdog s + Z.of_nat (length ws) /\
    MscHost.started ws s = [].
Proof.
  induction ws as [| i ws IH]; intros s Hs Hw H0 Hn.
  - cbn. repeat split; try assumption; lia.
  - cbn [MscHost.waits forallb] in Hw. apply andb_true_iff in Hw as [Hi Hw].
    apply negb_true_iff in Hi. cbn [length] in Hn.
    assert (He : MscHost.watchdog_expired s = false)
      by (apply host_not_expired; lia).
    assert (Es : MscHost.step i s
                 = {| MscHost.st := MscHost.TEST_UNIT_READY_WAIT;
                      MscHost.block_size := MscHost.block_size s;
                      MscHost.block_count := MscHost.block_count s;
                      MscHost.current_lba := MscHost.current_lba s;
                      MscHost.init_retry := MscHost.init_retry s;
                      MscHost.watchdog := MscHost.watchdog s + 1 |}).
    { unfold MscHost.step. rewrite He. unfold MscHost.step_no_reset.
      rewrite Hs, Hi. f_equal. apply trunc_small.
      unfold MscHost._WATCHDOG_CYCLES in Hn.
      change (2 ^ 32) with 4294967296. lia. }
    cbn [MscHost.run MscHost.started]. rewrite Es.
    unfold MscHost.scsi_cmd at 1. rewrite Hs. cbn [start].
    match goal with
    | |- context [MscHost.run ws ?t] =>
        destruct (IH t) as (A & B & C & D);
          [reflexivity | exact Hw | cbn [MscHost.watchdog]; lia
          | cbn [MscHost.watchdog]; lia |]
    end.
    rewrite A, B, C, D. cbn [MscHost.init_retry MscHost.watchdog length].
    repeat split; lia.
Qed.

(** one failed TEST UNIT READY *)
Lemma tur_fails r s :
  MscHost.st s = MscHost.TEST_UNIT_READY -> MscHost.failing r = true ->
  0 <= MscHost.init_retry s <= 10 ->
  0 <= MscHost.watchdog s ->
  MscHost.watchdog s + Z.of_nat (length (MscHost.attempt r))
  < MscHost._WATCHDOG_CYCLES - 1 ->
  let s' := MscHost.run (MscHost.attempt r) s in
  MscHost.st s' = (if 10 <=? MscHost.init_retry s
                   then MscHost.WAIT_ENUMERATION else MscHost.TEST_UNIT_READY) /\
  MscHost.init_retry s' = MscHost.init_retry s + 1 /\
  MscHost.watchdog s'
  = MscHost.watchdog s + Z.of_nat (length (MscHost.attempt r)) /\
  MscHost.started (MscHost.attempt r) s = [0].
Proof.
  intros Hs Hf Hr H0 Hn. destruct r as [[e0 ws] ef].
  unfold MscHost.failing, MscHost.attempt in *. cbn [fst snd] in *.
  apply andb_true_iff in Hf as [Hw Hf].
  unfold MscHost.fails in Hf. apply andb_true_iff in Hf as [Hd Hk].
  apply negb_true_iff in Hk.
  cbn [length] in Hn. rewrite length_app in Hn. cbn [length] in Hn.
  assert (He : MscHost.watchdog_expired s = false)
    by (apply host_not_expired; lia).
  assert (Ht : forall w, 0 <= w < MscHost._WATCHDOG_CYCLES - 1 ->
                         trunc 32 (w + 1) = w + 1).
  { intros w Hw'. apply trunc_small. unfold MscHost._WATCHDOG_CYCLES in Hw'.
    change (2 ^ 32) with 4294967296. lia. }
  set (s1 := MscHost.step e0 s).
  assert (E1 : MscHost.st s1 = MscHost.TEST_UNIT_READY_WAIT /\
               MscHost.init_retry s1 = MscHost.init_retry s /\
               MscHost.watchdog s1 = MscHost.watchdog s + 1).
  { subst s1. unfold MscHost.step. rewrite He. unfold MscHost.step_no_reset.
    rewrite Hs. cbn. repeat split. apply Ht. lia. }
  destruct E1 as (A1 & B1 & C1).
  destruct (tur_waiting ws s1 A1 Hw) as (A & B & C & D); try lia.
  set (s2 := MscHost.run ws s1) in *.
  assert (He2 : MscHost.watchdog_expired s2 = false)
    by (apply host_not_expired; lia).
  cbv zeta. cbn [MscHost.run MscHost.started]. fold s1.
  unfold MscHost.scsi_cmd at 1. rewrite Hs. cbn [start cdb].
  rewrite host_run_app, started_app, D. fold s2.
  cbn [MscHost.run MscHost.started app].
  assert (Ec : start (MscHost.scsi_cmd s2) = false)
    by (unfold MscHost.scsi_cmd; rewrite A; reflexivity).
  assert (Eo : cdb_opcode (MscHost.scsi_cmd s) = 0)
    by (unfold MscHost.scsi_cmd; rewrite Hs; vm_compute; reflexivity).
  rewrite Ec, Eo.
  unfold MscHost.step. rewrite He2. unfold MscHost.step_no_reset.
  rewrite A, Hd, Hk. cbn [MscHost.st MscHost.init_retry MscHost.watchdog].
  rewrite B, B1, C, C1. unfold MscHost._INIT_RETRY_MAX.
  split; [reflexivity |]. split.
  - apply trunc_small. change (2 ^ 4) with 16. lia.
  - split; [| reflexivity].
    rewrite Ht by lia. cbn [length]. rewrite length_app. cbn [length]. lia.
Qed.

Lemma tur_retries rs :
  forall s,
    MscHost.st s = MscHost.TEST_UNIT_READY ->
    forallb MscHost.failing rs = true ->
    0 <= MscHost.init_retry s ->
    MscHost.init_retry s + Z.of_nat (length rs) <= 10 ->
    0 <= MscHost.watchdog s ->
    MscHost.watchdog s + MscHost.cycles rs < MscHost._WATCHDOG_CYCLES - 1 ->
    let s' := MscHost.run (MscHost.attempts rs) s in
    MscHost.st s' = MscHost.TEST_UNIT_READY /\
    MscHost.init_retry s' = MscHost.init_retry s + Z.of_nat (length rs) /\
    MscHost.watchdog s' = MscHost.watchdog s + MscHost.cycles rs /\
    MscHost.started (MscHost.attempts rs) s = repeat 0 (length rs).
Proof.
  induction rs as [| r rs IH]; intros s Hs Hf H0 Hn Hw0 Hw.
  - cbn. unfold MscHost.cycles. cbn. repeat split; try assumption; lia.
  - cbn [forallb] in Hf. apply andb_true_iff in Hf as [Hr Hf].
    unfold MscHost.cycles, MscHost.attempts in *.
    cbn [map concat length] in *. rewrite length_app in Hw.
    pose proof (tur_fails r s Hs Hr) as P. cbv zeta in P.
    destruct P as (A & B & C & D); try lia.
    destruct (Z.leb_spec 10 (MscHost.init_retry s)); [lia |].
    rewrite host_run_app, started_app, D.
    assert (IH' := IH (MscHost.run (MscHost.attempt r) s) A Hf).
    cbv zeta in IH'. rewrite B, C in IH'.
    destruct IH' as (A' & B' & C' & D'); try lia.
    rewrite A', B', C', D', length_app. cbn [app repeat].
    repeat split; lia.
Qed.

(** X28. TEST UNIT READY is tried eleven times.  While the transport
    reports each attempt as failed (error or rejected), the engine strobes
    the command again, ten times over, each time within a cycle of the
    failure; after the eleventh failure in a row it gives up and goes back to
    WAIT-ENUMERATION, having started no other command. *)
Theorem test_unit_ready_is_retried
    (rs : list (MscHost.input * list MscHost.input * MscHost.input))
    (r : MscHost.input * list MscHost.input * MscHost.input)
    (s : MscHost.state) :
  MscHost.st s = MscHost.TEST_UNIT_READY -> MscHost.init_retry s = 0 ->
  length rs = 10%nat ->
  forallb MscHost.failing rs = true -> MscHost.failing r = true ->
  0 <= MscHost.watchdog s ->
  MscHost.watchdog s + MscHost.cycles (rs ++ [r])
  < MscHost._WATCHDOG_CYCLES - 1 ->
  (forall k, (k <= 10)%nat ->
     MscHost.st (MscHost.run (MscHost.attempts (firstn k rs)) s)
     = MscHost.TEST_UNIT_READY) /\
  MscHost.st (MscHost.run (MscHost.attempts (rs ++ [r])) s)
  = MscHost.WAIT_ENUMERATION /\
  MscHost.started (MscHost.attempts (rs ++ [r])) s = repeat 0 11.
Proof.
  intros Hs Hi Hl Hf Hr Hw0 Hw.
  assert (Hcyc : forall a b, MscHost.cycles (a ++ b)
                             = MscHost.cycles a + MscHost.cycles b).
  { intros a b. unfold MscHost.cycles, MscHost.attempts.
    rewrite map_app, concat_app, length_app. lia. }
  assert (Hpos : forall a, 0 <= MscHost.cycles a)
    by (intros a; unfold MscHost.cycles; lia).
  rewrite Hcyc in Hw. pose proof (Hpos [r]) as Hp1. pose proof (Hpos rs) as Hp.
  assert (Hc1 : MscHost.cycles [r] = Z.of_nat (length (MscHost.attempt r))).
  { unfold MscHost.cycles, MscHost.attempts. cbn [map concat].
    rewrite app_nil_r. reflexivity. }
  assert (Ha : MscHost.attempts (rs ++ [r])
               = MscHost.attempts rs ++ MscHost.attempt r).
  { unfold MscHost.attempts. rewrite map_app, concat_app. cbn [map concat].
    rewrite app_nil_r. reflexivity. }
  assert (P : let s' := MscHost.run (MscHost.attempts rs) s in
              MscHost.st s' = MscHost.TEST_UNIT_READY /\
              MscHost.init_retry s'
              = MscHost.init_retry s + Z.of_nat (length rs) /\
              MscHost.watchdog s' = MscHost.watchdog s + MscHost.cycles rs /\
              MscHost.started (MscHost.attempts rs) s = repeat 0 (length rs))
    by (apply tur_retries; try assumption; lia).
  cbv zeta in P. destruct P as (A & B & C & D).
  assert (Q : let s' := MscHost.run (MscHost.attempt r)
                          (MscHost.run (MscHost.attempts rs) s) in
              MscHost.st s'
              = (if 10 <=? MscHost.init_retry
                             (MscHost.run (MscHost.attempts rs) s)
                 then MscHost.WAIT_ENUMERATION else MscHost.TEST_UNIT_READY) /\
              MscHost.init_retry s'
              = MscHost.init_retry (MscHost.run (MscHost.attempts rs) s) + 1 /\
              MscHost.watchdog s'
              = MscHost.watchdog (MscHost.run (MscHost.attempts rs) s)
                + Z.of_nat (length (MscHost.attempt r)) /\
              MscHost.started (MscHost.attempt r)
                (MscHost.run (MscHost.attempts rs) s) = [0])
    by (apply tur_fails; try assumption; rewrite ?B, ?C; lia).
  cbv zeta in Q. destruct Q as (A' & _ & _ & D').
  rewrite B, Hi, Hl in A'.
  split; [| split].
  - intros k Hk.
    assert (Hfk : forallb MscHost.failing (firstn k rs) = true).
    { rewrite forallb_forall in *. intros x Hx. apply Hf.
      rewrite <- (firstn_skipn k rs). apply in_or_app. now left. }
    assert (Hck : MscHost.cycles (firstn k rs) <= MscHost.cycles rs).
    { rewrite <- (firstn_skipn k rs) at 2. rewrite Hcyc.
      pose proof (Hpos (skipn k rs)). lia. }
    assert (Hlk : (length (firstn k rs) <= 10)%nat)
      by (rewrite length_firstn; lia).
    apply (tur_retries (firstn k rs) s Hs Hfk); lia.
  - rewrite Ha, host_run_app, A'. reflexivity.
  - rewrite Ha, started_app, D, D', Hl. reflexivity.
Qed.

Lemma test_unit_ready_is_retried_witness :
  let r := (MscHost.pending, [MscHost.pending; MscHost.pending],
            MscHost.done_with true false 0) in
  let s := {| MscHost.st := MscHost.TEST_UNIT_READY; MscHost.block_size := 512;
              MscHost.block_count := 0; MscHost.current_lba := 0;
              MscHost.init_retry := 0; MscHost.watchdog := 1 |} in
  MscHost.st (MscHost.run (MscHost.attempts (repeat r 10 ++ [r])) s)
  = MscHost.WAIT_ENUMERATION.
Proof.
  intros r s.
  refine (proj1 (proj2 (test_unit_ready_is_retried (repeat r 10) r s
                          eq_refl eq_refl eq_refl eq_refl eq_refl _ _))).
  - cbn. lia.
  - vm_compute. reflexivity.
Defined.

End MscHostFacts.

(** ** The MIDI engine: event framing and the data PID *)

Module MidiFacts.

Import Sie Midi.

Lemma midi_run_app a :
  forall b s, run (a ++ b) s = run b (run a s).
Proof.
  induction a as [| i a IH]; intros b s; cbn [app run];
    [reflexivity | apply IH].
Qed.

Lemma midi_not_expired s :
  0 <= watchdog s < _WATCHDOG_CYCLES - 1 -> watchdog_expired s = false.
Proof. intros H. unfold watchdog_expired. apply Z.eqb_neq. lia. Qed.

Lemma midi_tick w :
  0 <= w < _WATCHDOG_CYCLES - 1 -> trunc 32 (w + 1) = w + 1.
Proof.
  intros H. apply trunc_small. unfold _WATCHDOG_CYCLES in H.
  change (2 ^ 32) with 4294967296. lia.
Qed.

(** one cycle of a running transfer *)
Lemma same_frame_step i s :
  st s = MIDI_POLL -> polls (l_sof_frame s) i = false ->
  0 <= watchdog s < _WATCHDOG_CYCLES - 1 ->
  st (step i s) = MIDI_POLL /\
  l_sof_frame (step i s) = l_sof_frame s /\
  rx_byte_count (step i s) = rx_count_after_rx i s /\
  0 <= watchdog (step i s) <= watchdog s + 1 /\
  pid (step i s) = (if Keyboard.is_ack (status_response i)
                    then Keyboard.toggle (pid s) else pid s) /\
  (Keyboard.is_ack (status_response i) = true -> watchdog (step i s) = 0).
Proof.
  intros Hs Hp Hw. unfold step. rewrite (midi_not_expired s Hw).
  unfold step_no_reset, poll_now. rewrite Hs. unfold polls in Hp. rewrite Hp.
  cbn [st l_sof_frame rx_byte_count watchdog pid].
  repeat split; try reflexivity.
  - destruct (_ || _); [lia | rewrite midi_tick; lia].
  - destruct (_ || _); [lia | rewrite midi_tick; lia].
  - intros Ha. now rewrite Ha.
Qed.

Lemma framing_progress ins :
  forall s k,
    st s = MIDI_POLL -> same_frame (l_sof_frame s) ins = true ->
    0 <= k -> rx_byte_count s = k mod 4 ->
    0 <= watchdog s ->
    watchdog s + Z.of_nat (length ins) < _WATCHDOG_CYCLES - 1 ->
    pushed ins s = events k (accepted ins) /\
    st (run ins s) = MIDI_POLL /\
    l_sof_frame (run ins s) = l_sof_frame s /\
    rx_byte_count (run ins s)
    = (k + Z.of_nat (length (accepted ins))) mod 4.
Proof.
  induction ins as [| i ins IH]; intros s k Hs Hq Hk Hc Hw0 Hw.
  - cbn. rewrite Z.add_0_r. auto.
  - cbn [same_frame forallb] in Hq. apply andb_true_iff in Hq as [Hi Hq].
    apply negb_true_iff in Hi. cbn [length] in Hw.
    assert (P := same_frame_step i s Hs Hi ltac:(lia)).
    destruct P as (A & B & C & D & _).
    assert (Ea : accepted (i :: ins)
                 = if rx_fire i then rxs_payload i :: accepted ins
                   else accepted ins).
    { unfold accepted. cbn [filter]. now destruct (rx_fire i). }
    cbn [pushed run]. rewrite Ea. unfold rx_push.
    unfold rx_count_after_rx in C.
    destruct (rx_fire i) eqn:Hf.
    + assert (IH' := IH (step i s) (k + 1) A).
      rewrite B in IH'. specialize (IH' Hq ltac:(lia)).
      assert (Hc' : rx_byte_count (step i s) = (k + 1) mod 4).
      { rewrite C, Hc. unfold trunc. change (2 ^ 2) with 4.
        now rewrite Z.add_mod_idemp_l by lia. }
      specialize (IH' Hc' ltac:(lia) ltac:(lia)).
      destruct IH' as (I1 & I2 & I3 & I4).
      cbn [events length]. rewrite I1, I2, I3, I4, Hc.
      unfold USB_MIDI_EVENT_SIZE. repeat split. f_equal. lia.
    + assert (IH' := IH (step i s) k A).
      rewrite B in IH'. specialize (IH' Hq Hk).
      assert (Hc' : rx_byte_count (step i s) = k mod 4) by now rewrite C.
      specialize (IH' Hc' ltac:(lia) ltac:(lia)).
      destruct IH' as (I1 & I2 & I3 & I4).
      rewrite I1, I2, I3, I4. auto.
Qed.

(** X29. USB-MIDI events are framed per transfer.  When the engine starts a
    poll, whatever its byte counter was, the bytes the FIFO then takes from
    the SIE until the next poll are handed over in their order, in events of
    four: the bytes number 0, 4, 8, ... of the transfer carry [first], the
    bytes number 3, 7, 11, ... carry [last], no other byte carries a mark,
    however the FIFO stalls; a transfer whose length is not a multiple of
    four leaves its last event open, and the next poll starts a new one. *)
Theorem midi_events_are_framed (p : input) (ins : list input) (s : state) :
  st s = MIDI_POLL -> polls (l_sof_frame s) p = true ->
  rx_fire p = false ->
  same_frame (status_sof_frame p) ins = true ->
  0 <= watchdog s ->
  watchdog s + Z.of_nat (length ins) + 1 < _WATCHDOG_CYCLES - 1 ->
  xfer_start p s = true /\
  pushed (p :: ins) s = events 0 (accepted ins) /\
  st (run (p :: ins) s) = MIDI_POLL /\
  rx_byte_count (run (p :: ins) s)
  = Z.of_nat (length (accepted ins)) mod 4.
Proof.
  intros Hs Hp Hf Hq Hw0 Hw.
  assert (E : step p s
              = {| st := MIDI_POLL; watchdog := watchdog s + 1; pid := pid s;
                   l_sof_frame := status_sof_frame p; rx_byte_count := 0 |}).
  { unfold step. rewrite midi_not_expired by lia.
    unfold step_no_reset, poll_now. rewrite Hs. unfold polls in Hp.
    rewrite Hp. now rewrite midi_tick by lia. }
  split; [unfold xfer_start, poll_now; now rewrite Hs |].
  cbn [pushed run]. unfold rx_push. rewrite Hf, E.
  match goal with
  | |- context [run ins ?t] =>
      assert (P := framing_progress ins t 0 eq_refl Hq ltac:(lia) eq_refl)
  end.
  cbn [watchdog] in P. destruct P as (A & B & _ & D); [lia | lia |].
  now rewrite A, B, D.
Qed.

Lemma midi_events_are_framed_witness :
  pushed (mcycle true NONE 7 None true
          :: [mcycle false NONE 7 (Some 9) true;
              mcycle false NONE 7 (Some 144) true;
              mcycle false NONE 7 (Some 60) false;
              mcycle false NONE 7 (Some 60) true;
              mcycle false NONE 7 (Some 127) true;
              mcycle false NONE 7 (Some 8) true])
    (polling 6 2)
  = [ {| MscStream.p_data := 9; MscStream.p_first := true;
         MscStream.p_last := false |};
      {| MscStream.p_data := 144; MscStream.p_first := false;
         MscStream.p_last := false |};
      {| MscStream.p_data := 60; MscStream.p_first := false;
         MscStream.p_last := false |};
      {| MscStream.p_data := 127; MscStream.p_first := false;
         MscStream.p_last := true |};
      {| MscStream.p_data := 8; MscStream.p_first := true;
         MscStream.p_last := false |} ].
Proof.
  refine (proj1 (proj2 (midi_events_are_framed
                          (mcycle true NONE 7 None true)
                          [mcycle false NONE 7 (Some 9) true;
                           mcycle false NONE 7 (Some 144) true;
                           mcycle false NONE 7 (Some 60) false;
                           mcycle false NONE 7 (Some 60) true;
                           mcycle false NONE 7 (Some 127) true;
                           mcycle false NONE 7 (Some 8) true]
                          (polling 6 2)
                          eq_refl eq_refl eq_refl eq_refl _ _))).
  - cbn. lia.
  - vm_compute. reflexivity.
Defined.

(** X30. The data PID follows the clock, not the transfers.  In MIDI-POLL the
    PID is toggled in every cycle in which the SIE shows ACK and no new poll
    is due, not once per acknowledged transfer: after [n] such cycles it has
    been toggled [n] times, so the PID of the next poll is the old one if [n]
    is even; the watchdog is held at zero meanwhile. *)
Theorem pid_toggles_every_ack_cycle (ins : list input) :
  forall s,
    st s = MIDI_POLL ->
    forallb (shows_ack (l_sof_frame s)) ins = true ->
    0 <= watchdog s < _WATCHDOG_CYCLES - 1 ->
    st (run ins s) = MIDI_POLL /\
    pid (run ins s) = KeyboardRun.toggles (length ins) (pid s) /\
    (ins <> [] -> watchdog (run ins s) = 0).
Proof.
  induction ins as [| i ins IH]; intros s Hs Ha Hw.
  - cbn. repeat split; try assumption. intros H. now destruct H.
  - cbn [forallb] in Ha. apply andb_true_iff in Ha as [Hi Ha].
    unfold shows_ack in Hi. apply andb_true_iff in Hi as [Hp Hk].
    apply negb_true_iff in Hp.
    destruct (same_frame_step i s Hs Hp Hw) as (A & B & _ & D & E & F).
    rewrite Hk in E. specialize (F Hk).
    cbn [run length]. rewrite <- B in Ha.
    destruct (IH (step i s) A Ha) as (I1 & I2 & I3);
      [rewrite F; unfold _WATCHDOG_CYCLES; lia |].
    rewrite I1, I2, E. split; [reflexivity |]. split.
    + clear. induction (length ins) as [| n IHn]; [reflexivity |].
      cbn [KeyboardRun.toggles] in *. now rewrite IHn.
    + intros _. destruct ins as [| j ins']; [exact F | apply I3; discriminate].
Qed.

Lemma pid_toggles_every_ack_cycle_witness :
  pid (run (repeat (mcycle true ACK 6 None true) 4) (polling 6 0)) = DATA0.
Proof.
  refine (proj1 (proj2 (pid_toggles_every_ack_cycle
                          (repeat (mcycle true ACK 6 None true) 4)
                          (polling 6 0) eq_refl eq_refl _))).
  cbn. unfold _WATCHDOG_CYCLES. lia.
Defined.

End MidiFacts.
